(** * clean-orders: the Order aggregate, its value objects, the CreateOrder
    and AddItemToOrder use cases, the HTTP controller, the in-memory
    adapters, the price service and the outbox writer and dispatcher,
    embedded from the TypeScript sources.

    Conventions of the embedding.
    - A TypeScript [number] is an IEEE-754 binary64 value: Rocq's primitive
      [float], with its own rounding, infinities and NaN.
    - A [string] is a Rocq [string]; the runtime's case mapping and white-space
      stripping are given on the ASCII range, where they are exact.
    - A JavaScript [Map] keeps its keys in insertion order: an association
      list whose [Map_set] replaces in place or appends.
    - A [Date] is its time value (milliseconds since the epoch, an integer);
      the clock and [Math.random] are read once per operation and passed in.
    - A method that mutates [this] returns the new object next to its result.
    - Each class is a [Module] named after it; [t] is the type of instances. *)

From Stdlib Require Import Bool List String Ascii ZArith NArith Lia.
From Stdlib Require Import Floats Uint63.
From Stdlib Require Import Permutation Sorted.
Import ListNotations.

Set Warnings "-inexact-float".
Local Open Scope list_scope.
Local Open Scope string_scope.

(* ================================================================== *)
(** ** shared/Results.ts *)

Inductive Result (T E : Type) : Type :=
| ok (value : T)
| fail (error : E).
Arguments ok {T E} value.
Arguments fail {T E} error.

Definition isOk {T E} (result : Result T E) : bool :=
  match result with ok _ => true | fail _ => false end.

Definition isFail {T E} (result : Result T E) : bool :=
  match result with ok _ => false | fail _ => true end.

(* ================================================================== *)
(** ** The JavaScript runtime the sources rely on *)

Module Js.

Definition number := float.

(** [Number.isFinite] *)
Definition Number_isFinite (x : number) : bool := PrimFloat.is_finite x.

(** [Number.isInteger]: finite and without fractional part. *)
Definition Number_isInteger (x : number) : bool :=
  match Prim2SF x with
  | S754_zero _ => true
  | S754_finite _ m e =>
      (0 <=? e)%Z || (Z.pos m mod 2 ^ (- e) =? 0)%Z
  | _ => false
  end.

Definition number_of_nat (n : nat) : number :=
  PrimFloat.of_uint63 (Uint63.of_Z (Z.of_nat n)).

(** *** Dates: time values, read in UTC *)
Section Dates.
Local Open Scope Z_scope.

Definition Date := Z.





End Dates.

(** *** Promises: what [await] yields *)
Definition unknown := string.

Inductive Settled (A : Type) : Type :=
| Fulfilled (value : A)
| Rejected (reason : unknown).
Arguments Fulfilled {A} value.
Arguments Rejected {A} reason.

(** *** Strings *)

(** [!value] on a string: only the empty string is falsy. *)
Definition String_falsy (s : string) : bool := (s =? "").

(** [if (value)] on an optional string: [undefined] and the empty
    string are falsy; a truthy value is handed on. *)
Definition truthy (value : option string) : option string :=
  match value with
  | Some s => if String_falsy s then None else Some s
  | None => None
  end.

Definition toUpperCase_char (c : ascii) : ascii :=
  let n := N_of_ascii c in
  if ((97 <=? n) && (n <=? 122))%N then ascii_of_N (n - 32) else c.

(** [String.prototype.toUpperCase] *)
Fixpoint toUpperCase (s : string) : string :=
  match s with
  | EmptyString => EmptyString
  | String c r => String (toUpperCase_char c) (toUpperCase r)
  end.

(** White space and line terminators of the ASCII range:
    TAB, LF, VT, FF, CR and SPACE. *)
Definition isWhiteSpace (c : ascii) : bool :=
  let n := N_of_ascii c in
  ((9 <=? n) && (n <=? 13) || (n =? 32))%N.

Fixpoint trimStart (s : string) : string :=
  match s with
  | EmptyString => EmptyString
  | String c r => if isWhiteSpace c then trimStart r else s
  end.

Fixpoint trimEnd (s : string) : string :=
  match s with
  | EmptyString => EmptyString
  | String c r =>
      let r' := trimEnd r in
      if isWhiteSpace c && (r' =? "") then EmptyString else String c r'
  end.

(** [String.prototype.trim] *)
Definition trim (s : string) : string := trimEnd (trimStart s).

(** [String.prototype.substring start end]: both indices are clamped to
    the length and swapped when out of order. *)
Definition substring (start end_ : nat) (s : string) : string :=
  let len := String.length s in
  let a := Nat.min start len in
  let b := Nat.min end_ len in
  String.substring (Nat.min a b) (Nat.max a b - Nat.min a b) s.

(** [Array.prototype.join] *)
Definition join (sep : string) (l : list string) : string :=
  String.concat sep l.

(** [Array.prototype.includes] on strings *)
Definition includes (l : list string) (x : string) : bool :=
  existsb (String.eqb x) l.

(** *** Map keyed by strings, in insertion order *)

Section Map.
Context {V : Type}.

Definition Map := list (string * V).

Definition Map_new : Map := [].

Fixpoint Map_get (m : Map) (k : string) : option V :=
  match m with
  | [] => None
  | (k', v) :: r => if k =? k' then Some v else Map_get r k
  end.

Definition Map_has (m : Map) (k : string) : bool :=
  match Map_get m k with Some _ => true | None => false end.

(** An existing key keeps its position; a new key goes last. *)
Fixpoint Map_set (m : Map) (k : string) (v : V) : Map :=
  match m with
  | [] => [(k, v)]
  | (k', v') :: r =>
      if k =? k' then (k', v) :: r else (k', v') :: Map_set r k v
  end.

Definition Map_size (m : Map) : nat := List.length m.

Definition Map_keys (m : Map) : list string := List.map fst m.

Definition Map_values (m : Map) : list V := List.map snd m.

(** [m.values().next().value]: [None] stands for [undefined]. *)
Definition Map_first (m : Map) : option V := List.hd_error (Map_values m).
End Map.
Arguments Map V : clear implicits.

(** *** Number.prototype.toString(36) *)

Definition chars : string := "0123456789abcdefghijklmnopqrstuvwxyz".

Definition digit_char (d : nat) : ascii :=
  match String.get d chars with Some c => c | None => "0"%char end.

Fixpoint string_of_digits (ds : list nat) : string :=
  match ds with
  | [] => EmptyString
  | d :: r => String (digit_char d) (string_of_digits r)
  end.

(** Integral values (a time value is an integer below 2^53): the digits
    of the integer part, most significant first. *)
Fixpoint integer_digits (fuel : nat) (n : N) (acc : list nat) : list nat :=
  match fuel with
  | O => acc
  | S fuel' =>
      let acc' := N.to_nat (n mod 36) :: acc in
      if (n / 36 =? 0)%N then acc' else integer_digits fuel' (n / 36) acc'
  end.

Definition integer_toString36 (z : Z) : string :=
  let n := Z.abs_N z in
  (if (z <? 0)%Z then "-" else "")
    ++ string_of_digits (integer_digits (S (N.to_nat (N.log2 n))) n []).

(** Values of the unit interval, as [Math.random] returns them: the
    engine's radix conversion (V8, [DoubleToRadixCString]) emits
    fractional digits only up to the precision of the double, rounds the
    last one, and propagates a carry backwards. *)

(** [static_cast<int>(fraction)] for [0 <= fraction < 36]. *)
Definition digit_of (fraction : float) : nat :=
  List.length
    (List.filter (fun k => (number_of_nat k <=? fraction)%float) (List.seq 1 35)).

(** The carry walks back over the digits written so far (last one first);
    [true] when it reaches the decimal point and goes into the integer part. *)
Fixpoint carry_back (written : list nat) : list nat * bool :=
  match written with
  | [] => ([], true)
  | d :: r => if (S d <? 36)%nat then (S d :: r, false) else carry_back r
  end.

Definition kBufferSize : nat := 2200.

Fixpoint fraction_digits (fuel : nat) (fraction delta : float)
         (written : list nat) : list nat * bool :=
  match fuel with
  | O => (written, false)
  | S fuel' =>
      let fraction := (fraction * 36)%float in
      let delta := (delta * 36)%float in
      let digit := digit_of fraction in
      let written := digit :: written in
      let fraction := (fraction - number_of_nat digit)%float in
      if ((0.5 <? fraction)%float
          || ((fraction =? 0.5)%float && Nat.odd digit))
         && (1 <? fraction + delta)%float
      then carry_back written
      else if (delta <=? fraction)%float
           then fraction_digits fuel' fraction delta written
           else (written, false)
  end.

Definition unit_toString36 (value : float) : string :=
  let fraction := value in
  let delta := (0.5 * (next_up value - value))%float in
  let delta := if (next_up 0 <? delta)%float then delta else next_up 0 in
  let '(written, carried) :=
    if (delta <=? fraction)%float
    then fraction_digits (kBufferSize / 2) fraction delta []
    else ([], false) in
  (if carried then "1" else "0")
    ++ match written with
       | [] => ""
       | _ => String "."%char (string_of_digits (List.rev written))
       end.

End Js.
Import Js.

(* ================================================================== *)
(** ** domain/value-objects/Currency.ts *)

Module Currency.

(** [CurrencyCode] is a union of string literals: at run time a string. *)
Definition CurrencyCode := string.

Record t := mk { _code : CurrencyCode }.

Definition getSupportedCurrencies : list CurrencyCode :=
  ["USD"; "EUR"; "GBP"; "JPY"; "MXN"; "ARS"; "CLP"].

Definition isValidCurrencyCode (code : string) : bool :=
  includes ["USD"; "EUR"; "GBP"; "JPY"; "MXN"; "ARS"; "CLP"] code.

Definition create (code : string) : Result t string :=
  let upperCode := toUpperCase code in
  if negb (isValidCurrencyCode upperCode) then
    fail ("Código de moneda inválido: " ++ code
          ++ ". Códigos soportados: " ++ join ", " getSupportedCurrencies)
  else ok (mk upperCode).

Definition USD : t := mk "USD".
Definition EUR : t := mk "EUR".
Definition GBP : t := mk "GBP".
Definition JPY : t := mk "JPY".
Definition MXN : t := mk "MXN".
Definition ARS : t := mk "ARS".
Definition CLP : t := mk "CLP".

Definition code (this : t) : CurrencyCode := _code this.

Definition equals (this other : t) : bool := (_code this =? _code other).

Definition toString (this : t) : string := _code this.

End Currency.

(* ================================================================== *)
(** ** domain/value-objects/Money.ts *)

Module Money.

Record t := mk { _amount : number; _currency : Currency.t }.

Definition create (amount : number) (currency : Currency.t) : Result t string :=
  if negb (Number_isFinite amount) then
    fail "El monto debe ser un número válido"
  else if (amount <? 0)%float then
    fail "El monto no puede ser negativo"
  else ok (mk amount currency).

Definition amount (this : t) : number := _amount this.
Definition currency (this : t) : Currency.t := _currency this.

Definition hasSameCurrency (this other : t) : bool :=
  Currency.equals (_currency this) (_currency other).

Definition add (this other : t) : Result t string :=
  if negb (hasSameCurrency this other) then
    fail ("No se pueden sumar cantidades con monedas diferentes: "
          ++ Currency.code (_currency this) ++ " y "
          ++ Currency.code (_currency other))
  else create (_amount this + _amount other)%float (_currency this).

Definition multiply (this : t) (factor : number) : Result t string :=
  if negb (Number_isFinite factor) || (factor <? 0)%float then
    fail "El factor de multiplicación debe ser un número positivo válido"
  else create (_amount this * factor)%float (_currency this).

Definition equals (this other : t) : bool :=
  (_amount this =? _amount other)%float
  && Currency.equals (_currency this) (_currency other).

End Money.

(* ================================================================== *)
(** ** domain/value-objects/Quantity.ts *)

Module Quantity.

Record t := mk { _value : number }.

Definition create (value : number) : Result t string :=
  if negb (Number_isInteger value) then
    fail "La cantidad debe ser un número entero"
  else if (value <=? 0)%float then
    fail "La cantidad debe ser mayor que cero"
  else ok (mk value).

Definition value (this : t) : number := _value this.

Definition add (this other : t) : t := mk (_value this + _value other)%float.

Definition equals (this other : t) : bool :=
  (_value this =? _value other)%float.

End Quantity.

(* ================================================================== *)
(** ** domain/value-objects/ProductId.ts *)

Module ProductId.

Record t := mk { _value : string }.

Definition create (value : string) : Result t string :=
  if String_falsy value || (String.length (trim value) =? 0)%nat then
    fail "El ID del producto no puede estar vacío"
  else ok (mk (trim value)).

Definition value (this : t) : string := _value this.

Definition equals (this other : t) : bool := (_value this =? _value other).

Definition toString (this : t) : string := _value this.

End ProductId.

(* ================================================================== *)
(** ** domain/value-objects/OrderId.ts *)

Module OrderId.

Record t := mk { _value : string }.

Definition create (value : string) : Result t string :=
  if String_falsy value || (String.length (trim value) =? 0)%nat then
    fail "El ID del pedido no puede estar vacío"
  else ok (mk (trim value)).

(** [now] is what [Date.now()] reads and [random] what [Math.random()]
    returns. *)
Definition generate (now : Date) (random : number) : t :=
  let timestamp := integer_toString36 now in
  let random := substring 2 9 (unit_toString36 random) in
  mk ("ORD-" ++ timestamp ++ "-" ++ random).

Definition value (this : t) : string := _value this.

Definition equals (this other : t) : bool := (_value this =? _value other).

Definition toString (this : t) : string := _value this.

End OrderId.

(* ================================================================== *)
(** ** domain/value-objects/OrderItem.ts *)

Module OrderItem.

Record t := mk {
  _productId : ProductId.t;
  _quantity : Quantity.t;
  _unitPrice : Money.t
}.

Definition create (productId : ProductId.t) (quantity : Quantity.t)
           (unitPrice : Money.t) : Result t string :=
  ok (mk productId quantity unitPrice).

Definition productId (this : t) : ProductId.t := _productId this.
Definition quantity (this : t) : Quantity.t := _quantity this.
Definition unitPrice (this : t) : Money.t := _unitPrice this.

Definition calculateSubtotal (this : t) : Result Money.t string :=
  Money.multiply (_unitPrice this) (Quantity.value (_quantity this)).

Definition increaseQuantity (this : t) (additionalQuantity : Quantity.t) : t :=
  let newQuantity := Quantity.add (_quantity this) additionalQuantity in
  mk (_productId this) newQuantity (_unitPrice this).

Definition equals (this other : t) : bool :=
  ProductId.equals (_productId this) (_productId other)
  && Quantity.equals (_quantity this) (_quantity other)
  && Money.equals (_unitPrice this) (_unitPrice other).

End OrderItem.

(* ================================================================== *)
(** ** domain/events *)

Module DomainEvent.

(** The fields each concrete event class adds to the base class. *)
Inductive body :=
| OrderCreated (orderId : OrderId.t)
| OrderItemAdded (orderId : OrderId.t) (productId : ProductId.t)
                 (quantity : Quantity.t) (unitPrice : Money.t)
| OrderItemQuantityIncreased (orderId : OrderId.t) (productId : ProductId.t)
                             (previousQuantity newQuantity : Quantity.t).

Record t := mk {
  occurredAt : Date;
  aggregateId : string;
  fields : body
}.

(** The base-class constructor, [super(aggregateId)]: it reads the clock. *)
Definition constructor (now : Date) (aggregateId : string) (fields : body) : t :=
  mk now aggregateId fields.

(** [event.constructor.name] *)
Definition className (event : t) : string :=
  match fields event with
  | OrderCreated _ => "OrderCreated"
  | OrderItemAdded _ _ _ _ => "OrderItemAdded"
  | OrderItemQuantityIncreased _ _ _ _ => "OrderItemQuantityIncreased"
  end.

(** The order an event was recorded for. *)
Definition orderId (event : t) : OrderId.t :=
  match fields event with
  | OrderCreated o => o
  | OrderItemAdded o _ _ _ => o
  | OrderItemQuantityIncreased o _ _ _ => o
  end.

End DomainEvent.

Module OrderCreated.
Definition EVENT_TYPE : string := "order.created".
Definition constructor (now : Date) (orderId : OrderId.t) : DomainEvent.t :=
  DomainEvent.constructor now EVENT_TYPE (DomainEvent.OrderCreated orderId).
End OrderCreated.

Module OrderItemAdded.
Definition EVENT_TYPE : string := "order.item.added".
Definition constructor (now : Date) (orderId : OrderId.t)
           (productId : ProductId.t) (quantity : Quantity.t)
           (unitPrice : Money.t) : DomainEvent.t :=
  DomainEvent.constructor now EVENT_TYPE
    (DomainEvent.OrderItemAdded orderId productId quantity unitPrice).
End OrderItemAdded.

Module OrderItemQuantityIncreased.
Definition EVENT_TYPE : string := "order.item.quantity.increased".
Definition constructor (now : Date) (orderId : OrderId.t)
           (productId : ProductId.t)
           (previousQuantity newQuantity : Quantity.t) : DomainEvent.t :=
  DomainEvent.constructor now EVENT_TYPE
    (DomainEvent.OrderItemQuantityIncreased
       orderId productId previousQuantity newQuantity).
End OrderItemQuantityIncreased.

(* ================================================================== *)
(** ** domain/entities/Order.ts *)

Module Order.

Record t := mk {
  _id : OrderId.t;
  _items : Map OrderItem.t;
  _domainEvents : list DomainEvent.t;
  _createdAt : Date
}.

Definition with_items (this : t) (items : Map OrderItem.t) : t :=
  mk (_id this) items (_domainEvents this) (_createdAt this).

(** [this._domainEvents.push(event)] *)
Definition recordEvent (this : t) (event : DomainEvent.t) : t :=
  mk (_id this) (_items this) ((_domainEvents this ++ [event])%list)
     (_createdAt this).

(** The private constructor: every item is [set] under its product id. *)
Definition constructor (now : Date) (id : OrderId.t)
           (items : list OrderItem.t) : t :=
  mk id
     (List.fold_left
        (fun m item =>
           Map_set m (ProductId.value (OrderItem.productId item)) item)
        items Map_new)
     [] now.

Definition create (now : Date) (random : number) (id : option OrderId.t) : t :=
  let orderId :=
    match id with Some i => i | None => OrderId.generate now random end in
  let order := constructor now orderId [] in
  recordEvent order (OrderCreated.constructor now orderId).

Definition reconstitute (now : Date) (id : OrderId.t)
           (items : list OrderItem.t) : t :=
  constructor now id items.

Definition id (this : t) : OrderId.t := _id this.
Definition items (this : t) : list OrderItem.t := Map_values (_items this).
Definition createdAt (this : t) : Date := _createdAt this.

Definition addItem (now : Date) (this : t) (productId : ProductId.t)
           (quantity : Quantity.t) (unitPrice : Money.t)
  : Result unit string * t :=
  let lines : Result unit string * t :=
    match Map_get (_items this) (ProductId.value productId) with
    | Some existingItem =>
        let previousQuantity := OrderItem.quantity existingItem in
        let updatedItem := OrderItem.increaseQuantity existingItem quantity in
        let this' :=
          with_items this
            (Map_set (_items this) (ProductId.value productId) updatedItem) in
        (ok tt,
         recordEvent this'
           (OrderItemQuantityIncreased.constructor now (_id this) productId
              previousQuantity (OrderItem.quantity updatedItem)))
    | None =>
        match OrderItem.create productId quantity unitPrice with
        | fail error => (fail error, this)
        | ok item =>
            let this' :=
              with_items this
                (Map_set (_items this) (ProductId.value productId) item) in
            (ok tt,
             recordEvent this'
               (OrderItemAdded.constructor now (_id this) productId
                  quantity unitPrice))
        end
    end in
  if (Money.amount unitPrice =? 0)%float then
    (fail "El precio unitario no puede ser cero", this)
  else if (0 <? Map_size (_items this))%nat then
    match Map_first (_items this) with
    | Some firstItem =>
        if negb (Money.hasSameCurrency (OrderItem.unitPrice firstItem) unitPrice)
        then
          (fail ("Todos los items deben tener la misma moneda. Moneda esperada: "
                 ++ Currency.code (Money.currency (OrderItem.unitPrice firstItem))),
           this)
        else lines
    | None => lines
    end
  else lines.

Definition calculateTotalsByCurrency (this : t) : Map Money.t :=
  List.fold_left
    (fun totals item =>
       match OrderItem.calculateSubtotal item with
       | fail _ => totals
       | ok subtotal =>
           let currencyCode := Currency.code (Money.currency subtotal) in
           match Map_get totals currencyCode with
           | Some existingTotal =>
               match Money.add existingTotal subtotal with
               | ok newTotal => Map_set totals currencyCode newTotal
               | fail _ => totals
               end
           | None => Map_set totals currencyCode subtotal
           end
       end)
    (Map_values (_items this)) Map_new.

(** The value of the result is read off the totals without a check:
    [None] is [undefined]. *)
Definition calculateTotal (this : t) : Result (option Money.t) string :=
  if (Map_size (_items this) =? 0)%nat then
    fail "El pedido no tiene items"
  else
    let totals := calculateTotalsByCurrency this in
    if (1 <? Map_size totals)%nat then
      fail "El pedido contiene múltiples monedas"
    else ok (Map_first totals).

Definition itemCount (this : t) : nat := Map_size (_items this).

Definition getTotalQuantity (this : t) : number :=
  List.fold_left
    (fun total item => (total + Quantity.value (OrderItem.quantity item))%float)
    (Map_values (_items this)) 0%float.

Definition hasProduct (this : t) (productId : ProductId.t) : bool :=
  Map_has (_items this) (ProductId.value productId).

(** [splice(0, length)]: hands the buffer out and leaves it empty. *)
Definition pullDomainEvents (this : t) : list DomainEvent.t * t :=
  (_domainEvents this,
   mk (_id this) (_items this) [] (_createdAt this)).

End Order.

(* ================================================================== *)
(** ** application/errors/AppError.ts *)

Module AppError.

Inductive t :=
| ValidationError (message : string) (field : option string)
| NotFoundError (message resource id : string)
| ConflictError (message reason : string)
| InfraError (message : string) (cause : option unknown).

Definition validationError (message : string) (field : option string) : t :=
  ValidationError message field.

Definition conflictError (message reason : string) : t :=
  ConflictError message reason.

Definition infraError (message : string) (cause : option unknown) : t :=
  InfraError message cause.

Definition isValidationError (error : t) : bool :=
  match error with ValidationError _ _ => true | _ => false end.

Definition isConflictError (error : t) : bool :=
  match error with ConflictError _ _ => true | _ => false end.

Definition isInfraError (error : t) : bool :=
  match error with InfraError _ _ => true | _ => false end.

End AppError.

(* ================================================================== *)
(** ** application/use-cases/CreateOrderUseCase.ts *)

Module CreateOrderUseCase.

(** [orderId?: string]: [None] when the field is absent. *)
Record CreateOrderDTO := { orderId : option string }.

Inductive LogLevel := trace | debug | info | warn | error | fatal.

Section Ports.
(** Everything outside the use case (storage, bus, log) is one state
    that the ports read and change. *)
Variable World : Type.

Record OrderRepository := {
  save : Order.t -> World -> Settled unit * World;
  exists_ : OrderId.t -> World -> Settled bool * World
}.

Record EventBus := {
  publishAll : list DomainEvent.t -> World -> Settled unit * World
}.

Record Logger := { log : LogLevel -> string -> World -> World }.

Variable orderRepository : OrderRepository.
Variable eventBus : EventBus.
Variable logger : Logger.

(** From "Crear el agregado Order" to the end of [execute]. *)
Definition persistAndPublish (now : Date) (random : number)
           (orderId : OrderId.t) (w : World)
  : Result Order.t AppError.t * World :=
  let order := Order.create now random (Some orderId) in
  let w := log logger debug "Order aggregate created" w in
  match save orderRepository order w with
  | (Rejected thrown, w) =>
      let w := log logger error "Error persisting order" w in
      (fail (AppError.infraError
               "Error al persistir el pedido en el repositorio"
               (Some thrown)), w)
  | (Fulfilled _, w) =>
      let w := log logger info "Order persisted successfully" w in
      let '(events, order) := Order.pullDomainEvents order in
      let w :=
        match publishAll eventBus events w with
        | (Fulfilled _, w) => log logger debug "Domain events published" w
        | (Rejected _, w) =>
            log logger error "Error publishing domain events" w
        end in
      let w := log logger info "Order created successfully" w in
      (ok order, w)
  end.

Definition execute (now : Date) (random : number) (dto : CreateOrderDTO)
           (w : World) : Result Order.t AppError.t * World :=
  let w := log logger info "Creating order" w in
  match truthy (orderId dto) with
  | Some given =>
      match OrderId.create given with
      | fail message =>
          let w := log logger warn "Invalid order ID provided" w in
          (fail (AppError.ValidationError message (Some "orderId")), w)
      | ok orderId =>
          match exists_ orderRepository orderId w with
          | (Fulfilled true, w) =>
              let w := log logger warn "Order already exists" w in
              (fail (AppError.conflictError
                       ("Ya existe un pedido con ID " ++ given)
                       "duplicate_order_id"), w)
          | (Fulfilled false, w) => persistAndPublish now random orderId w
          | (Rejected thrown, w) =>
              let w := log logger error "Error checking order existence" w in
              (fail (AppError.infraError
                       "Error al verificar la existencia del pedido"
                       (Some thrown)), w)
          end
      end
  | None =>
      let orderId := OrderId.generate now random in
      let w := log logger debug "Generated new order ID" w in
      persistAndPublish now random orderId w
  end.
End Ports.

Arguments save {World}.
Arguments exists_ {World}.
Arguments publishAll {World}.
Arguments log {World}.
Arguments execute {World}.
Arguments persistAndPublish {World}.






End CreateOrderUseCase.

(* ================================================================== *)
(** ** infrastructure/messaging/OutboxDispatcher.ts: the clean-up *)

Module OutboxDispatcher.

(** A row of the [outbox] table; [published_at] is [None] while NULL. *)
Record OutboxRow := {
  id : string;
  aggregate_type : string;
  aggregate_id : string;
  event_type : string;
  payload : string;
  created_at : Date;
  published_at : option Date
}.

Definition Table := list OutboxRow.




End OutboxDispatcher.

(* ================================================================== *)
(** ** Vocabulary of the statements

    Nothing below is code of the repository: these are the notions the
    properties are phrased with. *)

Module Spec.

(** *** Orders *)

(** A sequence of [addItem] calls, each of which has to succeed. *)
Definition call := (ProductId.t * Quantity.t * Money.t)%type.

Fixpoint addItems (now : Date) (this : Order.t) (calls : list call)
  : option Order.t :=
  match calls with
  | [] => Some this
  | (productId, quantity, unitPrice) :: rest =>
      match Order.addItem now this productId quantity unitPrice with
      | (ok _, this') => addItems now this' rest
      | (fail _, _) => None
      end
  end.

(** The orders a program can hold: made by one of the two factories,
    then changed through the public methods only. *)
Inductive built : Order.t -> Prop :=
| built_create now random id :
    built (Order.create now random id)
| built_reconstitute now id items :
    built (Order.reconstitute now id items)
| built_addItem now this productId quantity unitPrice result this' :
    built this ->
    Order.addItem now this productId quantity unitPrice = (result, this') ->
    built this'
| built_pullDomainEvents this :
    built this -> built (snd (Order.pullDomainEvents this)).

(** What the constructor and [addItem] keep true of the item map: no key
    twice, and every line stored under its own product id. *)
Fixpoint distinct (keys : list string) : bool :=
  match keys with
  | [] => true
  | k :: r => negb (existsb (String.eqb k) r) && distinct r
  end.

Definition keyed (m : Map OrderItem.t) : bool :=
  List.forallb
    (fun kv => (fst kv =? ProductId.value (OrderItem.productId (snd kv))))
    m.

Definition wfItems (m : Map OrderItem.t) : bool :=
  distinct (Map_keys m) && keyed m.

Definition wf (this : Order.t) : bool := wfItems (Order._items this).


(** All the lines are priced in one currency. *)
Definition sameCurrency (a b : OrderItem.t) : bool :=
  Money.hasSameCurrency (OrderItem.unitPrice a) (OrderItem.unitPrice b).

Definition singleCurrency (this : Order.t) : bool :=
  List.forallb
    (fun a => List.forallb (sameCurrency a) (Order.items this))
    (Order.items this).

(** *** Events *)

(** The [EVENT_TYPE] of the class an event is an instance of. *)
Definition eventTypeOf (event : DomainEvent.t) : string :=
  match DomainEvent.fields event with
  | DomainEvent.OrderCreated _ => OrderCreated.EVENT_TYPE
  | DomainEvent.OrderItemAdded _ _ _ _ => OrderItemAdded.EVENT_TYPE
  | DomainEvent.OrderItemQuantityIncreased _ _ _ _ =>
      OrderItemQuantityIncreased.EVENT_TYPE
  end.

(** *** Totals *)

(** An amount [Money.create] accepts. *)
Definition validAmount (x : number) : bool :=
  Number_isFinite x && negb (x <? 0)%float.

(** Quantity times unit price of a line, as [multiply] computes it. *)
Definition lineAmount (item : OrderItem.t) : number :=
  (Money.amount (OrderItem.unitPrice item)
   * Quantity.value (OrderItem.quantity item))%float.

(** A line whose subtotal can be computed. *)
Definition computable (item : OrderItem.t) : bool :=
  validAmount (Quantity.value (OrderItem.quantity item))
  && validAmount (lineAmount item).



(** *** Base 36 *)

Definition isBase36Digit (c : ascii) : bool :=
  existsb (Ascii.eqb c) (list_ascii_of_string chars).

Fixpoint allBase36 (s : string) : bool :=
  match s with
  | EmptyString => true
  | String c r => isBase36Digit c && allBase36 r
  end.

(** The value of a digit, and of a numeral read most significant digit
    first; [None] on a character that is no digit. *)
Definition digitValue (c : ascii) : option N :=
  let n := N_of_ascii c in
  if ((48 <=? n) && (n <=? 57))%N then Some (n - 48)%N
  else if ((97 <=? n) && (n <=? 122))%N then Some (n - 87)%N
  else None.

Fixpoint readBase36 (acc : N) (s : string) : option N :=
  match s with
  | EmptyString => Some acc
  | String c r =>
      match digitValue c with
      | Some d => readBase36 (acc * 36 + d)%N r
      | None => None
      end
  end.

(** *** The outbox *)

Definition unpublished (row : OutboxDispatcher.OutboxRow) : bool :=
  match OutboxDispatcher.published_at row with
  | None => true
  | Some _ => false
  end.

End Spec.
Import Spec.

(* ================================================================== *)
(** ** Concrete orders and rows, for the examples *)

Module Sample.

Definition now : Date := 1700000000000%Z.
Definition random : number := 0.5%float.

Definition laptop : ProductId.t := ProductId.mk "LAPTOP-001".
Definition mouse : ProductId.t := ProductId.mk "MOUSE-001".

Definition usd (amount : number) : Money.t := Money.mk amount Currency.USD.
Definition eur (amount : number) : Money.t := Money.mk amount Currency.EUR.
Definition qty (value : number) : Quantity.t := Quantity.mk value.

(** [Order.create()] *)
Definition empty : Order.t := Order.create now random None.

(** ... then [addItem(laptop, 2, USD 1299.99)] *)
Definition oneLine : Order.t :=
  snd (Order.addItem now empty laptop (qty 2%float) (usd 1299.99%float)).

(** ... then [addItem(mouse, 3, USD 25)] *)
Definition twoLines : Order.t :=
  snd (Order.addItem now oneLine mouse (qty 3%float) (usd 25%float)).

(** An order loaded with a dollar line and a euro line. *)
Definition mixed : Order.t :=
  Order.reconstitute now (OrderId.mk "ORD-1")
    [OrderItem.mk laptop (qty 1%float) (usd 10%float);
     OrderItem.mk mouse (qty 1%float) (eur 5%float)].


Definition row (id : string) (published_at : option Date)
  : OutboxDispatcher.OutboxRow :=
  {| OutboxDispatcher.id := id;
     OutboxDispatcher.aggregate_type := "Order";
     OutboxDispatcher.aggregate_id := "order.created";
     OutboxDispatcher.event_type := "OrderCreated";
     OutboxDispatcher.payload := "{}";
     OutboxDispatcher.created_at := 1699000000000%Z;
     OutboxDispatcher.published_at := published_at |}.

End Sample.

(* ================================================================== *)
(** ** shared/Results.ts: the combinators *)

Module Results.

(** [map] *)
Definition map {T U E : Type} (result : Result T E) (fn : T -> U)
  : Result U E :=
  match result with
  | ok value => ok (fn value)
  | fail error => fail error
  end.

(** [mapError] *)
Definition mapError {T E F : Type} (result : Result T E) (fn : E -> F)
  : Result T F :=
  match result with
  | ok value => ok value
  | fail error => fail (fn error)
  end.

(** The loop of [combine]: [values] is what has been pushed so far. *)
Fixpoint combine_from {T E : Type} (values : list T)
         (results : list (Result T E)) : Result (list T) E :=
  match results with
  | [] => ok values
  | fail error :: _ => fail error
  | ok value :: rest => combine_from (values ++ [value]) rest
  end.

(** [combine] *)
Definition combine {T E : Type} (results : list (Result T E))
  : Result (list T) E :=
  combine_from [] results.

End Results.

(* ================================================================== *)
(** ** More of the runtime *)

Module JsMore.

(** [Map.prototype.delete] *)
Definition Map_delete {V : Type} (m : Map V) (k : string) : Map V :=
  List.filter (fun entry => negb (k =? fst entry)) m.

(** The proper tails of a string: [tail] is what is left of [s] after
    one character or more. *)
Fixpoint isProperTail (tail s : string) : bool :=
  match s with
  | EmptyString => false
  | String _ r => (r =? tail) || isProperTail tail r
  end.

End JsMore.
Import JsMore.

(* ================================================================== *)
(** ** infrastructure/persistence/in-memory/InMemoryOrderRepository.ts

    The promises of this repository are always fulfilled. The map holds
    the order object itself; an order is taken here with the value it has
    when it is saved or looked up. *)

Module InMemoryOrderRepository.

Record t := mk { orders : Map Order.t }.

Definition constructor : t := mk Map_new.

Definition save (this : t) (order : Order.t) : t :=
  mk (Map_set (orders this) (OrderId.value (Order.id order)) order).

Definition findById (this : t) (id : OrderId.t) : option Order.t :=
  Map_get (orders this) (OrderId.value id).

Definition exists_ (this : t) (id : OrderId.t) : bool :=
  Map_has (orders this) (OrderId.value id).

Definition clear (this : t) : t := mk Map_new.

Definition count (this : t) : nat := Map_size (orders this).

Definition findAll (this : t) : list Order.t := Map_values (orders this).

End InMemoryOrderRepository.

(* ================================================================== *)
(** ** infrastructure/messaging/NoopEventBus.ts

    The simulated delay is left out; [console] is what the bus has written
    with [console.log], one line per event when [shouldLog] is set. *)

Module NoopEventBus.

Record t := mk {
  publishedEvents : list DomainEvent.t;
  shouldLog : bool;
  console : list string
}.

(** [shouldLog] defaults to [false]. *)
Definition constructor (shouldLog : option bool) : t :=
  mk [] (match shouldLog with Some b => b | None => false end) [].

Definition publish (this : t) (event : DomainEvent.t) : t :=
  mk (publishedEvents this ++ [event])
     (shouldLog this)
     (if shouldLog this
      then (console this ++ ["[NoopEventBus] Event published:"])%list
      else console this).

Definition publishAll (this : t) (events : list DomainEvent.t) : t :=
  List.fold_left publish events this.

Definition getPublishedEvents (this : t) : list DomainEvent.t :=
  publishedEvents this.

Definition getEventsByAggregateId (this : t) (aggregateId : string)
  : list DomainEvent.t :=
  List.filter (fun event => (DomainEvent.aggregateId event =? aggregateId))
              (publishedEvents this).

Definition getEventCount (this : t) : nat := List.length (publishedEvents this).

Definition clear (this : t) : t := mk [] (shouldLog this) (console this).

Definition hasEvent (this : t) (predicate : DomainEvent.t -> bool) : bool :=
  List.existsb predicate (publishedEvents this).

End NoopEventBus.

(* ================================================================== *)
(** ** infrastructure/http/StaticPricingService.ts

    The simulated network delay is left out. *)

Module StaticPricingService.

Record PriceEntry := {
  productId : string;
  price : number;
  currency : string
}.

Record t := mk { catalog : Map Money.t }.

Definition defaultCatalog : list PriceEntry :=
  [ {| productId := "LAPTOP-001"; price := 1299.99%float; currency := "USD" |};
    {| productId := "MOUSE-001"; price := 29.99%float; currency := "USD" |};
    {| productId := "KEYBOARD-001"; price := 89.99%float; currency := "USD" |};
    {| productId := "MONITOR-001"; price := 399.99%float; currency := "USD" |};
    {| productId := "HEADSET-001"; price := 149.99%float; currency := "USD" |};
    {| productId := "WEBCAM-001"; price := 79.99%float; currency := "USD" |};
    {| productId := "DESK-001"; price := 299.99%float; currency := "USD" |};
    {| productId := "CHAIR-001"; price := 449.99%float; currency := "USD" |};
    {| productId := "LAPTOP-002"; price := 1199.99%float; currency := "EUR" |};
    {| productId := "MOUSE-002"; price := 27.99%float; currency := "EUR" |};
    {| productId := "KEYBOARD-002"; price := 82.99%float; currency := "EUR" |};
    {| productId := "MONITOR-002"; price := 369.99%float; currency := "EUR" |};
    {| productId := "TABLET-001"; price := 599.99%float; currency := "EUR" |};
    {| productId := "SMARTPHONE-001"; price := 899.99%float; currency := "EUR" |};
    {| productId := "SPEAKER-001"; price := 129.99%float; currency := "EUR" |};
    {| productId := "PRINTER-001"; price := 249.99%float; currency := "EUR" |} ].

(** [addPrice], also the body of the constructor's loop. *)
Definition addPrice (this : t) (productId : string) (price : number)
           (currencyCode : string) : t :=
  match Currency.create currencyCode with
  | ok currency =>
      match Money.create price currency with
      | ok money => mk (Map_set (catalog this) productId money)
      | fail _ => this
      end
  | fail _ => this
  end.

(** [priceEntries || [...]]: an array, even an empty one, is truthy. *)
Definition constructor (priceEntries : option (list PriceEntry)) : t :=
  let entries :=
    match priceEntries with Some given => given | None => defaultCatalog end in
  List.fold_left
    (fun this entry =>
       addPrice this (productId entry) (price entry) (currency entry))
    entries (mk Map_new).

Definition getPrice (this : t) (productId : ProductId.t) : option Money.t :=
  Map_get (catalog this) (ProductId.value productId).

Definition getPrices (this : t) (productIds : list ProductId.t) : Map Money.t :=
  List.fold_left
    (fun result productId =>
       match Map_get (catalog this) (ProductId.value productId) with
       | Some price => Map_set result (ProductId.value productId) price
       | None => result
       end)
    productIds Map_new.

Definition updatePrice (this : t) (productId : string) (price : number) : t :=
  match Map_get (catalog this) productId with
  | Some existingPrice =>
      match Money.create price (Money.currency existingPrice) with
      | ok money => mk (Map_set (catalog this) productId money)
      | fail _ => this
      end
  | None => this
  end.

Definition removePrice (this : t) (productId : string) : t :=
  mk (Map_delete (catalog this) productId).

Definition clearCatalog (this : t) : t := mk Map_new.

Definition getAllProducts (this : t) : list string := Map_keys (catalog this).

Definition hasProduct (this : t) (productId : string) : bool :=
  Map_has (catalog this) productId.

End StaticPricingService.

(* ================================================================== *)
(** ** infrastructure/messaging/OutBoxEventBus.ts

    The client is the [outbox] table. What the database fills in by
    itself, the row id, what [JSON.stringify] makes of the payload and
    what [new Date()] reads when a row is written are taken as given, the
    id and the time as functions of the table the row is added to. *)

Module OutboxEventBus.

(** The alternatives of the pattern
    [/(Created|Updated|Deleted|Added|Removed|Changed|Increased|Decreased)$/]. *)
Definition suffixes : list string :=
  ["Created"; "Updated"; "Deleted"; "Added"; "Removed"; "Changed";
   "Increased"; "Decreased"].

(** [eventType.replace(pattern, '')]: the match starts at the first
    position from which one alternative reaches the end of the string,
    and it is cut off. *)
Fixpoint extractAggregateType (eventType : string) : string :=
  match eventType with
  | EmptyString => EmptyString
  | String c rest =>
      if includes suffixes eventType then EmptyString
      else String c (extractAggregateType rest)
  end.

Definition publish (stringify : DomainEvent.t -> string)
           (newId : OutboxDispatcher.Table -> string)
           (now : OutboxDispatcher.Table -> Date)
           (outbox : OutboxDispatcher.Table) (event : DomainEvent.t)
  : OutboxDispatcher.Table :=
  let eventType := DomainEvent.className event in
  (outbox
    ++ [ {| OutboxDispatcher.id := newId outbox;
            OutboxDispatcher.aggregate_type := extractAggregateType eventType;
            OutboxDispatcher.aggregate_id := DomainEvent.aggregateId event;
            OutboxDispatcher.event_type := eventType;
            OutboxDispatcher.payload := stringify event;
            OutboxDispatcher.created_at := now outbox;
            OutboxDispatcher.published_at := None |} ])%list.

Definition publishAll (stringify : DomainEvent.t -> string)
           (newId : OutboxDispatcher.Table -> string)
           (now : OutboxDispatcher.Table -> Date)
           (outbox : OutboxDispatcher.Table) (events : list DomainEvent.t)
  : OutboxDispatcher.Table :=
  List.fold_left (publish stringify newId now) events outbox.

End OutboxEventBus.

(* ================================================================== *)
(** ** application/use-cases/AddItemToOrderUseCase.ts

    As for [CreateOrderUseCase], everything outside the use case is one
    state that the ports read and change; a port hands out and takes the
    value of an order. *)

Module AddItemToOrderUseCase.

Record AddItemToOrderDTO := {
  orderId : string;
  productId : string;
  quantity : number
}.

(** [notFoundError]: the message defaults to
    "<resource> with id <id> not found". *)
Definition notFoundError (resource id : string) (message : option string)
  : AppError.t :=
  AppError.NotFoundError
    (match message with
     | Some given => given
     | None => resource ++ " with id " ++ id ++ " not found"
     end)
    resource id.

Section Ports.
Variable World : Type.

Record OrderRepository := {
  save : Order.t -> World -> Settled unit * World;
  findById : OrderId.t -> World -> Settled (option Order.t) * World
}.

Record PricingService := {
  getPrice : ProductId.t -> World -> Settled (option Money.t) * World
}.

Record EventBus := {
  publishAll : list DomainEvent.t -> World -> Settled unit * World
}.

Record Logger := {
  log : CreateOrderUseCase.LogLevel -> string -> World -> World
}.

Variable orderRepository : OrderRepository.
Variable pricingService : PricingService.
Variable eventBus : EventBus.
Variable logger : Logger.

(** From "Agregar el item al pedido" to the end of [execute]. *)
Definition addAndPersist (now : Date) (order : Order.t)
           (productId : ProductId.t) (quantity : Quantity.t) (price : Money.t)
           (w : World) : Result Order.t AppError.t * World :=
  match Order.addItem now order productId quantity price with
  | (fail error, _) =>
      let w := log logger CreateOrderUseCase.warn
                   "Failed to add item to order" w in
      (fail (AppError.validationError error None), w)
  | (ok _, order) =>
      let w := log logger CreateOrderUseCase.debug "Item added to order" w in
      match save orderRepository order w with
      | (Rejected thrown, w) =>
          let w := log logger CreateOrderUseCase.error
                       "Error persisting order changes" w in
          (fail (AppError.infraError
                   "Error al persistir los cambios del pedido"
                   (Some thrown)), w)
      | (Fulfilled _, w) =>
          let w := log logger CreateOrderUseCase.info
                       "Order updated successfully" w in
          let '(events, order) := Order.pullDomainEvents order in
          let w :=
            match publishAll eventBus events w with
            | (Fulfilled _, w) =>
                log logger CreateOrderUseCase.debug
                    "Domain events published" w
            | (Rejected _, w) =>
                log logger CreateOrderUseCase.error
                    "Error publishing domain events" w
            end in
          let w := log logger CreateOrderUseCase.info
                       "Item added to order successfully" w in
          (ok order, w)
      end
  end.

Definition execute (now : Date) (dto : AddItemToOrderDTO) (w : World)
  : Result Order.t AppError.t * World :=
  let w := log logger CreateOrderUseCase.info "Adding item to order" w in
  match OrderId.create (orderId dto) with
  | fail error =>
      let w := log logger CreateOrderUseCase.warn "Invalid order ID" w in
      (fail (AppError.validationError error (Some "orderId")), w)
  | ok orderId_ =>
      match ProductId.create (productId dto) with
      | fail error =>
          let w := log logger CreateOrderUseCase.warn
                       "Invalid product ID" w in
          (fail (AppError.validationError error (Some "productId")), w)
      | ok productId_ =>
          match Quantity.create (quantity dto) with
          | fail error =>
              let w := log logger CreateOrderUseCase.warn
                           "Invalid quantity" w in
              (fail (AppError.validationError error (Some "quantity")), w)
          | ok quantity_ =>
              match findById orderRepository orderId_ w with
              | (Rejected thrown, w) =>
                  let w := log logger CreateOrderUseCase.error
                               "Error retrieving order" w in
                  (fail (AppError.infraError
                           "Error al recuperar el pedido del repositorio"
                           (Some thrown)), w)
              | (Fulfilled None, w) =>
                  let w := log logger CreateOrderUseCase.warn
                               "Order not found" w in
                  (fail (notFoundError "Order" (orderId dto) None), w)
              | (Fulfilled (Some order), w) =>
                  let w := log logger CreateOrderUseCase.debug
                               "Order retrieved" w in
                  match getPrice pricingService productId_ w with
                  | (Rejected thrown, w) =>
                      let w := log logger CreateOrderUseCase.error
                                   "Error retrieving product price" w in
                      (fail (AppError.infraError
                               "Error al obtener el precio del producto"
                               (Some thrown)), w)
                  | (Fulfilled None, w) =>
                      let w := log logger CreateOrderUseCase.warn
                                   "Product price not found" w in
                      (fail (notFoundError
                               "Product" (productId dto)
                               (Some ("No se encontró el precio para el producto "
                                      ++ productId dto))), w)
                  | (Fulfilled (Some price), w) =>
                      let w := log logger CreateOrderUseCase.debug
                                   "Product price retrieved" w in
                      addAndPersist now order productId_ quantity_ price w
                  end
              end
          end
      end
  end.

End Ports.

Arguments save {World}.
Arguments findById {World}.
Arguments getPrice {World}.
Arguments publishAll {World}.
Arguments log {World}.
Arguments addAndPersist {World}.
Arguments execute {World}.

End AddItemToOrderUseCase.

(* ================================================================== *)
(** ** Vocabulary of the further statements *)

Module Spec2.

(** Replaying the events about one product: a line is absent ([None]) or
    has a quantity. [OrderItemAdded] is only possible on an absent line,
    [OrderItemQuantityIncreased] only on a line that has the quantity the
    event calls the previous one. *)
Fixpoint replay (p : ProductId.t) (state : option Quantity.t)
         (events : list DomainEvent.t) (final : option Quantity.t) : Prop :=
  match events with
  | [] => state = final
  | event :: rest =>
      match DomainEvent.fields event with
      | DomainEvent.OrderCreated _ => replay p state rest final
      | DomainEvent.OrderItemAdded _ p' quantity _ =>
          if ProductId.equals p' p
          then state = None /\ replay p (Some quantity) rest final
          else replay p state rest final
      | DomainEvent.OrderItemQuantityIncreased _ p' previous new =>
          if ProductId.equals p' p
          then state = Some previous /\ replay p (Some new) rest final
          else replay p state rest final
      end
  end.

(** The quantity of the line of a product, if the order has one. *)
Definition quantityOf (this : Order.t) (p : ProductId.t) : option Quantity.t :=
  option_map OrderItem.quantity
             (Map_get (Order._items this) (ProductId.value p)).

(** What can be done to a price catalog after it is made. *)
Inductive pricingCommand :=
| AddPrice (productId : string) (price : number) (currencyCode : string)
| UpdatePrice (productId : string) (price : number)
| RemovePrice (productId : string)
| ClearCatalog.

Definition runPricing (this : StaticPricingService.t) (c : pricingCommand)
  : StaticPricingService.t :=
  match c with
  | AddPrice productId price currencyCode =>
      StaticPricingService.addPrice this productId price currencyCode
  | UpdatePrice productId price =>
      StaticPricingService.updatePrice this productId price
  | RemovePrice productId => StaticPricingService.removePrice this productId
  | ClearCatalog => StaticPricingService.clearCatalog this
  end.

(** The three event-type strings. *)
Definition eventTypes : list string :=
  [OrderCreated.EVENT_TYPE; OrderItemAdded.EVENT_TYPE;
   OrderItemQuantityIncreased.EVENT_TYPE].

End Spec2.
Import Spec2.

(* ================================================================== *)
(** ** Ports for the examples: a world with nothing in it *)

Module Sample2.

(** A repository that has no order and saves whatever it is given. *)
Definition emptyRepository : CreateOrderUseCase.OrderRepository unit := {|
  CreateOrderUseCase.save := fun _ w => (Fulfilled tt, w);
  CreateOrderUseCase.exists_ := fun _ w => (Fulfilled false, w)
|}.

(** A bus whose broker is down. *)
Definition failingBus : CreateOrderUseCase.EventBus unit := {|
  CreateOrderUseCase.publishAll := fun _ w => (Rejected "broker down", w)
|}.

Definition silentLogger : CreateOrderUseCase.Logger unit := {|
  CreateOrderUseCase.log := fun _ _ w => w
|}.

(** A repository holding [Sample.oneLine] under every id. *)
Definition oneOrderRepository : AddItemToOrderUseCase.OrderRepository unit := {|
  AddItemToOrderUseCase.save := fun _ w => (Fulfilled tt, w);
  AddItemToOrderUseCase.findById :=
    fun _ w => (Fulfilled (Some Sample.oneLine), w)
|}.

Definition staticPricing : AddItemToOrderUseCase.PricingService unit := {|
  AddItemToOrderUseCase.getPrice :=
    fun productId w =>
      (Fulfilled
         (StaticPricingService.getPrice
            (StaticPricingService.constructor None) productId), w)
|}.

Definition failingBus2 : AddItemToOrderUseCase.EventBus unit := {|
  AddItemToOrderUseCase.publishAll := fun _ w => (Rejected "broker down", w)
|}.

Definition silentLogger2 : AddItemToOrderUseCase.Logger unit := {|
  AddItemToOrderUseCase.log := fun _ _ w => w
|}.

End Sample2.

(* ================================================================== *)
(** ** infrastructure/messaging/OutboxDispatcher.ts, the batches

    [processNextBatch], [processOnce] and [getStats] over the table of
    [OutboxDispatcher], for one worker: no row is locked by another
    transaction, so [FOR UPDATE SKIP LOCKED] skips nothing, and the
    queries themselves do not fail, so every transaction commits.
    [published] is the sequence of rows handed to [publishEvent], which
    only logs them. *)

Module OutboxBatches.
Import OutboxDispatcher.

Record State := {
  outbox : Table;
  published : list OutboxRow
}.

(** [WHERE published_at IS NULL]. *)
Definition isPending (row : OutboxRow) : bool :=
  match published_at row with
  | None => true
  | Some _ => false
  end.

(** [ORDER BY created_at ASC], rows created at the same time in the order
    of the table (PostgreSQL leaves their order open). *)
Fixpoint insert_by_created_at (row : OutboxRow) (sorted : list OutboxRow)
  : list OutboxRow :=
  match sorted with
  | [] => [row]
  | first :: rest =>
      if (created_at row <=? created_at first)%Z then row :: sorted
      else first :: insert_by_created_at row rest
  end.

Definition order_by_created_at (rows : list OutboxRow) : list OutboxRow :=
  fold_right insert_by_created_at [] rows.

(** [SELECT ... WHERE published_at IS NULL ORDER BY created_at ASC LIMIT $1]. *)
Definition select_pending (limit : nat) (outbox : Table) : list OutboxRow :=
  firstn limit (order_by_created_at (List.filter isPending outbox)).

Definition with_published_at (at_ : Date) (row : OutboxRow) : OutboxRow :=
  {| id := id row;
     aggregate_type := aggregate_type row;
     aggregate_id := aggregate_id row;
     event_type := event_type row;
     payload := payload row;
     created_at := created_at row;
     published_at := Some at_ |}.

(** [UPDATE outbox SET published_at = $1 WHERE id = ANY($2)]. *)
Definition update_published (at_ : Date) (eventIds : list string)
           (outbox : Table) : Table :=
  List.map (fun row => if includes eventIds (id row)
                       then with_published_at at_ row else row) outbox.

Definition publishEvent (event : OutboxRow) (published : list OutboxRow)
  : list OutboxRow :=
  published ++ [event].

(** [batchSize] is the [LIMIT], a whole number; [now] is what [new Date()]
    reads for the [UPDATE]. *)
Definition processNextBatch (batchSize : nat) (now : Date) (s : State)
  : nat * State :=
  let events := select_pending batchSize (outbox s) in
  if (List.length events =? 0)%nat then (0%nat, s)
  else
    let published := fold_left (fun log event => publishEvent event log)
                               events (published s) in
    let eventIds := List.map id events in
    (List.length events,
     {| outbox := update_published now eventIds (outbox s);
        published := published |}).

(** The [do ... while (batchCount > 0)] of [processOnce]: [fuel] bounds the
    number of batches, [clock turn] is the time the batch number [turn]
    reads; [None] when the fuel is used up before a batch comes back
    empty. *)
Fixpoint processOnce_from (fuel : nat) (batchSize : nat) (clock : nat -> Date)
         (turn : nat) (totalProcessed : nat) (s : State)
  : option (nat * State) :=
  match fuel with
  | O => None
  | S fuel =>
      let '(batchCount, s) := processNextBatch batchSize (clock turn) s in
      let totalProcessed := (totalProcessed + batchCount)%nat in
      if (0 <? batchCount)%nat then
        processOnce_from fuel batchSize clock (S turn) totalProcessed s
      else Some (totalProcessed, s)
  end.

Definition processOnce (fuel : nat) (batchSize : nat) (clock : nat -> Date)
           (s : State) : option (nat * State) :=
  processOnce_from fuel batchSize clock 0 0 s.

Record Stats := {
  pendingEvents : nat;
  publishedEvents : nat;
  oldestPendingEvent : option Date
}.

(** [MIN(created_at)] over the rows given: NULL when there is none. *)
Definition min_created_at (rows : list OutboxRow) : option Date :=
  fold_left (fun oldest row =>
               match oldest with
               | None => Some (created_at row)
               | Some at_ => Some (Z.min at_ (created_at row))
               end) rows None.

(** The counts come back as decimal strings and are parsed again; they are
    kept as the numbers they denote. *)
Definition getStats (outbox : Table) : Stats :=
  {| pendingEvents := List.length (List.filter isPending outbox);
     publishedEvents :=
       List.length (List.filter (fun row => negb (isPending row)) outbox);
     oldestPendingEvent := min_created_at (List.filter isPending outbox) |}.

End OutboxBatches.

Module Sample3.

Definition event (id : string) (created_at : Date)
           (published_at : option Date) : OutboxDispatcher.OutboxRow :=
  {| OutboxDispatcher.id := id;
     OutboxDispatcher.aggregate_type := "Order";
     OutboxDispatcher.aggregate_id := "ORD-1";
     OutboxDispatcher.event_type := "order.item_added";
     OutboxDispatcher.payload := "{}";
     OutboxDispatcher.created_at := created_at;
     OutboxDispatcher.published_at := published_at |}.

(** Four events, the second one published already, the last one the
    oldest. *)
Definition backlog : OutboxBatches.State :=
  {| OutboxBatches.outbox :=
       [ event "e1" 1699000003000%Z None;
         event "e2" 1699000001000%Z (Some 1699000002000%Z);
         event "e3" 1699000004000%Z None;
         event "e4" 1699000000000%Z None ];
     OutboxBatches.published := [] |}.

Definition clock (turn : nat) : Date :=
  (1699000010000 + Z.of_nat turn)%Z.

End Sample3.

(* ================================================================== *)
(** ** infrastructure/http/controllers/OrdersController.ts

    The two POST handlers of the controller that logs. A request is what
    its TypeScript interface says: the body and the parameters have the
    declared fields with the declared types. A handler either completes,
    having sent one reply, or throws before it has sent anything; the
    child logger of a request logs where the logger of the controller
    does. The [default] branch of [handleError] is for values that are not
    an [AppError] and has no counterpart here. *)

Module OrdersController.

Record CreateOrderRequest := { body_orderId : option string }.

Record AddItemToOrderRequest := {
  params_id : string;
  body_productId : string;
  body_quantity : number
}.

Record MoneyResponse := { amount : number; currency : string }.

Record OrderItemResponse := {
  productId : string;
  quantity : number;
  unitPrice : MoneyResponse;
  subtotal : MoneyResponse
}.

Record OrderResponse := {
  orderId : string;
  items : list OrderItemResponse;
  total : MoneyResponse;
  createdAt : Date
}.

(** A field that is [None] is [undefined] and left out of the JSON. *)
Record ErrorResponse := {
  error : string;
  message : string;
  field : option string;
  resource : option string;
  id : option string;
  reason : option string
}.

Inductive Payload :=
| OrderPayload (response : OrderResponse)
| ErrorPayload (response : ErrorResponse).

(** [reply.status(status).send(payload)]. *)
Record Reply := { status : nat; sent : Payload }.

Definition handleError (error : AppError.t) : Reply :=
  match error with
  | AppError.ValidationError message field =>
      {| status := 400;
         sent := ErrorPayload
                   {| error := "Validation Error"; message := message;
                      field := field; resource := None; id := None;
                      reason := None |} |}
  | AppError.NotFoundError message resource id =>
      {| status := 404;
         sent := ErrorPayload
                   {| error := "Not Found"; message := message;
                      field := None; resource := Some resource;
                      id := Some id; reason := None |} |}
  | AppError.ConflictError message reason =>
      {| status := 409;
         sent := ErrorPayload
                   {| error := "Conflict"; message := message;
                      field := None; resource := None; id := None;
                      reason := Some reason |} |}
  | AppError.InfraError message _ =>
      {| status := 500;
         sent := ErrorPayload
                   {| error := "Internal Server Error"; message := message;
                      field := None; resource := None; id := None;
                      reason := None |} |}
  end.

(** The function mapped over [order.items] in both handlers. *)
Definition itemResponse (item : OrderItem.t) : OrderItemResponse :=
  let subtotalResult := OrderItem.calculateSubtotal item in
  {| productId := ProductId.value (OrderItem.productId item);
     quantity := Quantity.value (OrderItem.quantity item);
     unitPrice :=
       {| amount := Money.amount (OrderItem.unitPrice item);
          currency := Currency.code (Money.currency (OrderItem.unitPrice item)) |};
     subtotal :=
       match subtotalResult with
       | ok value =>
           {| amount := Money.amount value;
              currency := Currency.code (Money.currency value) |}
       | fail _ =>
           {| amount := 0%float;
              currency :=
                Currency.code (Money.currency (OrderItem.unitPrice item)) |}
       end |}.

(** From "Calcular total del pedido" to the response, the same lines in
    both handlers. Reading [amount] off a total that is [undefined] throws
    a TypeError. *)
Definition orderResponse (order : Order.t) : Settled OrderResponse :=
  match Order.calculateTotal order with
  | ok None => Rejected "TypeError"
  | totalResult =>
      let total :=
        match totalResult with
        | ok (Some value) =>
            {| amount := Money.amount value;
               currency := Currency.code (Money.currency value) |}
        | _ => {| amount := 0%float; currency := "USD" |}
        end in
      Fulfilled
        {| orderId := OrderId.value (Order.id order);
           items := List.map itemResponse (Order.items order);
           total := total;
           createdAt := Order.createdAt order |}
  end.

Section Handlers.
Variable World : Type.

(** The use cases the controller is constructed with, as objects. *)
Record CreateOrder := {
  createOrder_execute :
    CreateOrderUseCase.CreateOrderDTO -> World
    -> Result Order.t AppError.t * World
}.

Record AddItemToOrder := {
  addItemToOrder_execute :
    AddItemToOrderUseCase.AddItemToOrderDTO -> World
    -> Result Order.t AppError.t * World
}.

Variable createOrderUseCase : CreateOrder.
Variable addItemToOrderUseCase : AddItemToOrder.
Variable logger : CreateOrderUseCase.Logger World.

Definition createOrder (request : CreateOrderRequest) (w : World)
  : Settled Reply * World :=
  let requestLogger := logger in
  let w := CreateOrderUseCase.log requestLogger CreateOrderUseCase.info
             "POST /orders - Creating order" w in
  let dto := {| CreateOrderUseCase.orderId := body_orderId request |} in
  match createOrder_execute createOrderUseCase dto w with
  | (fail error, w) =>
      let w := CreateOrderUseCase.log requestLogger CreateOrderUseCase.warn
                 "Failed to create order" w in
      (Fulfilled (handleError error), w)
  | (ok order, w) =>
      match orderResponse order with
      | Rejected thrown => (Rejected thrown, w)
      | Fulfilled response =>
          let w := CreateOrderUseCase.log requestLogger CreateOrderUseCase.info
                     "Order created successfully" w in
          (Fulfilled {| status := 201; sent := OrderPayload response |}, w)
      end
  end.

Definition addItemToOrder (request : AddItemToOrderRequest) (w : World)
  : Settled Reply * World :=
  let requestLogger := logger in
  let w := CreateOrderUseCase.log requestLogger CreateOrderUseCase.info
             "POST /orders/:id/items - Adding item to order" w in
  let dto := {| AddItemToOrderUseCase.orderId := params_id request;
                AddItemToOrderUseCase.productId := body_productId request;
                AddItemToOrderUseCase.quantity := body_quantity request |} in
  match addItemToOrder_execute addItemToOrderUseCase dto w with
  | (fail error, w) =>
      let w := CreateOrderUseCase.log requestLogger CreateOrderUseCase.warn
                 "Failed to add item to order" w in
      (Fulfilled (handleError error), w)
  | (ok order, w) =>
      match orderResponse order with
      | Rejected thrown => (Rejected thrown, w)
      | Fulfilled response =>
          let w := CreateOrderUseCase.log requestLogger CreateOrderUseCase.info
                     "Item added to order successfully" w in
          (Fulfilled {| status := 200; sent := OrderPayload response |}, w)
      end
  end.

End Handlers.

Arguments createOrder_execute {World}.
Arguments addItemToOrder_execute {World}.
Arguments createOrder {World}.
Arguments addItemToOrder {World}.

(** The use cases as the container builds them: the classes above over
    their ports, with the clock and the random source of the call. *)
Definition createOrderUseCase {World : Type}
           (orderRepository : CreateOrderUseCase.OrderRepository World)
           (eventBus : CreateOrderUseCase.EventBus World)
           (logger : CreateOrderUseCase.Logger World)
           (now : Date) (random : number) : CreateOrder World :=
  {| createOrder_execute :=
       CreateOrderUseCase.execute orderRepository eventBus logger now random |}.

Definition addItemToOrderUseCase {World : Type}
           (orderRepository : AddItemToOrderUseCase.OrderRepository World)
           (pricingService : AddItemToOrderUseCase.PricingService World)
           (eventBus : AddItemToOrderUseCase.EventBus World)
           (logger : AddItemToOrderUseCase.Logger World)
           (now : Date) : AddItemToOrder World :=
  {| addItemToOrder_execute :=
       AddItemToOrderUseCase.execute orderRepository pricingService eventBus
                                     logger now |}.

End OrdersController.

Module Sample4.

(** A repository holding the empty order [Sample.empty] under every id. *)
Definition emptyOrderRepository
  : AddItemToOrderUseCase.OrderRepository unit := {|
  AddItemToOrderUseCase.save := fun _ w => (Fulfilled tt, w);
  AddItemToOrderUseCase.findById :=
    fun _ w => (Fulfilled (Some Sample.empty), w)
|}.

(** A price list in which every product costs 1e308 USD. *)
Definition steepPricing : AddItemToOrderUseCase.PricingService unit := {|
  AddItemToOrderUseCase.getPrice :=
    fun _ w => (Fulfilled (Some (Sample.usd 1e308%float)), w)
|}.

Definition workingBus : AddItemToOrderUseCase.EventBus unit := {|
  AddItemToOrderUseCase.publishAll := fun _ w => (Fulfilled tt, w)
|}.

Definition silentLogger : AddItemToOrderUseCase.Logger unit := {|
  AddItemToOrderUseCase.log := fun _ _ w => w
|}.

Definition controllerLogger : CreateOrderUseCase.Logger unit := {|
  CreateOrderUseCase.log := fun _ _ w => w
|}.

End Sample4.

(* ================================================================== *)
(** ** Proof tools *)


(** One turn of the loop of [calculateTotalsByCurrency]. *)
Local Abbreviation totalsStep :=
  (fun (totals : Map Money.t) (item : OrderItem.t) =>
     match OrderItem.calculateSubtotal item with
     | fail _ => totals
     | ok subtotal =>
         let currencyCode := Currency.code (Money.currency subtotal) in
         match Map_get totals currencyCode with
         | Some existingTotal =>
             match Money.add existingTotal subtotal with
             | ok newTotal => Map_set totals currencyCode newTotal
             | fail _ => totals
             end
         | None => Map_set totals currencyCode subtotal
         end
     end).

Local Abbreviation codeOf item :=
  (Currency.code (Money.currency (OrderItem.unitPrice item))).

(** The prices of a catalog are amounts [Money.create] accepts, in
    supported currencies. *)
Local Abbreviation pricesValid catalog :=
  (Forall
     (fun entry : string * Money.t =>
        validAmount (Money.amount (snd entry)) = true
        /\ In (Currency.code (Money.currency (snd entry)))
              Currency.getSupportedCurrencies)
     catalog).

(** [older a b]: the row [a] was not created after the row [b]. *)
Local Abbreviation older :=
  (fun a b : OutboxDispatcher.OutboxRow =>
     (OutboxDispatcher.created_at a <= OutboxDispatcher.created_at b)%Z).

(* ================================================================== *)
(** * Properties *)

(** ** Strings of the runtime *)

Lemma includes_In (l : list string) (x : string) :
  includes l x = true <-> In x l.
Proof.
  unfold includes. rewrite existsb_exists. split.
  - intros [y [Hy He]]. apply String.eqb_eq in He. now subst.
  - intros H. exists x. split; [assumption | apply String.eqb_refl].
Qed.





(** ** Currency *)


Example Currency_create_lower_case :
  Currency.create "usd" = ok Currency.USD
  /\ isFail (Currency.create " USD") = true
  /\ isFail (Currency.create "USD ") = true
  /\ isFail (Currency.create "XYZ") = true.
Proof. repeat split; reflexivity. Qed.

(** ** Base 36 *)

Lemma digit_of_lt (fraction : float) : digit_of fraction < 36.
Proof.
  unfold digit_of.
  pose proof (filter_length_le
                (fun k => (number_of_nat k <=? fraction)%float) (seq 1 35)) as H.
  rewrite length_seq in H. lia.
Qed.

Lemma carry_back_digits (written : list nat) :
  Forall (fun d => d < 36) written ->
  Forall (fun d => d < 36) (fst (carry_back written)).
Proof.
  induction 1 as [|d r Hd Hr IH]; simpl; [constructor | ].
  destruct (S d <? 36)%nat eqn:E; simpl; [ | exact IH].
  apply Nat.ltb_lt in E. now constructor.
Qed.

Lemma fraction_digits_lt (fuel : nat) :
  forall fraction delta written,
    Forall (fun d => d < 36) written ->
    Forall (fun d => d < 36)
           (fst (fraction_digits fuel fraction delta written)).
Proof.
  induction fuel as [|fuel IH]; intros fraction delta written Hw;
    cbn [fraction_digits]; [assumption | ].
  assert (Hw' : Forall (fun d => d < 36)
                       (digit_of (fraction * 36) :: written))
    by (constructor; [apply digit_of_lt | assumption]).
  match goal with |- context [if ?b then _ else _] => destruct b end.
  - exact (carry_back_digits _ Hw').
  - match goal with |- context [if ?b then _ else _] => destruct b end.
    + now apply IH.
    + assumption.
Qed.

Lemma digit_char_base36 (d : nat) : d < 36 -> isBase36Digit (digit_char d) = true.
Proof.
  intros H. do 36 (destruct d as [|d]; [reflexivity | ]). lia.
Qed.

Lemma string_of_digits_base36 (ds : list nat) :
  Forall (fun d => d < 36) ds -> allBase36 (string_of_digits ds) = true.
Proof.
  induction 1 as [|d r Hd Hr IH]; simpl; [reflexivity | ].
  now rewrite (digit_char_base36 _ Hd), IH.
Qed.

Lemma prefix_base36 (m : nat) :
  forall s, allBase36 s = true ->
            allBase36 (String.substring 0 m s) = true
            /\ String.length (String.substring 0 m s) <= m.
Proof.
  induction m as [|m IH]; intros s Hs.
  - destruct s; simpl; split; auto.
  - destruct s as [|c r]; simpl; [split; [reflexivity | lia] | ].
    simpl in Hs. apply andb_true_iff in Hs as [Hc Hr].
    destruct (IH r Hr) as [H1 H2]. rewrite Hc, H1. split; [reflexivity | lia].
Qed.

(** What [toString(36)] writes for a number of the unit interval: one
    integer digit, then nothing or a point and base-36 digits. *)
Lemma unit_toString36_shape (value : float) :
  exists (i : ascii) (ds : string),
    allBase36 ds = true
    /\ (unit_toString36 value = String i ""
        \/ unit_toString36 value = String i (String "."%char ds)).
Proof.
  unfold unit_toString36.
  set (delta := if (next_up 0 <? 0.5 * (next_up value - value))%float
                then (0.5 * (next_up value - value))%float else next_up 0).
  assert (H : Forall (fun d => d < 36)
                (fst (if (delta <=? value)%float
                      then fraction_digits (kBufferSize / 2) value delta []
                      else ([], false)))).
  { destruct (delta <=? value)%float; [ | constructor].
    apply fraction_digits_lt. constructor. }
  destruct (if (delta <=? value)%float
            then fraction_digits (kBufferSize / 2) value delta []
            else ([], false)) as [written carried].
  cbn [fst] in H.
  exists (if carried then "1"%char else "0"%char).
  exists (string_of_digits (rev written)).
  split.
  - apply string_of_digits_base36. apply Forall_rev. exact H.
  - destruct written as [|d written], carried; cbn [append]; auto.
Qed.

Lemma random_suffix (value : float) :
  allBase36 (substring 2 9 (unit_toString36 value)) = true
  /\ String.length (substring 2 9 (unit_toString36 value)) <= 7.
Proof.
  destruct (unit_toString36_shape value) as (i & ds & Hds & [-> | ->]).
  - split; [reflexivity | simpl; lia].
  - unfold substring.
    change (String.length (String i (String "." ds)))
      with (S (S (String.length ds))).
    replace (Nat.min 2 (S (S (String.length ds)))) with 2 by lia.
    set (b := Nat.min 9 (S (S (String.length ds)))).
    assert (Hb : 2 <= b <= 9) by (unfold b; lia).
    replace (Nat.min 2 b) with 2 by lia.
    replace (Nat.max 2 b) with b by lia.
    clearbody b.
    change (String.substring 2 (b - 2) (String i (String "." ds)))
      with (String.substring 0 (b - 2) ds).
    destruct (prefix_base36 (b - 2) ds Hds) as [H1 H2].
    split; [exact H1 | lia].
Qed.

Lemma integer_digits_acc (fuel : nat) :
  forall n acc, integer_digits fuel n acc = (integer_digits fuel n [] ++ acc)%list.
Proof.
  induction fuel as [|fuel IH]; intros n acc; cbn [integer_digits];
    [reflexivity | ].
  destruct (n / 36 =? 0)%N; [reflexivity | ].
  rewrite (IH _ (_ :: acc)), (IH _ [_]), <- app_assoc. reflexivity.
Qed.

Lemma digitValue_digit_char (d : nat) :
  d < 36 -> digitValue (digit_char d) = Some (N.of_nat d).
Proof.
  intros H. do 36 (destruct d as [|d]; [reflexivity | ]). lia.
Qed.

Lemma readBase36_snoc (l : list nat) (d : nat) :
  d < 36 ->
  forall acc v,
    readBase36 acc (string_of_digits l) = Some v ->
    readBase36 acc (string_of_digits (l ++ [d])%list)
    = Some (v * 36 + N.of_nat d)%N.
Proof.
  intros Hd. induction l as [|x l IH]; intros acc v H; cbn in H |- *.
  - injection H as <-. now rewrite (digitValue_digit_char _ Hd).
  - destruct (digitValue (digit_char x)); [ | discriminate]. now apply IH.
Qed.

Lemma integer_digits_read (fuel : nat) :
  forall n, (n < 2 ^ N.of_nat fuel)%N ->
            readBase36 0 (string_of_digits (integer_digits fuel n [])) = Some n.
Proof.
  induction fuel as [|fuel IH]; intros n Hn.
  - cbn in Hn |- *. f_equal. lia.
  - cbn [integer_digits].
    assert (Hd : N.to_nat (n mod 36) < 36)
      by (pose proof (N.mod_lt n 36); lia).
    pose proof (N.div_mod n 36) as Hdm.
    destruct (n / 36 =? 0)%N eqn:E.
    + apply N.eqb_eq in E. cbn [string_of_digits readBase36].
      rewrite (digitValue_digit_char _ Hd). cbn [readBase36]. f_equal. lia.
    + rewrite integer_digits_acc.
      rewrite (readBase36_snoc _ _ Hd 0%N (n / 36)%N).
      * f_equal. lia.
      * apply IH. rewrite Nat2N.inj_succ, N.pow_succ_r' in Hn.
        apply N.Div0.div_lt_upper_bound. lia.
Qed.

Lemma integer_toString36_read (z : Z) :
  (0 <= z)%Z -> readBase36 0 (integer_toString36 z) = Some (Z.to_N z).
Proof.
  intros Hz. unfold integer_toString36.
  destruct (Z.ltb_spec z 0) as [Hlt | _]; [lia | ].
  cbn [append]. rewrite Zabs2N.abs_N_nonneg by assumption.
  apply integer_digits_read.
  rewrite Nat2N.inj_succ, N2Nat.id.
  destruct (N.eq_dec (Z.to_N z) 0) as [-> | Hnz]; [reflexivity | ].
  apply N.log2_spec. lia.
Qed.

(** ** OrderId *)

(** C8, as the code has it. [OrderId.generate] returns ORD-<t>-<r> where
    <t> is the base-36 numeral of the time read from the clock and <r> is
    what [substring(2, 9)] keeps of the base-36 rendering of the random
    number: at most seven base-36 digits. *)
Theorem OrderId_generate_form (now : Date) (random : number) :
  exists r : string,
    OrderId.value (OrderId.generate now random)
    = "ORD-" ++ integer_toString36 now ++ "-" ++ r
    /\ r = substring 2 9 (unit_toString36 random)
    /\ String.length r <= 7
    /\ allBase36 r = true
    /\ ((0 <= now)%Z ->
        readBase36 0 (integer_toString36 now) = Some (Z.to_N now)).
Proof.
  exists (substring 2 9 (unit_toString36 random)).
  destruct (random_suffix random) as [H1 H2].
  repeat split; try assumption.
  apply integer_toString36_read.
Qed.

(** C8 does not hold as stated: when [Math.random()] returns one half, whose
    base-36 rendering is 0.i, the suffix has one character, not seven. *)
Lemma OrderId_generate_short_suffix :
  (0 <=? 0.5)%float = true
  /\ (0.5 <? 1)%float = true
  /\ OrderId.value (OrderId.generate 1700000000000%Z 0.5%float)
     = "ORD-loyw3v28-i"
  /\ String.length (substring 2 9 (unit_toString36 0.5%float)) = 1.
Proof. vm_compute. repeat split. Qed.

(** ** Maps in insertion order *)

Section MapFacts.
Context {V : Type}.
Implicit Types (m : Map V) (k : string) (v : V).

Lemma Map_get_set_same m k v : Map_get (Map_set m k v) k = Some v.
Proof.
  induction m as [|[k' v'] r IH]; cbn.
  - now rewrite String.eqb_refl.
  - destruct (k =? k') eqn:E; cbn; now rewrite E.
Qed.

Lemma Map_get_set_other m k k' v :
  k <> k' -> Map_get (Map_set m k v) k' = Map_get m k'.
Proof.
  intros Hne. induction m as [|[k0 v0] r IH]; cbn.
  - destruct (String.eqb_spec k' k); [congruence | reflexivity].
  - destruct (String.eqb_spec k k0) as [-> | Hk]; cbn.
    + destruct (String.eqb_spec k' k0); [congruence | reflexivity].
    + now rewrite IH.
Qed.

Lemma Map_get_None_keys m k :
  Map_get m k = None <-> existsb (String.eqb k) (Map_keys m) = false.
Proof.
  induction m as [|[k' v'] r IH]; cbn; [tauto | ].
  destruct (k =? k'); cbn; [split; discriminate | exact IH].
Qed.

Lemma Map_set_present m k v v0 :
  Map_get m k = Some v0 ->
  Map_keys (Map_set m k v) = Map_keys m
  /\ Map_size (Map_set m k v) = Map_size m.
Proof.
  induction m as [|[k' v'] r IH]; cbn; [discriminate | ].
  destruct (k =? k'); cbn; [auto | ].
  intros H. destruct (IH H) as [H1 H2].
  unfold Map_keys, Map_size in *. now rewrite H1, H2.
Qed.

Lemma Map_set_absent m k v :
  Map_get m k = None -> Map_set m k v = (m ++ [(k, v)])%list.
Proof.
  induction m as [|[k' v'] r IH]; cbn; [reflexivity | ].
  destruct (k =? k'); [discriminate | ].
  intros H. now rewrite (IH H).
Qed.

Lemma Map_values_set m k v x :
  In x (Map_values (Map_set m k v)) -> x = v \/ In x (Map_values m).
Proof.
  induction m as [|[k' v'] r IH]; cbn.
  - intros [<- | []]. now left.
  - destruct (k =? k'); cbn.
    + intros [<- | H]; auto.
    + intros [<- | H]; auto. destruct (IH H); auto.
Qed.

Lemma Map_first_nonempty m :
  (0 <? Map_size m)%nat = true -> exists v, Map_first m = Some v.
Proof.
  destruct m as [|[k v] r]; cbn; [discriminate | ]. intros _. now exists v.
Qed.

Lemma Map_first_values m v : Map_first m = Some v -> In v (Map_values m).
Proof.
  destruct m as [|[k v'] r]; cbn; [discriminate | ].
  intros H. injection H as ->. now left.
Qed.
End MapFacts.

(** ** The item map of an order *)

Lemma distinct_snoc (keys : list string) (k : string) :
  distinct keys = true ->
  existsb (String.eqb k) keys = false ->
  distinct (keys ++ [k])%list = true.
Proof.
  induction keys as [|k0 r IH]; cbn; [reflexivity | ].
  intros H1 H2. apply andb_true_iff in H1 as [Hk0 Hr].
  apply orb_false_iff in H2 as [Hne Hk].
  rewrite (IH Hr Hk), andb_true_r.
  rewrite existsb_app. cbn. apply negb_true_iff in Hk0.
  rewrite Hk0, String.eqb_sym, Hne. reflexivity.
Qed.

Lemma wfItems_iff (m : Map OrderItem.t) :
  wfItems m = true <-> distinct (Map_keys m) = true /\ keyed m = true.
Proof. unfold wfItems. apply andb_true_iff. Qed.

Lemma wfItems_set (m : Map OrderItem.t) (item : OrderItem.t) :
  wfItems m = true ->
  wfItems (Map_set m (ProductId.value (OrderItem.productId item)) item) = true.
Proof.
  set (k := ProductId.value (OrderItem.productId item)).
  rewrite !wfItems_iff. intros [Hd Hk].
  destruct (Map_get m k) as [old | ] eqn:E.
  - destruct (Map_set_present m k item old E) as [Hkeys _].
    split; [now rewrite Hkeys | ].
    clear Hd Hkeys. revert Hk E. unfold keyed.
    induction m as [|[k' v'] r IH]; cbn; [discriminate | ].
    intros Hk. apply andb_true_iff in Hk as [Hk1 Hk2].
    destruct (String.eqb_spec k k') as [<- | Hne]; cbn.
    + intros _. now rewrite Hk2, String.eqb_refl.
    + intros E. now rewrite Hk1, (IH Hk2 E).
  - rewrite (Map_set_absent m k item E). split.
    + unfold Map_keys. rewrite map_app. apply distinct_snoc; [exact Hd | ].
      now apply Map_get_None_keys.
    + unfold keyed. rewrite forallb_app. fold (keyed m). rewrite Hk. cbn.
      now rewrite String.eqb_refl.
Qed.

Lemma wf_keyed_get (m : Map OrderItem.t) (k : string) (item : OrderItem.t) :
  keyed m = true -> Map_get m k = Some item ->
  ProductId.value (OrderItem.productId item) = k.
Proof.
  induction m as [|[k' v'] r IH]; cbn; [discriminate | ].
  intros Hk. apply andb_true_iff in Hk as [Hk1 Hk2].
  destruct (String.eqb_spec k k') as [-> | Hne].
  - intros H. injection H as <-. symmetry. now apply String.eqb_eq.
  - now apply IH.
Qed.




(** ** Order.addItem *)

(** The three ways out of [addItem]. *)
Lemma addItem_inv (now : Date) (this : Order.t) (productId : ProductId.t)
      (quantity : Quantity.t) (unitPrice : Money.t)
      (result : Result unit string) (this' : Order.t) :
  Order.addItem now this productId quantity unitPrice = (result, this') ->
  (result = fail "El precio unitario no puede ser cero"
   /\ this' = this
   /\ (Money.amount unitPrice =? 0)%float = true)
  \/ (exists firstItem,
         result
         = fail ("Todos los items deben tener la misma moneda. Moneda esperada: "
                 ++ Currency.code (Money.currency (OrderItem.unitPrice firstItem)))
         /\ this' = this
         /\ (Money.amount unitPrice =? 0)%float = false
         /\ Map_first (Order._items this) = Some firstItem
         /\ Money.hasSameCurrency (OrderItem.unitPrice firstItem) unitPrice
            = false)
  \/ (result = ok tt
      /\ (Money.amount unitPrice =? 0)%float = false
      /\ (forall firstItem,
             Map_first (Order._items this) = Some firstItem ->
             Money.hasSameCurrency (OrderItem.unitPrice firstItem) unitPrice
             = true)
      /\ match Map_get (Order._items this) (ProductId.value productId) with
         | Some existingItem =>
             this'
             = Order.recordEvent
                 (Order.with_items this
                    (Map_set (Order._items this) (ProductId.value productId)
                       (OrderItem.increaseQuantity existingItem quantity)))
                 (OrderItemQuantityIncreased.constructor now (Order._id this)
                    productId (OrderItem.quantity existingItem)
                    (Quantity.add (OrderItem.quantity existingItem) quantity))
         | None =>
             this'
             = Order.recordEvent
                 (Order.with_items this
                    (Map_set (Order._items this) (ProductId.value productId)
                       (OrderItem.mk productId quantity unitPrice)))
                 (OrderItemAdded.constructor now (Order._id this)
                    productId quantity unitPrice)
         end).
Proof.
  unfold Order.addItem.
  destruct (Money.amount unitPrice =? 0)%float eqn:Ezero.
  - intros H. injection H as <- <-. left. auto.
  - assert (Hlines :
      forall r t,
        match Map_get (Order._items this) (ProductId.value productId) with
        | Some existingItem =>
            (ok tt,
             Order.recordEvent
               (Order.with_items this
                  (Map_set (Order._items this) (ProductId.value productId)
                     (OrderItem.increaseQuantity existingItem quantity)))
               (OrderItemQuantityIncreased.constructor now (Order._id this)
                  productId (OrderItem.quantity existingItem)
                  (OrderItem.quantity
                     (OrderItem.increaseQuantity existingItem quantity))))
        | None =>
            match OrderItem.create productId quantity unitPrice with
            | ok item =>
                (ok tt,
                 Order.recordEvent
                   (Order.with_items this
                      (Map_set (Order._items this)
                         (ProductId.value productId) item))
                   (OrderItemAdded.constructor now (Order._id this)
                      productId quantity unitPrice))
            | fail error => (fail error, this)
            end
        end = (r, t) ->
        r = ok tt
        /\ match Map_get (Order._items this) (ProductId.value productId) with
           | Some existingItem =>
               t
               = Order.recordEvent
                   (Order.with_items this
                      (Map_set (Order._items this)
                         (ProductId.value productId)
                         (OrderItem.increaseQuantity existingItem quantity)))
                   (OrderItemQuantityIncreased.constructor now
                      (Order._id this) productId
                      (OrderItem.quantity existingItem)
                      (Quantity.add (OrderItem.quantity existingItem)
                         quantity))
           | None =>
               t
               = Order.recordEvent
                   (Order.with_items this
                      (Map_set (Order._items this)
                         (ProductId.value productId)
                         (OrderItem.mk productId quantity unitPrice)))
                   (OrderItemAdded.constructor now (Order._id this)
                      productId quantity unitPrice)
           end).
    { intros r t.
      destruct (Map_get (Order._items this) (ProductId.value productId));
        cbn [OrderItem.create]; intros H; injection H as <- <-; auto. }
    destruct (0 <? Map_size (Order._items this))%nat eqn:Esize.
    + destruct (Map_first (Order._items this)) as [firstItem | ] eqn:Efirst.
      * destruct (Money.hasSameCurrency (OrderItem.unitPrice firstItem)
                                        unitPrice) eqn:Ecur; cbn [negb].
        -- intros H. right. right. destruct (Hlines _ _ H) as [Hr Ht].
           repeat split; auto. intros f Hf. injection Hf as <-. exact Ecur.
        -- intros H. injection H as <- <-. right. left.
           exists firstItem. auto.
      * intros H. right. right. destruct (Hlines _ _ H) as [Hr Ht].
        repeat split; auto. discriminate.
    + intros H. right. right. destruct (Hlines _ _ H) as [Hr Ht].
      repeat split; auto.
      intros f Hf. destruct (Order._items this); discriminate.
Qed.

Lemma constructor_fold_wf (items : list OrderItem.t) :
  forall m, wfItems m = true ->
            wfItems
              (fold_left
                 (fun m item =>
                    Map_set m (ProductId.value (OrderItem.productId item)) item)
                 items m) = true.
Proof.
  induction items as [|item items IH]; intros m Hm; cbn [fold_left];
    [assumption | ].
  apply IH. now apply wfItems_set.
Qed.

Lemma addItem_wf (now : Date) (this this' : Order.t) (productId : ProductId.t)
      (quantity : Quantity.t) (unitPrice : Money.t)
      (result : Result unit string) :
  wf this = true ->
  Order.addItem now this productId quantity unitPrice = (result, this') ->
  wf this' = true.
Proof.
  intros Hwf H.
  destruct (addItem_inv _ _ _ _ _ _ _ H)
    as [(_ & -> & _) | [(f & _ & -> & _) | (_ & _ & _ & Hthis')]];
    try assumption.
  unfold wf in *.
  destruct (Map_get (Order._items this) (ProductId.value productId))
    as [existingItem | ] eqn:E; subst this'; cbn.
  - apply wfItems_iff in Hwf as Hwf'. destruct Hwf' as [_ Hk].
    rewrite <- (wf_keyed_get _ _ _ Hk E).
    exact (wfItems_set _ (OrderItem.increaseQuantity existingItem quantity) Hwf).
  - exact (wfItems_set _ (OrderItem.mk productId quantity unitPrice) Hwf).
Qed.

(** Every order a program can hold has a well-formed item map. *)
Lemma built_wf (this : Order.t) : built this -> wf this = true.
Proof.
  induction 1 as [now random id | now id items
                 | now this p q u r this' _ IH H | this _ IH].
  - reflexivity.
  - unfold wf, Order.reconstitute, Order.constructor. cbn [Order._items].
    now apply constructor_fold_wf.
  - exact (addItem_wf _ _ _ _ _ _ _ IH H).
  - exact IH.
Qed.


(** C9. A failing [addItem] leaves the order as it was: the same lines, the
    same pending events. *)
Theorem addItem_failure_changes_nothing
        (now : Date) (this this' : Order.t) (p : ProductId.t)
        (q : Quantity.t) (price : Money.t) (error : string) :
  Order.addItem now this p q price = (fail error, this') ->
  Order._items this' = Order._items this
  /\ Order._domainEvents this' = Order._domainEvents this
  /\ this' = this.
Proof.
  intros H.
  destruct (addItem_inv _ _ _ _ _ _ _ H)
    as [(_ & -> & _) | [(f & _ & -> & _) | (Hr & _)]];
    try discriminate Hr; auto.
Qed.

(** C10. [OrderItem.create] never fails, so [addItem] has no way to fail
    beyond its two guards: the zero price and the currency of the first
    line. *)
Theorem OrderItem_create_total :
  (forall p q price, OrderItem.create p q price = ok (OrderItem.mk p q price))
  /\ (forall now this p q price result this',
         Order.addItem now this p q price = (result, this') ->
         result = ok tt
         \/ ((Money.amount price =? 0)%float = true
             /\ result = fail "El precio unitario no puede ser cero")
         \/ (exists firstItem,
                (Money.amount price =? 0)%float = false
                /\ Map_first (Order._items this) = Some firstItem
                /\ Money.hasSameCurrency (OrderItem.unitPrice firstItem) price
                   = false
                /\ result
                   = fail ("Todos los items deben tener la misma moneda. Moneda esperada: "
                           ++ Currency.code
                                (Money.currency (OrderItem.unitPrice firstItem))))).
Proof.
  split; [reflexivity | ].
  intros now this p q price result this' H.
  destruct (addItem_inv _ _ _ _ _ _ _ H)
    as [(Hr & _ & Hz) | [(f & Hr & _ & Hz & Hf & Hc) | (Hr & _)]]; auto.
  right. right. exists f. auto.
Qed.

(** ** One currency per order *)

Lemma hasSameCurrency_refl (a : Money.t) : Money.hasSameCurrency a a = true.
Proof. apply String.eqb_refl. Qed.

Lemma hasSameCurrency_sym (a b : Money.t) :
  Money.hasSameCurrency a b = true -> Money.hasSameCurrency b a = true.
Proof.
  unfold Money.hasSameCurrency, Currency.equals.
  now rewrite String.eqb_sym.
Qed.

Lemma hasSameCurrency_trans (a b c : Money.t) :
  Money.hasSameCurrency a b = true -> Money.hasSameCurrency b c = true ->
  Money.hasSameCurrency a c = true.
Proof.
  unfold Money.hasSameCurrency, Currency.equals. rewrite !String.eqb_eq.
  congruence.
Qed.

Lemma singleCurrency_iff (this : Order.t) :
  singleCurrency this = true
  <-> forall a b, In a (Order.items this) -> In b (Order.items this) ->
                  sameCurrency a b = true.
Proof.
  unfold singleCurrency. rewrite forallb_forall. split.
  - intros H a b Ha Hb. specialize (H a Ha). rewrite forallb_forall in H.
    now apply H.
  - intros H a Ha. apply forallb_forall. intros b Hb. now apply H.
Qed.

Lemma Map_get_In {V : Type} (m : Map V) (k : string) (v : V) :
  Map_get m k = Some v -> In v (Map_values m).
Proof.
  induction m as [|[k' v'] r IH]; cbn; [discriminate | ].
  destruct (k =? k').
  - intros H. injection H as ->. now left.
  - intros H. right. now apply IH.
Qed.

Lemma addItem_singleCurrency
      (now : Date) (this this' : Order.t) (p : ProductId.t)
      (q : Quantity.t) (price : Money.t) :
  singleCurrency this = true ->
  Order.addItem now this p q price = (ok tt, this') ->
  singleCurrency this' = true.
Proof.
  rewrite !singleCurrency_iff. intros Hone Hadd.
  destruct (addItem_inv _ _ _ _ _ _ _ Hadd)
    as [(Hr & _) | [(f & Hr & _) | (_ & _ & Hfirst & Hthis')]];
    try discriminate Hr.
  assert (Hnew : exists item,
             Order.items this'
             = Map_values (Map_set (Order._items this) (ProductId.value p) item)
             /\ forall b, In b (Order.items this) -> sameCurrency item b = true).
  { destruct (Map_get (Order._items this) (ProductId.value p))
      as [existingItem | ] eqn:E; subst this'.
    - exists (OrderItem.increaseQuantity existingItem q). split; [reflexivity | ].
      intros b Hb. apply (Hone existingItem b); [ | exact Hb].
      exact (Map_get_In _ _ _ E).
    - exists (OrderItem.mk p q price). split; [reflexivity | ].
      intros b Hb. unfold Order.items in Hb.
      destruct (Order._items this) as [|[k f] r] eqn:Em; [destruct Hb | ].
      specialize (Hfirst f eq_refl).
      apply hasSameCurrency_trans with (b := OrderItem.unitPrice f).
      + now apply hasSameCurrency_sym.
      + apply (Hone f b); unfold Order.items; rewrite Em;
          [now left | exact Hb]. }
  destruct Hnew as (item & Hitems & Hitem).
  intros a b Ha Hb. rewrite Hitems in Ha, Hb.
  apply Map_values_set in Ha, Hb.
  destruct Ha as [-> | Ha], Hb as [-> | Hb].
  - apply hasSameCurrency_refl.
  - now apply Hitem.
  - apply hasSameCurrency_sym. now apply Hitem.
  - now apply Hone.
Qed.

(** C2, as the code has it. Successful [addItem] calls keep an order in one
    currency when it starts in one: that is the case of every order made by
    [Order.create], while [Order.reconstitute] takes the lines it is given. *)
Theorem addItems_single_currency :
  (forall now this calls this',
      singleCurrency this = true ->
      addItems now this calls = Some this' ->
      singleCurrency this' = true)
  /\ (forall now random id calls this',
         addItems now (Order.create now random id) calls = Some this' ->
         singleCurrency this' = true).
Proof.
  assert (H : forall now calls this this',
             singleCurrency this = true ->
             addItems now this calls = Some this' ->
             singleCurrency this' = true).
  { intros now calls. induction calls as [|[[p q] price] rest IH];
      intros this this' Hone; cbn [addItems].
    - intros E. now injection E as <-.
    - destruct (Order.addItem now this p q price) as [[[] | e] next] eqn:E;
        [ | discriminate].
      apply IH. exact (addItem_singleCurrency _ _ _ _ _ _ Hone E). }
  split.
  - intros now this calls this'. apply H.
  - intros now random id calls this'. apply H. reflexivity.
Qed.

(** ** Events *)

(** C3. Every event the aggregate records has the event-type string of its
    class as [aggregateId]; the id of the order is only in the payload. *)
Theorem events_aggregateId_is_event_type (this : Order.t) :
  built this ->
  Forall
    (fun event =>
       DomainEvent.aggregateId event = eventTypeOf event
       /\ In (DomainEvent.aggregateId event)
             ["order.created"; "order.item.added";
              "order.item.quantity.increased"]
       /\ DomainEvent.orderId event = Order.id this
       /\ (~ In (OrderId.value (Order.id this))
             ["order.created"; "order.item.added";
              "order.item.quantity.increased"] ->
           DomainEvent.aggregateId event <> OrderId.value (Order.id this)))
    (Order._domainEvents this).
Proof.
  assert (Hlast : forall s id,
             In s ["order.created"; "order.item.added";
                   "order.item.quantity.increased"] ->
             ~ In (OrderId.value id)
               ["order.created"; "order.item.added";
                "order.item.quantity.increased"] ->
             s <> OrderId.value id) by (intros s id Hs Hn ->; auto).
  induction 1 as [now random id | now id items
                 | now this p q u r this' _ IH H | this _ IH].
  - unfold Order.create, Order.recordEvent, Order.constructor.
    cbn [Order._domainEvents Order.id Order._id app].
    constructor; [ | constructor].
    assert (Hin : In (DomainEvent.aggregateId
                        (OrderCreated.constructor now
                           match id with
                           | Some i => i
                           | None => OrderId.generate now random
                           end))
                     ["order.created"; "order.item.added";
                      "order.item.quantity.increased"]) by (left; reflexivity).
    repeat split; auto.
  - constructor.
  - destruct (addItem_inv _ _ _ _ _ _ _ H)
      as [(_ & -> & _) | [(f & _ & -> & _) | (_ & _ & _ & Hthis')]];
      try assumption.
    assert (Hid : Order.id this' = Order.id this)
      by (destruct (Map_get (Order._items this) (ProductId.value p));
          subst this'; reflexivity).
    assert (Hev : exists event,
               Order._domainEvents this'
               = (Order._domainEvents this ++ [event])%list
               /\ DomainEvent.aggregateId event = eventTypeOf event
               /\ In (DomainEvent.aggregateId event)
                     ["order.created"; "order.item.added";
                      "order.item.quantity.increased"]
               /\ DomainEvent.orderId event = Order.id this).
    { destruct (Map_get (Order._items this) (ProductId.value p));
        subst this'; eexists; (split; [reflexivity | ]);
        repeat split; cbn; auto. }
    destruct Hev as (event & -> & He1 & He2 & He3).
    rewrite Hid. apply Forall_app. split; [exact IH | ].
    constructor; [ | constructor]. repeat split; auto.
  - constructor.
Qed.

(** ** CreateOrderUseCase *)

Section CreateOrderFacts.
Import CreateOrderUseCase.
Context {World : Type}.
Variable orderRepository : OrderRepository World.
Variable eventBus : EventBus World.
Variable logger : Logger World.


End CreateOrderFacts.

(** ** Totals *)

Lemma subtotal_computable (item : OrderItem.t) :
  computable item = true ->
  OrderItem.calculateSubtotal item
  = ok (Money.mk (lineAmount item) (Money.currency (OrderItem.unitPrice item))).
Proof.
  unfold computable, validAmount, OrderItem.calculateSubtotal, Money.multiply,
    Money.create, lineAmount, Money.amount, Money.currency,
    OrderItem.quantity, OrderItem.unitPrice.
  destruct (Number_isFinite (Quantity.value (OrderItem._quantity item)));
    destruct (Quantity.value (OrderItem._quantity item) <? 0)%float;
    cbn [negb andb orb]; try discriminate.
  destruct (Number_isFinite _); destruct (_ <? 0)%float;
    cbn [negb andb orb]; try discriminate.
  reflexivity.
Qed.

Lemma subtotal_not_computable (item : OrderItem.t) :
  computable item = false ->
  exists error, OrderItem.calculateSubtotal item = fail error.
Proof.
  unfold computable, validAmount, OrderItem.calculateSubtotal, Money.multiply,
    Money.create, lineAmount, Money.amount, Money.currency,
    OrderItem.quantity, OrderItem.unitPrice.
  destruct (Number_isFinite (Quantity.value (OrderItem._quantity item)));
    destruct (Quantity.value (OrderItem._quantity item) <? 0)%float;
    cbn [negb andb orb]; try (intros _; eexists; reflexivity).
  destruct (Number_isFinite _); destruct (_ <? 0)%float;
    cbn [negb andb orb]; try discriminate; intros _; eexists; reflexivity.
Qed.

Lemma Map_get_Some_keys {V : Type} (m : Map V) (k : string) (v : V) :
  Map_get m k = Some v -> In k (Map_keys m).
Proof.
  induction m as [|[k' v'] r IH]; cbn; [discriminate | ].
  destruct (String.eqb_spec k k') as [-> | _]; [now left | ].
  intros H. right. now apply IH.
Qed.

(** A turn leaves the keys alone, or appends the currency of a computable
    line that had no total yet. *)
Lemma totalsStep_keys (totals : Map Money.t) (item : OrderItem.t) :
  (Map_keys (totalsStep totals item) = Map_keys totals
   /\ (computable item = true -> In (codeOf item) (Map_keys totals)))
  \/ (computable item = true
      /\ Map_get totals (codeOf item) = None
      /\ Map_keys (totalsStep totals item)
         = (Map_keys totals ++ [codeOf item])%list).
Proof.
  destruct (computable item) eqn:Ec.
  - rewrite (subtotal_computable _ Ec). cbn [Money.currency Money._currency].
    destruct (Map_get totals (codeOf item)) as [existingTotal | ] eqn:Eg.
    + left. split; [ | intros _; exact (Map_get_Some_keys _ _ _ Eg)].
      destruct (Money.add existingTotal _); [ | reflexivity].
      exact (proj1 (Map_set_present _ _ _ _ Eg)).
    + right. repeat split.
      rewrite (Map_set_absent _ _ _ Eg). unfold Map_keys.
      now rewrite map_app.
  - destruct (subtotal_not_computable _ Ec) as [error ->].
    left. split; [reflexivity | discriminate].
Qed.

Lemma totals_keys (items : list OrderItem.t) :
  forall totals : Map Money.t,
    distinct (Map_keys totals) = true ->
    distinct (Map_keys (fold_left totalsStep items totals)) = true
    /\ forall c,
        In c (Map_keys (fold_left totalsStep items totals))
        <-> In c (Map_keys totals)
            \/ exists item,
                In item items /\ computable item = true /\ codeOf item = c.
Proof.
  induction items as [|item items IH]; intros totals Hd; cbn [fold_left].
  - split; [assumption | ]. intros c. split; [auto | ].
    intros [H | (item & [] & _)]. exact H.
  - destruct (totalsStep_keys totals item)
      as [(Hk & Hc) | (Hc & Hg & Hk)].
    + assert (Hd' : distinct (Map_keys (totalsStep totals item)) = true)
        by now rewrite Hk.
      destruct (IH _ Hd') as [H1 H2]. split; [exact H1 | ].
      intros c. rewrite H2, Hk. split.
      * intros [H | (i & Hi & Hci & Hcode)]; [now left | ].
        right. exists i. repeat split; auto; now right.
      * intros [H | (i & [<- | Hi] & Hci & Hcode)]; [now left | | ].
        -- left. rewrite <- Hcode. now apply Hc.
        -- right. exists i. auto.
    + assert (Hd' : distinct (Map_keys (totalsStep totals item)) = true).
      { rewrite Hk. apply distinct_snoc; [exact Hd | ].
        now apply Map_get_None_keys. }
      destruct (IH _ Hd') as [H1 H2]. split; [exact H1 | ].
      intros c. rewrite H2, Hk, in_app_iff. cbn [In]. split.
      * intros [[H | [<- | []]] | (i & Hi & Hci & Hcode)].
        -- now left.
        -- right. exists item. repeat split; auto; now left.
        -- right. exists i. repeat split; auto; now right.
      * intros [H | (i & [<- | Hi] & Hci & Hcode)].
        -- left. now left.
        -- left. right. left. exact Hcode.
        -- right. exists i. auto.
Qed.






(** ** The outbox clean-up *)




(** ** Instances on the sample orders *)


Lemma addItem_failure_changes_nothing_witness :
  Order._items
    (snd (Order.addItem Sample.now Sample.oneLine Sample.mouse
            (Sample.qty 1%float) (Sample.usd 0%float)))
  = Order._items Sample.oneLine
  /\ Order._domainEvents
       (snd (Order.addItem Sample.now Sample.oneLine Sample.mouse
               (Sample.qty 1%float) (Sample.usd 0%float)))
     = Order._domainEvents Sample.oneLine
  /\ snd (Order.addItem Sample.now Sample.oneLine Sample.mouse
            (Sample.qty 1%float) (Sample.usd 0%float))
     = Sample.oneLine.
Proof.
  apply (addItem_failure_changes_nothing Sample.now Sample.oneLine _
           Sample.mouse (Sample.qty 1%float) (Sample.usd 0%float)
           "El precio unitario no puede ser cero").
  vm_compute. reflexivity.
Defined.

Lemma addItems_single_currency_witness :
  singleCurrency Sample.twoLines = true.
Proof.
  apply (proj2 addItems_single_currency Sample.now Sample.random None
           [(Sample.laptop, Sample.qty 2%float, Sample.usd 1299.99%float);
            (Sample.mouse, Sample.qty 3%float, Sample.usd 25%float)]).
  vm_compute. reflexivity.
Defined.

Lemma reconstituted_order_mixes_currencies :
  Money.create 10%float Currency.USD = ok (Sample.usd 10%float)
  /\ Money.create 5%float Currency.EUR = ok (Sample.eur 5%float)
  /\ Quantity.create 1%float = ok (Sample.qty 1%float)
  /\ exists this',
      addItems Sample.now Sample.mixed
               [(Sample.laptop, Sample.qty 1%float, Sample.usd 10%float)] = Some this'
      /\ singleCurrency this' = false.
Proof.
  repeat split; try (vm_compute; reflexivity).
  eexists. split; vm_compute; reflexivity.
Qed.

Lemma events_aggregateId_witness :
  Forall
    (fun event =>
       DomainEvent.aggregateId event = eventTypeOf event
       /\ In (DomainEvent.aggregateId event)
             ["order.created"; "order.item.added";
              "order.item.quantity.increased"]
       /\ DomainEvent.orderId event = Order.id Sample.oneLine
       /\ (~ In (OrderId.value (Order.id Sample.oneLine))
             ["order.created"; "order.item.added";
              "order.item.quantity.increased"] ->
           DomainEvent.aggregateId event
           <> OrderId.value (Order.id Sample.oneLine)))
    (Order._domainEvents Sample.oneLine).
Proof.
  apply (events_aggregateId_is_event_type Sample.oneLine).
  eapply built_addItem;
    [exact (built_create Sample.now Sample.random None)
    | apply surjective_pairing].
Defined.




(* ================================================================== *)
(** * Further properties of the code *)

(** ** Identifiers are stored trimmed *)







Lemma trim_empty_string : trim "" = "".
Proof. reflexivity. Qed.

Lemma length_zero_empty (s : string) :
  (String.length s =? 0)%nat = true <-> s = "".
Proof. destruct s; cbn; split; congruence. Qed.



(** X3. The code of a currency made by [Currency.create] is one of the
    seven supported codes, and [Currency.create] maps it back to the same
    currency. *)
Theorem Currency_create_round_trip (s : string) (c : Currency.t) :
  Currency.create s = ok c ->
  In (Currency.code c) Currency.getSupportedCurrencies
  /\ Currency.create (Currency.code c) = ok c
  /\ Currency.create (Currency.toString c) = ok c.
Proof.
  unfold Currency.create at 1.
  destruct (Currency.isValidCurrencyCode (toUpperCase s)) eqn:E;
    cbn [negb]; [ | discriminate].
  intros H. injection H as <-.
  unfold Currency.isValidCurrencyCode in E. apply includes_In in E.
  cbn [Currency.code Currency.toString Currency._code].
  split; [exact E | ].
  cbn in E.
  repeat (destruct E as [<- | E]; [split; reflexivity | ]).
  destruct E.
Qed.

Lemma Currency_create_round_trip_witness :
  In (Currency.code Currency.EUR) Currency.getSupportedCurrencies
  /\ Currency.create (Currency.code Currency.EUR) = ok Currency.EUR
  /\ Currency.create (Currency.toString Currency.EUR) = ok Currency.EUR.
Proof.
  apply (Currency_create_round_trip "eur" Currency.EUR). reflexivity.
Defined.

(** ** Money *)

Lemma Money_create_ok (amount : number) (currency : Currency.t) (m : Money.t) :
  Money.create amount currency = ok m ->
  m = Money.mk amount currency /\ validAmount amount = true.
Proof.
  unfold Money.create, validAmount.
  destruct (Number_isFinite amount); cbn [negb andb]; [ | discriminate].
  destruct (amount <? 0)%float; cbn [negb]; [discriminate | ].
  intros H. injection H as <-. auto.
Qed.

Lemma Money_add_ok (this other sum : Money.t) :
  Money.add this other = ok sum ->
  Money.hasSameCurrency this other = true
  /\ sum = Money.mk (Money.amount this + Money.amount other)%float
                    (Money.currency this)
  /\ validAmount (Money.amount this + Money.amount other)%float = true.
Proof.
  unfold Money.add.
  destruct (Money.hasSameCurrency this other); cbn [negb]; [ | discriminate].
  intros H. apply Money_create_ok in H as [-> Hv]. auto.
Qed.

(** X4. Whatever [Money.add] and [Money.multiply] return as a success is
    money in the currency of the receiver whose amount is a finite number
    that is not negative; [add] refuses two different currencies. *)
Theorem Money_arithmetic_closed (this other : Money.t) (factor : number) :
  (forall sum,
      Money.add this other = ok sum ->
      Money.hasSameCurrency this other = true
      /\ Money.currency sum = Money.currency this
      /\ Money.amount sum = (Money.amount this + Money.amount other)%float
      /\ validAmount (Money.amount sum) = true)
  /\ (Money.hasSameCurrency this other = false ->
      isFail (Money.add this other) = true)
  /\ (forall product,
         Money.multiply this factor = ok product ->
         Money.currency product = Money.currency this
         /\ Money.amount product = (Money.amount this * factor)%float
         /\ validAmount factor = true
         /\ validAmount (Money.amount product) = true).
Proof.
  unfold Money.add, Money.multiply. repeat split.
  - destruct (Money.hasSameCurrency this other); [reflexivity | discriminate].
  - destruct (Money.hasSameCurrency this other); [ | discriminate].
    cbn [negb] in H. apply Money_create_ok in H as [-> _]. reflexivity.
  - destruct (Money.hasSameCurrency this other); [ | discriminate].
    cbn [negb] in H. apply Money_create_ok in H as [-> _]. reflexivity.
  - destruct (Money.hasSameCurrency this other); [ | discriminate].
    cbn [negb] in H. apply Money_create_ok in H as [-> Hv]. exact Hv.
  - intros ->. reflexivity.
  - destruct (negb (Number_isFinite factor) || (factor <? 0)%float);
      [discriminate | ].
    apply Money_create_ok in H as [-> _]. reflexivity.
  - destruct (negb (Number_isFinite factor) || (factor <? 0)%float);
      [discriminate | ].
    apply Money_create_ok in H as [-> _]. reflexivity.
  - unfold validAmount.
    destruct (Number_isFinite factor), (factor <? 0)%float;
      cbn [negb orb andb] in *; try discriminate. reflexivity.
  - destruct (negb (Number_isFinite factor) || (factor <? 0)%float);
      [discriminate | ].
    apply Money_create_ok in H as [-> Hv]. exact Hv.
Qed.

(** ** Results *)

Lemma combine_from_spec {T E : Type} (results : list (Result T E)) :
  forall values,
    (forall all, Results.combine_from values results = ok all
                 <-> exists more, results = List.map ok more
                                  /\ all = (values ++ more)%list)
    /\ (forall error,
           Results.combine_from values results = fail error
           <-> exists more rest,
               results = (List.map ok more ++ fail error :: rest)%list).
Proof.
  induction results as [|[value | e] results IH]; intros values;
    cbn [Results.combine_from].
  - split.
    + intros all. split.
      * intros H. injection H as <-. exists []. now rewrite app_nil_r.
      * intros (more & Hm & ->). destruct more; [ | discriminate].
        now rewrite app_nil_r.
    + intros error. split; [discriminate | ].
      intros (more & rest & H). destruct more; discriminate.
  - destruct (IH (values ++ [value])%list) as [IHok IHfail]. split.
    + intros all. rewrite IHok. split.
      * intros (more & -> & ->). exists (value :: more).
        now rewrite <- app_assoc.
      * intros (more & Hm & ->). destruct more as [|v more]; [discriminate | ].
        cbn in Hm. injection Hm as <- ->. exists more.
        now rewrite <- app_assoc.
    + intros error. rewrite IHfail. split.
      * intros (more & rest & ->). now exists (value :: more), rest.
      * intros (more & rest & H). destruct more as [|v more];
          [discriminate | ].
        cbn in H. injection H as <- ->. now exists more, rest.
  - split.
    + intros all. split; [discriminate | ].
      intros (more & H & _). destruct more; discriminate.
    + intros error. split.
      * intros H. injection H as <-. now exists [], results.
      * intros (more & rest & H). destruct more as [|v more];
          [ | discriminate].
        cbn in H. now injection H as <- _.
Qed.

(** X5. [combine] succeeds exactly when every result is a success, with
    the values in the order of the results; otherwise it fails with the
    error of the first failure. *)
Theorem combine_all_or_first_failure {T E : Type}
        (results : list (Result T E)) :
  (forall values,
      Results.combine results = ok values <-> results = List.map ok values)
  /\ (forall error,
         Results.combine results = fail error
         <-> exists values rest,
             results = (List.map ok values ++ fail error :: rest)%list).
Proof.
  unfold Results.combine.
  destruct (combine_from_spec results []) as [Hok Hfail]. split.
  - intros values. rewrite Hok. split.
    + intros (more & -> & ->). reflexivity.
    + intros ->. now exists values.
  - exact Hfail.
Qed.

(** ** Lines of an order *)

Lemma addItem_ok_items (now : Date) (this this' : Order.t) (p : ProductId.t)
      (q : Quantity.t) (price : Money.t) :
  Order.addItem now this p q price = (ok tt, this') ->
  Order._id this' = Order._id this
  /\ Order._createdAt this' = Order._createdAt this
  /\ Order._items this'
     = Map_set (Order._items this) (ProductId.value p)
               match Map_get (Order._items this) (ProductId.value p) with
               | Some existingItem => OrderItem.increaseQuantity existingItem q
               | None => OrderItem.mk p q price
               end
  /\ Order._domainEvents this'
     = (Order._domainEvents this
          ++ [match Map_get (Order._items this) (ProductId.value p) with
              | Some existingItem =>
                  OrderItemQuantityIncreased.constructor now (Order._id this) p
                    (OrderItem.quantity existingItem)
                    (Quantity.add (OrderItem.quantity existingItem) q)
              | None =>
                  OrderItemAdded.constructor now (Order._id this) p q price
              end])%list.
Proof.
  intros H.
  destruct (addItem_inv _ _ _ _ _ _ _ H)
    as [(Hr & _) | [(f & Hr & _) | (_ & _ & _ & Hthis')]];
    try discriminate Hr.
  destruct (Map_get (Order._items this) (ProductId.value p)); subst this';
    repeat split.
Qed.

(** X6. After a successful [addItem] the order has the product; a product
    that was not there gets a new line with the given quantity and price,
    placed after the lines there were; the line of every other product is
    what it was, and the number of lines grows only for a new product. *)
Theorem addItem_success_lines
        (now : Date) (this this' : Order.t) (p : ProductId.t)
        (q : Quantity.t) (price : Money.t) :
  Order.addItem now this p q price = (ok tt, this') ->
  Order.hasProduct this' p = true
  /\ (Order.hasProduct this p = false ->
      Order.items this' = (Order.items this ++ [OrderItem.mk p q price])%list)
  /\ (forall other,
         ProductId.value other <> ProductId.value p ->
         Map_get (Order._items this') (ProductId.value other)
         = Map_get (Order._items this) (ProductId.value other))
  /\ Order.itemCount this'
     = Order.itemCount this + (if Order.hasProduct this p then 0 else 1).
Proof.
  intros H. destruct (addItem_ok_items _ _ _ _ _ _ H) as (_ & _ & Hitems & _).
  unfold Order.hasProduct, Order.items, Order.itemCount, Map_has.
  rewrite Hitems. split; [now rewrite Map_get_set_same | ].
  split; [ | split].
  - destruct (Map_get (Order._items this) (ProductId.value p)) eqn:E;
      [discriminate | ].
    intros _. rewrite (Map_set_absent _ _ _ E). unfold Map_values.
    now rewrite map_app.
  - intros other Hne. apply Map_get_set_other. congruence.
  - destruct (Map_get (Order._items this) (ProductId.value p)) as [old | ] eqn:E.
    + rewrite (proj2 (Map_set_present _ _ _ _ E)). lia.
    + rewrite (Map_set_absent _ _ _ E). unfold Map_size.
      rewrite length_app. cbn. lia.
Qed.

Lemma addItem_success_lines_witness :
  Order.hasProduct Sample.twoLines Sample.mouse = true
  /\ (Order.hasProduct Sample.oneLine Sample.mouse = false ->
      Order.items Sample.twoLines
      = (Order.items Sample.oneLine
           ++ [OrderItem.mk Sample.mouse (Sample.qty 3%float)
                            (Sample.usd 25%float)])%list)
  /\ (forall other,
         ProductId.value other <> ProductId.value Sample.mouse ->
         Map_get (Order._items Sample.twoLines) (ProductId.value other)
         = Map_get (Order._items Sample.oneLine) (ProductId.value other))
  /\ Order.itemCount Sample.twoLines
     = Order.itemCount Sample.oneLine
       + (if Order.hasProduct Sample.oneLine Sample.mouse then 0 else 1).
Proof.
  apply (addItem_success_lines Sample.now Sample.oneLine Sample.twoLines
           Sample.mouse (Sample.qty 3%float) (Sample.usd 25%float)).
  vm_compute. reflexivity.
Defined.

(** ** The event log *)

Lemma replay_app (p : ProductId.t) (events more : list DomainEvent.t) :
  forall state middle final,
    replay p state events middle ->
    replay p middle more final ->
    replay p state (events ++ more)%list final.
Proof.
  induction events as [|event events IH]; intros state middle final; cbn.
  - now intros ->.
  - destruct (DomainEvent.fields event) as [o | o p' q' u' | o p' prev new].
    + apply IH.
    + destruct (ProductId.equals p' p); [ | apply IH].
      intros [Hs H1] H2. split; [exact Hs | ]. exact (IH _ _ _ H1 H2).
    + destruct (ProductId.equals p' p); [ | apply IH].
      intros [Hs H1] H2. split; [exact Hs | ]. exact (IH _ _ _ H1 H2).
Qed.

Lemma ProductId_equals_eq (a b : ProductId.t) :
  ProductId.equals a b = true <-> ProductId.value a = ProductId.value b.
Proof. unfold ProductId.equals. apply String.eqb_eq. Qed.

Lemma addItem_replay (now : Date) (this this' : Order.t) (p : ProductId.t)
      (q : Quantity.t) (price : Money.t) (about : ProductId.t)
      (start : option Quantity.t) :
  replay about start (Order._domainEvents this) (quantityOf this about) ->
  Order.addItem now this p q price = (ok tt, this') ->
  replay about start (Order._domainEvents this') (quantityOf this' about).
Proof.
  intros Hreplay H.
  destruct (addItem_ok_items _ _ _ _ _ _ H) as (_ & _ & Hitems & Hevents).
  rewrite Hevents. apply (replay_app _ _ _ _ _ _ Hreplay).
  unfold quantityOf. rewrite Hitems.
  destruct (ProductId.equals p about) eqn:Eq.
  - apply ProductId_equals_eq in Eq as Heq.
    rewrite <- Heq, Map_get_set_same.
    destruct (Map_get (Order._items this) (ProductId.value p)) as [old | ];
      cbn [replay option_map DomainEvent.fields DomainEvent.constructor
           OrderItemAdded.constructor OrderItemQuantityIncreased.constructor];
      rewrite Eq; auto.
  - assert (Hne : ProductId.value p <> ProductId.value about).
    { intros Heq. apply ProductId_equals_eq in Heq. congruence. }
    rewrite (Map_get_set_other _ _ _ _ Hne).
    destruct (Map_get (Order._items this) (ProductId.value p)) as [old | ];
      cbn [replay option_map DomainEvent.fields DomainEvent.constructor
           OrderItemAdded.constructor OrderItemQuantityIncreased.constructor];
      rewrite Eq; reflexivity.
Qed.

Lemma addItems_events (now : Date) (calls : list call) :
  forall this this',
    addItems now this calls = Some this' ->
    exists recorded,
      Order._domainEvents this'
      = (Order._domainEvents this ++ recorded)%list
      /\ List.length recorded = List.length calls.
Proof.
  induction calls as [|[[p q] price] calls IH]; intros this this';
    cbn [addItems].
  - intros H. injection H as <-. exists []. now rewrite app_nil_r.
  - destruct (Order.addItem now this p q price) as [[[] | e] next] eqn:E;
      [ | discriminate].
    intros H. destruct (IH _ _ H) as (recorded & Hr & Hlen).
    destruct (addItem_ok_items _ _ _ _ _ _ E) as (_ & _ & _ & Hevents).
    rewrite Hr, Hevents, <- app_assoc. eexists. split; [reflexivity | ].
    cbn. now rewrite Hlen.
Qed.

(** X7. The pending events of an order made by [Order.create] and filled
    by successful [addItem] calls are the [OrderCreated] event followed by
    one event per call, and for every product they replay to the line the
    order now has: the first event about a product is its [OrderItemAdded],
    and each [OrderItemQuantityIncreased] starts from the quantity the
    event before it left. *)
Theorem event_log_replays_to_lines
        (now : Date) (random : number) (id : option OrderId.t)
        (calls : list call) (this' : Order.t) :
  addItems now (Order.create now random id) calls = Some this' ->
  (exists recorded,
      Order._domainEvents this'
      = OrderCreated.constructor now (Order.id this') :: recorded
      /\ List.length recorded = List.length calls)
  /\ forall p,
      replay p None (Order._domainEvents this') (quantityOf this' p).
Proof.
  intros H. split.
  - destruct (addItems_events _ _ _ _ H) as (recorded & Hr & Hlen).
    exists recorded. split; [ | exact Hlen].
    rewrite Hr.
    assert (Hid : forall calls this this',
               addItems now this calls = Some this' ->
               Order._id this' = Order._id this).
    { clear. induction calls as [|[[p q] price] calls IH]; intros this this';
        cbn [addItems].
      - intros H. now injection H as <-.
      - destruct (Order.addItem now this p q price) as [[[] | e] next] eqn:E;
          [ | discriminate].
        intros H. rewrite (IH _ _ H).
        exact (proj1 (addItem_ok_items _ _ _ _ _ _ E)). }
    unfold Order.id. rewrite (Hid _ _ _ H). reflexivity.
  - intros p.
    assert (Hgen : forall calls this this',
               replay p None (Order._domainEvents this) (quantityOf this p) ->
               addItems now this calls = Some this' ->
               replay p None (Order._domainEvents this') (quantityOf this' p)).
    { clear. induction calls as [|[[p0 q] price] calls IH];
        intros this this' Hrep; cbn [addItems].
      - intros H. now injection H as <-.
      - destruct (Order.addItem now this p0 q price) as [[[] | e] next] eqn:E;
          [ | discriminate].
        apply IH. exact (addItem_replay _ _ _ _ _ _ _ _ Hrep E). }
    apply (Hgen calls (Order.create now random id) this'); [ | exact H].
    reflexivity.
Qed.

Lemma event_log_replays_witness :
  (exists recorded,
      Order._domainEvents Sample.twoLines
      = OrderCreated.constructor Sample.now (Order.id Sample.twoLines)
          :: recorded
      /\ List.length recorded = 2)
  /\ forall p,
      replay p None (Order._domainEvents Sample.twoLines)
             (quantityOf Sample.twoLines p).
Proof.
  apply (event_log_replays_to_lines Sample.now Sample.random None
           [(Sample.laptop, Sample.qty 2%float, Sample.usd 1299.99%float);
            (Sample.mouse, Sample.qty 3%float, Sample.usd 25%float)]).
  vm_compute. reflexivity.
Defined.

(** ** Order.reconstitute *)

Lemma find_snoc {A : Type} (f : A -> bool) (l : list A) (a : A) :
  find f (l ++ [a])%list
  = match find f l with
    | Some x => Some x
    | None => if f a then Some a else None
    end.
Proof.
  induction l as [|x l IH]; cbn; [reflexivity | ].
  destruct (f x); [reflexivity | exact IH].
Qed.

Lemma constructor_fold_get (items : list OrderItem.t) :
  forall (m : Map OrderItem.t) (k : string),
    Map_get
      (fold_left
         (fun m item =>
            Map_set m (ProductId.value (OrderItem.productId item)) item)
         items m) k
    = match find (fun item =>
                    (ProductId.value (OrderItem.productId item) =? k))
                 (rev items) with
      | Some item => Some item
      | None => Map_get m k
      end.
Proof.
  induction items as [|item items IH]; intros m k; cbn [fold_left rev find];
    [reflexivity | ].
  rewrite IH, find_snoc.
  destruct (find _ (rev items)); [reflexivity | ].
  destruct (String.eqb_spec (ProductId.value (OrderItem.productId item)) k)
    as [<- | Hne].
  - apply Map_get_set_same.
  - now apply Map_get_set_other.
Qed.

Lemma Map_set_size {V : Type} (m : Map V) (k : string) (v : V) :
  Map_size (Map_set m k v) <= S (Map_size m).
Proof.
  destruct (Map_get m k) as [old | ] eqn:E.
  - rewrite (proj2 (Map_set_present _ _ _ _ E)). lia.
  - rewrite (Map_set_absent _ _ _ E). unfold Map_size.
    rewrite length_app. cbn. lia.
Qed.

Lemma constructor_fold_size (items : list OrderItem.t) :
  forall m : Map OrderItem.t,
    Map_size
      (fold_left
         (fun m item =>
            Map_set m (ProductId.value (OrderItem.productId item)) item)
         items m)
    <= Map_size m + List.length items.
Proof.
  induction items as [|item items IH]; intros m; cbn [fold_left List.length];
    [lia | ].
  specialize (IH (Map_set m (ProductId.value (OrderItem.productId item)) item)).
  pose proof (Map_set_size m (ProductId.value (OrderItem.productId item)) item).
  lia.
Qed.

Lemma constructor_fold_values (items : list OrderItem.t) :
  forall (m : Map OrderItem.t) (x : OrderItem.t),
    In x (Map_values
            (fold_left
               (fun m item =>
                  Map_set m (ProductId.value (OrderItem.productId item)) item)
               items m)) ->
    In x items \/ In x (Map_values m).
Proof.
  induction items as [|item items IH]; intros m x; cbn [fold_left];
    [auto | ].
  intros H. destruct (IH _ _ H) as [Hin | Hin].
  - left. now right.
  - apply Map_values_set in Hin as [-> | Hin]; [left; now left | now right].
Qed.

(** X8. [Order.reconstitute] records no event and keeps, for every
    product, the last of the lines given for it: a product given twice
    yields one line. All its lines are among the given ones. *)
Theorem reconstitute_keeps_last_line
        (now : Date) (id : OrderId.t) (items : list OrderItem.t) :
  Order._domainEvents (Order.reconstitute now id items) = []
  /\ Order.id (Order.reconstitute now id items) = id
  /\ wf (Order.reconstitute now id items) = true
  /\ (forall p,
         Map_get (Order._items (Order.reconstitute now id items))
                 (ProductId.value p)
         = find (fun item => ProductId.equals (OrderItem.productId item) p)
                (rev items))
  /\ Order.itemCount (Order.reconstitute now id items) <= List.length items
  /\ (forall item,
         In item (Order.items (Order.reconstitute now id items)) ->
         In item items).
Proof.
  split; [reflexivity | ]. split; [reflexivity | ].
  split; [apply built_wf; constructor | ].
  unfold Order.reconstitute, Order.constructor, Order.itemCount, Order.items.
  cbn [Order._items]. split; [ | split].
  - intros p. rewrite constructor_fold_get.
    unfold ProductId.equals. now destruct (find _ (rev items)).
  - apply (constructor_fold_size items Map_new).
  - intros item H. destruct (constructor_fold_values _ _ _ H) as [Hin | []].
    exact Hin.
Qed.

(** ** Totals per currency *)

Lemma Forall_Map_set {V : Type} (P : string * V -> Prop)
      (m : Map V) (k : string) (v : V) :
  Forall P m -> P (k, v) -> Forall P (Map_set m k v).
Proof.
  induction 1 as [|[k' v'] r Hx Hr IH]; intros Hv; cbn.
  - constructor; [exact Hv | constructor].
  - destruct (String.eqb_spec k k') as [<- | _];
      constructor; auto.
Qed.

Lemma Map_get_In_pair {V : Type} (m : Map V) (k : string) (v : V) :
  Map_get m k = Some v -> In (k, v) m.
Proof.
  induction m as [|[k' v'] r IH]; cbn; [discriminate | ].
  destruct (String.eqb_spec k k') as [<- | _].
  - intros H. injection H as ->. now left.
  - intros H. right. now apply IH.
Qed.

Lemma totals_entries (items : list OrderItem.t) :
  forall totals : Map Money.t,
    Forall (fun entry =>
              Currency.code (Money.currency (snd entry)) = fst entry
              /\ validAmount (Money.amount (snd entry)) = true) totals ->
    Forall (fun entry =>
              Currency.code (Money.currency (snd entry)) = fst entry
              /\ validAmount (Money.amount (snd entry)) = true)
           (fold_left totalsStep items totals).
Proof.
  induction items as [|item items IH]; intros totals Ht; cbn [fold_left];
    [exact Ht | ].
  apply IH.
  destruct (computable item) eqn:Ec.
  - rewrite (subtotal_computable _ Ec). cbn [Money.currency Money._currency].
    apply andb_true_iff in Ec as [_ Hline].
    destruct (Map_get totals (codeOf item)) as [existingTotal | ] eqn:Eg.
    + destruct (Money.add existingTotal _) as [newTotal | e] eqn:Ea;
        [ | exact Ht].
      apply Forall_Map_set; [exact Ht | ]. cbn [fst snd].
      destruct (Money_add_ok _ _ _ Ea) as (_ & -> & Hvalid).
      cbn [Money.currency Money.amount Money._currency Money._amount].
      split; [ | exact Hvalid].
      apply Map_get_In_pair in Eg.
      rewrite Forall_forall in Ht. exact (proj1 (Ht _ Eg)).
    + apply Forall_Map_set; [exact Ht | ]. cbn [fst snd]. split; auto.
  - destruct (subtotal_not_computable _ Ec) as [error ->]. exact Ht.
Qed.

(** X9. In what [calculateTotalsByCurrency] returns, no currency occurs
    twice, each total is filed under the code of its own currency and is
    an amount that is finite and not negative, and the currencies are
    exactly those of the lines whose subtotal can be computed. *)
Theorem totals_by_currency_entries (this : Order.t) :
  distinct (Map_keys (Order.calculateTotalsByCurrency this)) = true
  /\ (forall code total,
         Map_get (Order.calculateTotalsByCurrency this) code = Some total ->
         Currency.code (Money.currency total) = code
         /\ validAmount (Money.amount total) = true)
  /\ (forall code,
         Map_has (Order.calculateTotalsByCurrency this) code = true
         <-> exists item,
             In item (Order.items this)
             /\ computable item = true
             /\ Currency.code (Money.currency (OrderItem.unitPrice item))
                = code).
Proof.
  unfold Order.calculateTotalsByCurrency. fold (Order.items this).
  destruct (totals_keys (Order.items this) Map_new eq_refl) as [Hd Hk].
  split; [exact Hd | ]. split.
  - intros code total Hget.
    pose proof (totals_entries (Order.items this) Map_new (Forall_nil _)) as H.
    rewrite Forall_forall in H. exact (H _ (Map_get_In_pair _ _ _ Hget)).
  - intros code. unfold Map_has.
    destruct (Map_get (fold_left totalsStep (Order.items this) Map_new) code)
      as [total | ] eqn:E.
    + split; [intros _ | reflexivity].
      apply Map_get_Some_keys in E. apply Hk in E as [[] | E]. exact E.
    + split; [discriminate | ]. intros Hex. exfalso.
      assert (Hin : In code
                       (Map_keys (fold_left totalsStep (Order.items this)
                                            Map_new)))
        by (apply Hk; now right).
      apply Map_get_None_keys in E.
      assert (existsb (String.eqb code)
                      (Map_keys (fold_left totalsStep (Order.items this)
                                           Map_new)) = true).
      { apply existsb_exists. exists code. split; [exact Hin | ].
        apply String.eqb_refl. }
      congruence.
Qed.

(** ** Draining the events *)

(** X10. [pullDomainEvents] hands out the pending events and leaves none:
    a second pull returns nothing, the lines are untouched, and what a later
    pull returns is one event per [addItem] that succeeded in between. *)
Theorem pullDomainEvents_drains (this : Order.t) :
  fst (Order.pullDomainEvents this) = Order._domainEvents this
  /\ fst (Order.pullDomainEvents (snd (Order.pullDomainEvents this))) = []
  /\ Order._items (snd (Order.pullDomainEvents this)) = Order._items this
  /\ Order.id (snd (Order.pullDomainEvents this)) = Order.id this
  /\ (forall now calls this',
         addItems now (snd (Order.pullDomainEvents this)) calls = Some this' ->
         List.length (fst (Order.pullDomainEvents this')) = List.length calls).
Proof.
  repeat split.
  intros now calls this' H.
  destruct (addItems_events _ _ _ _ H) as (recorded & Hr & Hlen).
  cbn [Order.pullDomainEvents fst snd Order._domainEvents] in Hr |- *.
  rewrite Hr. exact Hlen.
Qed.

(** ** The in-memory repository *)

(** X11. What [save] stores is what [findById] returns for the id of the
    order; other ids are not affected; saving under an id that is already
    there replaces the order and keeps the count. *)
Theorem repository_save_then_find
        (this : InMemoryOrderRepository.t) (order : Order.t) :
  InMemoryOrderRepository.findById
    (InMemoryOrderRepository.save this order) (Order.id order) = Some order
  /\ InMemoryOrderRepository.exists_
       (InMemoryOrderRepository.save this order) (Order.id order) = true
  /\ (forall id,
         OrderId.value id <> OrderId.value (Order.id order) ->
         InMemoryOrderRepository.findById
           (InMemoryOrderRepository.save this order) id
         = InMemoryOrderRepository.findById this id)
  /\ InMemoryOrderRepository.count (InMemoryOrderRepository.save this order)
     = InMemoryOrderRepository.count this
       + (if InMemoryOrderRepository.exists_ this (Order.id order)
          then 0 else 1)
  /\ (forall other,
         Order.id other = Order.id order ->
         InMemoryOrderRepository.findById
           (InMemoryOrderRepository.save
              (InMemoryOrderRepository.save this other) order)
           (Order.id order) = Some order
         /\ InMemoryOrderRepository.count
              (InMemoryOrderRepository.save
                 (InMemoryOrderRepository.save this other) order)
            = InMemoryOrderRepository.count
                (InMemoryOrderRepository.save this other)).
Proof.
  unfold InMemoryOrderRepository.findById, InMemoryOrderRepository.exists_,
    InMemoryOrderRepository.save, InMemoryOrderRepository.count, Map_has.
  cbn [InMemoryOrderRepository.orders].
  split; [apply Map_get_set_same | ].
  split; [now rewrite Map_get_set_same | ].
  split; [intros id Hne; apply Map_get_set_other; congruence | ].
  split.
  - destruct (Map_get (InMemoryOrderRepository.orders this)
                      (OrderId.value (Order.id order))) as [old | ] eqn:E.
    + rewrite (proj2 (Map_set_present _ _ _ _ E)). lia.
    + rewrite (Map_set_absent _ _ _ E). unfold Map_size.
      rewrite length_app. cbn. lia.
  - intros other Hid. split; [apply Map_get_set_same | ].
    rewrite <- Hid.
    apply (proj2 (Map_set_present _ _ order other (Map_get_set_same _ _ _))).
Qed.

(** ** The no-op event bus *)

Lemma NoopEventBus_publishAll_events (events : list DomainEvent.t) :
  forall this,
    NoopEventBus.publishedEvents (NoopEventBus.publishAll this events)
    = (NoopEventBus.publishedEvents this ++ events)%list.
Proof.
  unfold NoopEventBus.publishAll.
  induction events as [|event events IH]; intros this; cbn [fold_left].
  - now rewrite app_nil_r.
  - rewrite IH. cbn [NoopEventBus.publish NoopEventBus.publishedEvents].
    now rewrite <- app_assoc.
Qed.

(** The pending events of a built order carry one of the three type
    strings as [aggregateId]. *)
Lemma built_events_typed (this : Order.t) :
  built this ->
  Forall (fun event => In (DomainEvent.aggregateId event) eventTypes)
         (Order._domainEvents this).
Proof.
  induction 1 as [now random id | now id items
                 | now this p q u r this' _ IH H | this _ IH].
  - constructor; [left; reflexivity | constructor].
  - constructor.
  - destruct r as [[] | e].
    + destruct (addItem_ok_items _ _ _ _ _ _ H) as (_ & _ & _ & ->).
      apply Forall_app. split; [exact IH | ].
      constructor; [ | constructor].
      destruct (Map_get (Order._items this) (ProductId.value p)).
      * right. right. left. reflexivity.
      * right. left. reflexivity.
    + destruct (addItem_inv _ _ _ _ _ _ _ H)
        as [(_ & -> & _) | [(f & _ & -> & _) | (Hr & _)]];
        try discriminate Hr; exact IH.
  - constructor.
Qed.

(** X12. [publishAll] records the events in the order given, after those
    already recorded. Since the events of an order carry their type as
    [aggregateId], looking the published events up by the id of the order
    finds none of them, unless that id is itself one of the type strings. *)
Theorem NoopEventBus_lookup_by_order_id
        (bus : NoopEventBus.t) (this : Order.t) :
  built this ->
  NoopEventBus.getPublishedEvents
    (NoopEventBus.publishAll bus (Order._domainEvents this))
  = (NoopEventBus.getPublishedEvents bus ++ Order._domainEvents this)%list
  /\ NoopEventBus.getEventCount
       (NoopEventBus.publishAll bus (Order._domainEvents this))
     = NoopEventBus.getEventCount bus + List.length (Order._domainEvents this)
  /\ (~ In (OrderId.value (Order.id this)) eventTypes ->
      NoopEventBus.getEventsByAggregateId
        (NoopEventBus.publishAll bus (Order._domainEvents this))
        (OrderId.value (Order.id this))
      = NoopEventBus.getEventsByAggregateId bus
                                            (OrderId.value (Order.id this))).
Proof.
  intros Hbuilt.
  unfold NoopEventBus.getPublishedEvents, NoopEventBus.getEventCount,
    NoopEventBus.getEventsByAggregateId.
  rewrite NoopEventBus_publishAll_events.
  split; [reflexivity | ]. split; [apply length_app | ].
  intros Hid. rewrite filter_app.
  replace (filter _ (Order._domainEvents this)) with (@nil DomainEvent.t);
    [now rewrite app_nil_r | ].
  symmetry. pose proof (built_events_typed _ Hbuilt) as Ht.
  induction Ht as [|event events He Hevents IH]; cbn [filter];
    [reflexivity | ].
  destruct (String.eqb_spec (DomainEvent.aggregateId event)
                            (OrderId.value (Order.id this))) as [Heq | _];
    [ | exact IH].
  exfalso. apply Hid. now rewrite <- Heq.
Qed.

Lemma NoopEventBus_lookup_witness :
  NoopEventBus.getPublishedEvents
    (NoopEventBus.publishAll (NoopEventBus.constructor None)
                             (Order._domainEvents Sample.oneLine))
  = (NoopEventBus.getPublishedEvents (NoopEventBus.constructor None)
       ++ Order._domainEvents Sample.oneLine)%list
  /\ NoopEventBus.getEventCount
       (NoopEventBus.publishAll (NoopEventBus.constructor None)
                                (Order._domainEvents Sample.oneLine))
     = NoopEventBus.getEventCount (NoopEventBus.constructor None)
       + List.length (Order._domainEvents Sample.oneLine)
  /\ (~ In (OrderId.value (Order.id Sample.oneLine)) eventTypes ->
      NoopEventBus.getEventsByAggregateId
        (NoopEventBus.publishAll (NoopEventBus.constructor None)
                                 (Order._domainEvents Sample.oneLine))
        (OrderId.value (Order.id Sample.oneLine))
      = NoopEventBus.getEventsByAggregateId
          (NoopEventBus.constructor None)
          (OrderId.value (Order.id Sample.oneLine))).
Proof.
  apply (NoopEventBus_lookup_by_order_id (NoopEventBus.constructor None)
                                         Sample.oneLine).
  eapply built_addItem;
    [exact (built_create Sample.now Sample.random None)
    | apply surjective_pairing].
Defined.

(** ** The price catalog *)


Lemma Currency_create_supported (code : string) (currency : Currency.t) :
  Currency.create code = ok currency ->
  In (Currency.code currency) Currency.getSupportedCurrencies.
Proof.
  unfold Currency.create.
  destruct (Currency.isValidCurrencyCode (toUpperCase code)) eqn:E;
    cbn [negb]; [ | discriminate].
  intros H. injection H as <-. now apply includes_In in E.
Qed.

Lemma Map_get_delete_same {V : Type} (m : Map V) (k : string) :
  Map_get (Map_delete m k) k = None.
Proof.
  unfold Map_delete. induction m as [|[k' v'] r IH]; cbn; [reflexivity | ].
  destruct (k =? k') eqn:E; cbn; [exact IH | ]. now rewrite E.
Qed.

Lemma Map_get_delete_other {V : Type} (m : Map V) (k k' : string) :
  k <> k' -> Map_get (Map_delete m k) k' = Map_get m k'.
Proof.
  intros Hne. unfold Map_delete.
  induction m as [|[k0 v0] r IH]; cbn; [reflexivity | ].
  destruct (String.eqb_spec k k0) as [<- | _]; cbn.
  - destruct (String.eqb_spec k' k); [congruence | exact IH].
  - now rewrite IH.
Qed.

Lemma addPrice_valid (this : StaticPricingService.t)
      (productId : string) (price : number) (currencyCode : string) :
  pricesValid (StaticPricingService.catalog this) ->
  pricesValid (StaticPricingService.catalog
                 (StaticPricingService.addPrice this productId price
                                                currencyCode)).
Proof.
  intros H. unfold StaticPricingService.addPrice.
  destruct (Currency.create currencyCode) as [currency | e] eqn:Ec;
    [ | exact H].
  destruct (Money.create price currency) as [money | e] eqn:Em; [ | exact H].
  cbn [StaticPricingService.catalog].
  apply Forall_Map_set; [exact H | ]. cbn [snd].
  apply Money_create_ok in Em as [-> Hv]. split; [exact Hv | ].
  exact (Currency_create_supported _ _ Ec).
Qed.

Lemma runPricing_valid (this : StaticPricingService.t) (c : pricingCommand) :
  pricesValid (StaticPricingService.catalog this) ->
  pricesValid (StaticPricingService.catalog (runPricing this c)).
Proof.
  intros H. destruct c as [id price code | id price | id | ];
    cbn [runPricing].
  - now apply addPrice_valid.
  - unfold StaticPricingService.updatePrice.
    destruct (Map_get (StaticPricingService.catalog this) id)
      as [existingPrice | ] eqn:Eg; [ | exact H].
    destruct (Money.create price (Money.currency existingPrice))
      as [money | e] eqn:Em; [ | exact H].
    cbn [StaticPricingService.catalog].
    apply Forall_Map_set; [exact H | ]. cbn [snd].
    apply Money_create_ok in Em as [-> Hv]. split; [exact Hv | ].
    apply Map_get_In_pair in Eg. rewrite Forall_forall in H.
    exact (proj2 (H _ Eg)).
  - cbn [StaticPricingService.removePrice StaticPricingService.catalog].
    unfold Map_delete. rewrite Forall_forall in *.
    intros entry Hin. apply filter_In in Hin as [Hin _]. now apply H.
  - constructor.
Qed.

(** X13. Whatever entries the price service is made from and whatever is
    added, updated or removed afterwards, a price it returns is a finite
    amount that is not negative, in one of the supported currencies. *)
Theorem pricing_returns_valid_money
        (priceEntries : option (list StaticPricingService.PriceEntry))
        (commands : list pricingCommand) (productId : ProductId.t)
        (money : Money.t) :
  StaticPricingService.getPrice
    (fold_left runPricing commands
               (StaticPricingService.constructor priceEntries))
    productId = Some money ->
  validAmount (Money.amount money) = true
  /\ In (Currency.code (Money.currency money)) Currency.getSupportedCurrencies.
Proof.
  assert (Hmade : pricesValid
                    (StaticPricingService.catalog
                       (StaticPricingService.constructor priceEntries))).
  { unfold StaticPricingService.constructor.
    generalize (match priceEntries with
                | Some given => given
                | None => StaticPricingService.defaultCatalog
                end).
    intros entries.
    assert (H : pricesValid
                  (StaticPricingService.catalog
                     (StaticPricingService.mk Map_new))) by constructor.
    revert H. generalize (StaticPricingService.mk Map_new).
    induction entries as [|entry entries IH]; intros this H;
      cbn [fold_left]; [exact H | ].
    apply IH. now apply addPrice_valid. }
  assert (Hrun : forall commands this,
             pricesValid (StaticPricingService.catalog this) ->
             pricesValid (StaticPricingService.catalog
                            (fold_left runPricing commands this))).
  { clear. induction commands as [|c commands IH]; intros this H;
      cbn [fold_left]; [exact H | ].
    apply IH. now apply runPricing_valid. }
  intros Hget. unfold StaticPricingService.getPrice in Hget.
  apply Map_get_In_pair in Hget.
  pose proof (Hrun commands _ Hmade) as H. rewrite Forall_forall in H.
  exact (H _ Hget).
Qed.

Lemma pricing_returns_valid_money_witness :
  validAmount (Money.amount (Sample.usd 1299.99%float)) = true
  /\ In (Currency.code (Money.currency (Sample.usd 1299.99%float)))
        Currency.getSupportedCurrencies.
Proof.
  apply (pricing_returns_valid_money
           None [UpdatePrice "MOUSE-001" 19.5%float; RemovePrice "DESK-001"]
           Sample.laptop (Sample.usd 1299.99%float)).
  vm_compute. reflexivity.
Defined.

(** X14. [addPrice] with an unsupported currency or an amount that is
    negative or not finite changes nothing, and otherwise sets the price of
    that product only; [updatePrice] keeps the currency the product has and
    does nothing for a product the catalog does not have; after
    [removePrice] the product has no price. *)
Theorem pricing_catalog_updates
        (this : StaticPricingService.t) (productId : string) (price : number) :
  (forall currencyCode,
      (isFail (Currency.create currencyCode) = true
       \/ validAmount price = false) ->
      StaticPricingService.addPrice this productId price currencyCode = this)
  /\ (forall currencyCode currency,
         Currency.create currencyCode = ok currency ->
         validAmount price = true ->
         StaticPricingService.getPrice
           (StaticPricingService.addPrice this productId price currencyCode)
           (ProductId.mk productId)
         = Some (Money.mk price currency)
         /\ forall other,
             ProductId.value other <> productId ->
             StaticPricingService.getPrice
               (StaticPricingService.addPrice this productId price
                                              currencyCode) other
             = StaticPricingService.getPrice this other)
  /\ (StaticPricingService.getPrice this (ProductId.mk productId) = None ->
      StaticPricingService.updatePrice this productId price = this)
  /\ (forall existingPrice,
         StaticPricingService.getPrice this (ProductId.mk productId)
         = Some existingPrice ->
         StaticPricingService.getPrice
           (StaticPricingService.updatePrice this productId price)
           (ProductId.mk productId)
         = Some (if validAmount price
                 then Money.mk price (Money.currency existingPrice)
                 else existingPrice))
  /\ StaticPricingService.getPrice
       (StaticPricingService.removePrice this productId)
       (ProductId.mk productId) = None
  /\ (forall other,
         ProductId.value other <> productId ->
         StaticPricingService.getPrice
           (StaticPricingService.removePrice this productId) other
         = StaticPricingService.getPrice this other).
Proof.
  assert (Hcreate : forall currency,
             Money.create price currency
             = if validAmount price then ok (Money.mk price currency)
               else Money.create price currency).
  { intros currency. unfold Money.create, validAmount.
    destruct (Number_isFinite price), (price <? 0)%float; reflexivity. }
  assert (Hinvalid : forall currency,
             validAmount price = false ->
             isFail (Money.create price currency) = true).
  { intros currency. unfold Money.create, validAmount.
    destruct (Number_isFinite price), (price <? 0)%float;
      cbn; congruence. }
  unfold StaticPricingService.getPrice. cbn [ProductId.value ProductId._value].
  split; [ | split; [ | split; [ | split; [ | split]]]].
  - intros currencyCode H. unfold StaticPricingService.addPrice.
    destruct (Currency.create currencyCode) as [currency | e];
      [ | reflexivity].
    destruct H as [H | H]; [discriminate | ].
    specialize (Hinvalid currency H).
    now destruct (Money.create price currency).
  - intros currencyCode currency Hc Hv.
    unfold StaticPricingService.addPrice. rewrite Hc, Hcreate, Hv.
    cbn [StaticPricingService.catalog]. split; [apply Map_get_set_same | ].
    intros other Hne. apply Map_get_set_other. congruence.
  - intros H. unfold StaticPricingService.updatePrice. now rewrite H.
  - intros existingPrice H. unfold StaticPricingService.updatePrice.
    rewrite H. destruct (validAmount price) eqn:Hv.
    + rewrite Hcreate. cbn [StaticPricingService.catalog].
      apply Map_get_set_same.
    + specialize (Hinvalid (Money.currency existingPrice) eq_refl).
      destruct (Money.create price (Money.currency existingPrice));
        [discriminate | exact H].
  - apply Map_get_delete_same.
  - intros other Hne. apply Map_get_delete_other. congruence.
Qed.

Lemma getPrices_fold (this : StaticPricingService.t)
      (productIds : list ProductId.t) (k : string) :
  forall result : Map Money.t,
    Map_get
      (fold_left
         (fun result productId =>
            match Map_get (StaticPricingService.catalog this)
                          (ProductId.value productId) with
            | Some price => Map_set result (ProductId.value productId) price
            | None => result
            end)
         productIds result) k
    = if existsb (fun productId => (ProductId.value productId =? k))
                 productIds
         && Map_has (StaticPricingService.catalog this) k
      then Map_get (StaticPricingService.catalog this) k
      else Map_get result k.
Proof.
  unfold Map_has.
  induction productIds as [|p productIds IH]; intros result;
    cbn [fold_left existsb]; [reflexivity | ].
  rewrite IH.
  destruct (existsb _ productIds) eqn:Erest.
  - rewrite orb_true_r. cbn [andb].
    destruct (Map_get (StaticPricingService.catalog this) k) eqn:Ek;
      [reflexivity | ].
    destruct (Map_get (StaticPricingService.catalog this) (ProductId.value p))
      as [money | ] eqn:Ep; [ | reflexivity].
    apply Map_get_set_other. intros Heq. rewrite Heq in Ep. congruence.
  - rewrite orb_false_r. cbn [andb].
    destruct (String.eqb_spec (ProductId.value p) k) as [<- | Hne];
      cbn [andb].
    + destruct (Map_get (StaticPricingService.catalog this)
                        (ProductId.value p)) as [money | ];
        [apply Map_get_set_same | reflexivity].
    + destruct (Map_get (StaticPricingService.catalog this)
                        (ProductId.value p)) as [money | ];
        [now apply Map_get_set_other | reflexivity].
Qed.

(** X15. [getPrices] returns, for each of the requested products the
    catalog knows, the price [getPrice] returns, and nothing for the
    others. *)
Theorem getPrices_agrees_with_getPrice
        (this : StaticPricingService.t) (productIds : list ProductId.t)
        (productId : ProductId.t) :
  Map_get (StaticPricingService.getPrices this productIds)
          (ProductId.value productId)
  = if existsb (fun requested => ProductId.equals requested productId)
               productIds
    then StaticPricingService.getPrice this productId
    else None.
Proof.
  unfold StaticPricingService.getPrices, StaticPricingService.getPrice.
  rewrite getPrices_fold. unfold ProductId.equals, Map_has.
  destruct (existsb _ productIds); cbn [andb]; [ | reflexivity].
  now destruct (Map_get (StaticPricingService.catalog this)
                        (ProductId.value productId)).
Qed.

(** ** The outbox writer *)

Lemma isProperTail_app (tail : string) :
  forall prefix s,
    prefix <> "" -> prefix ++ tail = s -> isProperTail tail s = true.
Proof.
  induction prefix as [|c prefix IH]; intros s Hne H; [now elim Hne | ].
  subst s. cbn [append isProperTail].
  destruct prefix as [|c' prefix]; cbn [append].
  - now rewrite String.eqb_refl.
  - apply orb_true_iff. right.
    apply IH; [discriminate | reflexivity].
Qed.

Lemma suffixes_not_nested :
  forallb (fun longer =>
             forallb (fun shorter => negb (isProperTail shorter longer))
                     OutboxEventBus.suffixes)
          OutboxEventBus.suffixes = true.
Proof. reflexivity. Qed.

Lemma extractAggregateType_cut (s : string) :
  exists cut,
    s = OutboxEventBus.extractAggregateType s ++ cut
    /\ (cut = "" \/ In cut OutboxEventBus.suffixes).
Proof.
  induction s as [|c rest IH]; cbn [OutboxEventBus.extractAggregateType].
  - exists "". auto.
  - destruct (includes OutboxEventBus.suffixes (String c rest)) eqn:E.
    + exists (String c rest). split; [reflexivity | right].
      now apply includes_In.
    + destruct IH as (cut & Hcut & Hin). exists cut. split; [ | exact Hin].
      cbn [append]. now rewrite <- Hcut.
Qed.

(** X16. [extractAggregateType] cuts one of the eight suffixes off the
    end of the class name, and leaves a name without such an ending as it
    is. For the events of an order this files only [OrderCreated] under the
    aggregate type Order. *)
Theorem extractAggregateType_strips_suffix :
  (forall prefix suffix,
      In suffix OutboxEventBus.suffixes ->
      OutboxEventBus.extractAggregateType (prefix ++ suffix) = prefix)
  /\ (forall s,
         exists cut,
           s = OutboxEventBus.extractAggregateType s ++ cut
           /\ (cut = "" \/ In cut OutboxEventBus.suffixes))
  /\ (forall event,
         OutboxEventBus.extractAggregateType (DomainEvent.className event)
         = match DomainEvent.fields event with
           | DomainEvent.OrderCreated _ => "Order"
           | DomainEvent.OrderItemAdded _ _ _ _ => "OrderItem"
           | DomainEvent.OrderItemQuantityIncreased _ _ _ _ =>
               "OrderItemQuantity"
           end).
Proof.
  split; [ | split; [exact extractAggregateType_cut | ]].
  - intros prefix suffix Hin.
    induction prefix as [|c prefix IH]; cbn [append].
    + assert (E : includes OutboxEventBus.suffixes suffix = true)
        by now apply includes_In.
      destruct suffix as [|c rest]; cbn [OutboxEventBus.extractAggregateType];
        [reflexivity | now rewrite E].
    + cbn [OutboxEventBus.extractAggregateType].
      destruct (includes OutboxEventBus.suffixes (String c (prefix ++ suffix)))
        eqn:E; [exfalso | now rewrite IH].
      apply includes_In in E.
      pose proof suffixes_not_nested as Hn. rewrite forallb_forall in Hn.
      specialize (Hn _ E). rewrite forallb_forall in Hn.
      specialize (Hn _ Hin). apply negb_true_iff in Hn.
      rewrite (isProperTail_app suffix (String c prefix)
                                (String c (prefix ++ suffix))) in Hn;
        [discriminate | discriminate | reflexivity].
  - intros event. unfold DomainEvent.className.
    destruct (DomainEvent.fields event); reflexivity.
Qed.

Lemma outbox_publishAll_append
      (stringify : DomainEvent.t -> string)
      (newId : OutboxDispatcher.Table -> string)
      (now : OutboxDispatcher.Table -> Date)
      (events : list DomainEvent.t) :
  forall outbox,
  exists rows,
    OutboxEventBus.publishAll stringify newId now outbox events
    = (outbox ++ rows)%list
    /\ List.map
         (fun row =>
            (OutboxDispatcher.aggregate_type row,
             OutboxDispatcher.aggregate_id row,
             OutboxDispatcher.event_type row,
             OutboxDispatcher.payload row,
             OutboxDispatcher.published_at row))
         rows
       = List.map
           (fun event =>
              (OutboxEventBus.extractAggregateType
                 (DomainEvent.className event),
               DomainEvent.aggregateId event,
               DomainEvent.className event,
               stringify event,
               @None Date))
           events.
Proof.
  unfold OutboxEventBus.publishAll.
  induction events as [|event events IH]; intros outbox; cbn [fold_left].
  - exists []. now rewrite app_nil_r.
  - set (row := {| OutboxDispatcher.id := newId outbox;
                   OutboxDispatcher.aggregate_type :=
                     OutboxEventBus.extractAggregateType
                       (DomainEvent.className event);
                   OutboxDispatcher.aggregate_id :=
                     DomainEvent.aggregateId event;
                   OutboxDispatcher.event_type := DomainEvent.className event;
                   OutboxDispatcher.payload := stringify event;
                   OutboxDispatcher.created_at := now outbox;
                   OutboxDispatcher.published_at := None |}).
    change (OutboxEventBus.publish stringify newId now outbox event)
      with (outbox ++ [row])%list.
    destruct (IH (outbox ++ [row])%list) as (rows & Hrows & Hmap).
    exists (row :: rows). split.
    + rewrite Hrows, <- app_assoc. reflexivity.
    + cbn [List.map]. now rewrite Hmap.
Qed.

(** X17. The outbox writer appends one row per event, in the order of the
    events and after the rows there were, each not yet published, with the
    class name as event type; for the events of an order the aggregate id
    of the row is the event-type string, which is not the id of the order
    unless that id is itself one of the type strings. *)
Theorem outbox_rows_of_order_events
        (stringify : DomainEvent.t -> string)
        (newId : OutboxDispatcher.Table -> string)
        (now : OutboxDispatcher.Table -> Date)
        (outbox : OutboxDispatcher.Table) (this : Order.t) :
  built this ->
  exists rows,
    OutboxEventBus.publishAll stringify newId now outbox
                              (Order._domainEvents this)
    = (outbox ++ rows)%list
    /\ List.map OutboxDispatcher.event_type rows
       = List.map DomainEvent.className (Order._domainEvents this)
    /\ List.map OutboxDispatcher.aggregate_id rows
       = List.map DomainEvent.aggregateId (Order._domainEvents this)
    /\ Forall (fun row => unpublished row = true) rows
    /\ Forall (fun row => In (OutboxDispatcher.aggregate_id row) eventTypes)
              rows
    /\ (~ In (OrderId.value (Order.id this)) eventTypes ->
        Forall (fun row =>
                  OutboxDispatcher.aggregate_id row
                  <> OrderId.value (Order.id this)) rows).
Proof.
  intros Hbuilt.
  destruct (outbox_publishAll_append stringify newId now
              (Order._domainEvents this) outbox) as (rows & Hrows & Hmap).
  exists rows. split; [exact Hrows | ].
  pose proof (built_events_typed _ Hbuilt) as Htyped.
  clear Hrows Hbuilt. revert rows Hmap.
  induction Htyped as [|event events He Hevents IH]; intros rows Hmap.
  - destruct rows; [ | discriminate].
    split; [reflexivity | ]. split; [reflexivity | ].
    split; [constructor | ]. split; [constructor | ].
    intros _. constructor.
  - destruct rows as [|row rows]; [discriminate | ].
    cbn [List.map] in Hmap. injection Hmap as Htype Hid Hetype _ Hpub Hmap.
    destruct (IH rows Hmap) as (H1 & H2 & H3 & H4 & H5).
    cbn [List.map]. rewrite H1, H2, Hid, Hetype.
    split; [reflexivity | ]. split; [reflexivity | ].
    split; [constructor; [unfold unpublished; now rewrite Hpub | exact H3] | ].
    split; [constructor; [now rewrite Hid | exact H4] | ].
    intros Hnot. constructor; [ | now apply H5].
    rewrite Hid. intros Heq. apply Hnot. now rewrite <- Heq.
Qed.

Lemma outbox_rows_witness :
  exists rows,
    OutboxEventBus.publishAll (fun _ => "{}") (fun _ => "id")
                              (fun _ => Sample.now) []
                              (Order._domainEvents Sample.oneLine)
    = ([] ++ rows)%list
    /\ List.map OutboxDispatcher.event_type rows
       = List.map DomainEvent.className (Order._domainEvents Sample.oneLine)
    /\ List.map OutboxDispatcher.aggregate_id rows
       = List.map DomainEvent.aggregateId (Order._domainEvents Sample.oneLine)
    /\ Forall (fun row => unpublished row = true) rows
    /\ Forall (fun row => In (OutboxDispatcher.aggregate_id row) eventTypes)
              rows
    /\ (~ In (OrderId.value (Order.id Sample.oneLine)) eventTypes ->
        Forall (fun row =>
                  OutboxDispatcher.aggregate_id row
                  <> OrderId.value (Order.id Sample.oneLine)) rows).
Proof.
  apply (outbox_rows_of_order_events (fun _ => "{}") (fun _ => "id")
                                     (fun _ => Sample.now) [] Sample.oneLine).
  eapply built_addItem;
    [exact (built_create Sample.now Sample.random None)
    | apply surjective_pairing].
Defined.

(** ** What the use cases return *)

Section CreateOrderResults.
Import CreateOrderUseCase.
Context {World : Type}.
Variable orderRepository : OrderRepository World.
Variable eventBus : EventBus World.
Variable logger : Logger World.

Lemma persistAndPublish_result (now : Date) (random : number)
      (id : OrderId.t) (w : World) :
  match fst (persistAndPublish orderRepository eventBus logger now random
                               id w) with
  | ok order =>
      Order._domainEvents order = [] /\ Order.items order = []
      /\ Order.id order = id
      /\ exists w', fst (save orderRepository
                              (Order.create now random (Some id)) w')
                    = Fulfilled tt
  | fail (AppError.InfraError message cause) =>
      cause <> None
      /\ message = "Error al persistir el pedido en el repositorio"
  | fail _ => False
  end.
Proof.
  unfold persistAndPublish.
  destruct (save orderRepository _ _) as [[[] | thrown] w1] eqn:E.
  - cbn [Order.pullDomainEvents].
    destruct (publishAll eventBus _ _) as [[[] | thrown] w2]; cbn [fst];
      repeat split; eexists; now rewrite E.
  - cbn [fst AppError.infraError]. split; [discriminate | reflexivity].
Qed.

(** X18. Whatever the repository, the bus and the logger do,
    [CreateOrderUseCase.execute] returns an order without lines and without
    pending events, under the given id trimmed or under a generated one; or
    a validation error on [orderId]; or a conflict with the reason
    duplicate_order_id, quoting the id as it was given; or an
    infrastructure error that carries its cause. It never returns a
    not-found error, and a failure of the bus is not a failure of the use
    case. *)
Theorem CreateOrder_execute_results
        (now : Date) (random : number) (dto : CreateOrderDTO) (w : World) :
  match fst (execute orderRepository eventBus logger now random dto w) with
  | ok order =>
      Order._domainEvents order = [] /\ Order.items order = []
      /\ match truthy (orderId dto) with
         | Some given => OrderId.create given = ok (Order.id order)
         | None => Order.id order = OrderId.generate now random
         end
      /\ exists w', fst (save orderRepository
                              (Order.create now random (Some (Order.id order)))
                              w')
                    = Fulfilled tt
  | fail (AppError.ValidationError message field) =>
      field = Some "orderId"
      /\ exists given,
          truthy (orderId dto) = Some given
          /\ OrderId.create given = fail message
  | fail (AppError.ConflictError message reason) =>
      reason = "duplicate_order_id"
      /\ exists given,
          truthy (orderId dto) = Some given
          /\ message = "Ya existe un pedido con ID " ++ given
  | fail (AppError.InfraError message cause) =>
      cause <> None
      /\ (message = "Error al verificar la existencia del pedido"
          \/ message = "Error al persistir el pedido en el repositorio")
  | fail (AppError.NotFoundError _ _ _) => False
  end.
Proof.
  unfold execute.
  destruct (truthy (orderId dto)) as [given | ].
  - destruct (OrderId.create given) as [id | message] eqn:Eid.
    + destruct (exists_ orderRepository id _) as [[[] | ] w1].
      * cbn [fst AppError.conflictError]. split; [reflexivity | ].
        now exists given.
      * pose proof (persistAndPublish_result now random id w1) as H.
        destruct (fst (persistAndPublish _ _ _ _ _ _ _)) as [order | []];
          try contradiction.
        -- destruct H as (H1 & H2 & -> & H4). auto.
        -- destruct H as [H1 H2]. auto.
      * cbn [fst AppError.infraError]. split; [discriminate | now left].
    + cbn [fst]. split; [reflexivity | ]. now exists given.
  - match goal with
    | |- context [persistAndPublish _ _ _ _ _ ?id ?w1] =>
        pose proof (persistAndPublish_result now random id w1) as H
    end.
    destruct (fst (persistAndPublish _ _ _ _ _ _ _)) as [order | []];
      try contradiction.
    + destruct H as (H1 & H2 & H3 & H4). rewrite H3. auto.
    + destruct H as [H1 H2]. auto.
Qed.

(** X19. With a repository that saves and does not have the id yet, the
    use case succeeds for every id that is absent or not blank, whatever
    the event bus answers. *)
Theorem CreateOrder_succeeds_when_saved
        (now : Date) (random : number) (dto : CreateOrderDTO) (w : World) :
  (forall order w', fst (save orderRepository order w') = Fulfilled tt) ->
  (forall id w', fst (exists_ orderRepository id w') = Fulfilled false) ->
  (forall given, orderId dto = Some given -> given = "" \/ trim given <> "") ->
  isOk (fst (execute orderRepository eventBus logger now random dto w)) = true.
Proof.
  intros Hsave Hexists Hgiven.
  assert (Hp : forall id w1,
             isOk (fst (persistAndPublish orderRepository eventBus logger
                                          now random id w1)) = true).
  { intros id w1. unfold persistAndPublish.
    pose proof (Hsave (Order.create now random (Some id))
                      (log logger debug "Order aggregate created" w1)) as Hs.
    destruct (save orderRepository _ _) as [[[] | thrown] w2];
      [ | discriminate Hs].
    cbn [Order.pullDomainEvents].
    now destruct (publishAll eventBus _ _) as [[[] | ] w3]. }
  unfold execute.
  destruct (orderId dto) as [given | ] eqn:Edto; cbn [truthy]; [ | apply Hp].
  unfold String_falsy.
  destruct (String.eqb_spec given "") as [-> | Hne]; [apply Hp | ].
  destruct (Hgiven given eq_refl) as [-> | Htrim]; [now elim Hne | ].
  unfold OrderId.create, String_falsy.
  destruct (String.eqb_spec given ""); [contradiction | ]. cbn [orb].
  destruct (String.length (trim given) =? 0)%nat eqn:El.
  - apply length_zero_empty in El. contradiction.
  - match goal with
    | |- context [exists_ orderRepository ?id ?w1] =>
        pose proof (Hexists id w1) as He;
          destruct (exists_ orderRepository id w1) as [[[] | ] w2]
    end; try discriminate He.
    apply Hp.
Qed.
End CreateOrderResults.

Lemma CreateOrder_succeeds_witness :
  isOk (fst (CreateOrderUseCase.execute
               Sample2.emptyRepository Sample2.failingBus
               Sample2.silentLogger Sample.now Sample.random
               {| CreateOrderUseCase.orderId := Some " ORD-7 " |} tt)) = true.
Proof.
  apply (CreateOrder_succeeds_when_saved
           Sample2.emptyRepository Sample2.failingBus Sample2.silentLogger).
  - reflexivity.
  - reflexivity.
  - intros given H. injection H as <-. right. discriminate.
Defined.

Section AddItemResults.
Import AddItemToOrderUseCase.
Context {World : Type}.
Variable orderRepository : OrderRepository World.
Variable pricingService : PricingService World.
Variable eventBus : EventBus World.
Variable logger : Logger World.

(** X20. [AddItemToOrderUseCase.execute] checks the order id, then the
    product id, then the quantity: the first of them that is not valid
    decides the field of the validation error, whatever the others are and
    whatever the ports would answer. *)
Theorem AddItem_first_invalid_field
        (now : Date) (dto : AddItemToOrderDTO) (w : World) :
  (forall message,
      OrderId.create (orderId dto) = fail message ->
      fst (execute orderRepository pricingService eventBus logger now dto w)
      = fail (AppError.ValidationError message (Some "orderId")))
  /\ (forall message,
         isOk (OrderId.create (orderId dto)) = true ->
         ProductId.create (productId dto) = fail message ->
         fst (execute orderRepository pricingService eventBus logger now dto w)
         = fail (AppError.ValidationError message (Some "productId")))
  /\ (forall message,
         isOk (OrderId.create (orderId dto)) = true ->
         isOk (ProductId.create (productId dto)) = true ->
         Quantity.create (quantity dto) = fail message ->
         fst (execute orderRepository pricingService eventBus logger now dto w)
         = fail (AppError.ValidationError message (Some "quantity"))).
Proof.
  unfold execute. split; [ | split].
  - intros message ->. reflexivity.
  - intros message Hid ->.
    destruct (OrderId.create (orderId dto)); [reflexivity | discriminate].
  - intros message Hid Hp ->.
    destruct (OrderId.create (orderId dto)); [ | discriminate].
    destruct (ProductId.create (productId dto)); [reflexivity | discriminate].
Qed.

Lemma addAndPersist_result (now : Date) (order : Order.t) (p : ProductId.t)
      (q : Quantity.t) (price : Money.t) (w : World) :
  match fst (addAndPersist orderRepository eventBus logger now order p q
                           price w) with
  | ok order' =>
      Order._domainEvents order' = []
      /\ Order.hasProduct order' p = true
      /\ Order.id order' = Order.id order
      /\ exists changed,
          Order.addItem now order p q price = (ok tt, changed)
          /\ order' = snd (Order.pullDomainEvents changed)
  | fail (AppError.ValidationError message field) =>
      field = None
      /\ Order.addItem now order p q price = (fail message, order)
  | fail (AppError.InfraError message cause) =>
      cause <> None
      /\ message = "Error al persistir los cambios del pedido"
  | fail _ => False
  end.
Proof.
  unfold addAndPersist.
  destruct (Order.addItem now order p q price) as [[[] | error] changed]
    eqn:E.
  - destruct (addItem_ok_items _ _ _ _ _ _ E) as (Hid & _ & Hitems & _).
    destruct (save orderRepository _ _) as [[[] | thrown] w1].
    + cbn [Order.pullDomainEvents].
      assert (Hres : Order._domainEvents
                       (Order.mk (Order._id changed) (Order._items changed)
                                 [] (Order._createdAt changed)) = []
                     /\ Order.hasProduct
                          (Order.mk (Order._id changed) (Order._items changed)
                                    [] (Order._createdAt changed)) p = true
                     /\ Order.id
                          (Order.mk (Order._id changed) (Order._items changed)
                                    [] (Order._createdAt changed))
                        = Order.id order
                     /\ exists changed0,
                         (ok tt, changed) = (@ok unit string tt, changed0)
                         /\ Order.mk (Order._id changed) (Order._items changed)
                                     [] (Order._createdAt changed)
                            = snd (Order.pullDomainEvents changed0)).
      { split; [reflexivity | ]. split.
        - unfold Order.hasProduct, Map_has. cbn [Order._items].
          now rewrite Hitems, Map_get_set_same.
        - split; [exact Hid | ]. exists changed. split; reflexivity. }
      now destruct (publishAll eventBus _ _) as [[[] | ] w2].
    + cbn [fst AppError.infraError]. split; [discriminate | reflexivity].
  - cbn [fst AppError.validationError]. split; [reflexivity | ].
    destruct (addItem_inv _ _ _ _ _ _ _ E)
      as [(_ & -> & _) | [(f & _ & -> & _) | (Hr & _)]];
      try discriminate Hr; reflexivity.
Qed.

(** X21. Whatever the ports do, [AddItemToOrderUseCase.execute] returns
    the order with the product among its lines and no pending events; or a
    validation error, without a field when it is the order that refuses the
    item; or a not-found error that names the order or the product by the
    id as it was given; or an infrastructure error that carries its cause.
    It never returns a conflict. *)
Theorem AddItem_execute_results
        (now : Date) (dto : AddItemToOrderDTO) (w : World) :
  match fst (execute orderRepository pricingService eventBus logger now
                     dto w) with
  | ok order =>
      Order._domainEvents order = []
      /\ exists p, ProductId.create (productId dto) = ok p
                   /\ Order.hasProduct order p = true
  | fail (AppError.ValidationError message field) =>
      (field = Some "orderId"
       /\ OrderId.create (orderId dto) = fail message)
      \/ (field = Some "productId"
          /\ ProductId.create (productId dto) = fail message)
      \/ (field = Some "quantity"
          /\ Quantity.create (quantity dto) = fail message)
      \/ (field = None
          /\ exists order p q price,
              ProductId.create (productId dto) = ok p
              /\ Quantity.create (quantity dto) = ok q
              /\ Order.addItem now order p q price = (fail message, order))
  | fail (AppError.NotFoundError message resource id) =>
      (resource = "Order" /\ id = orderId dto
       /\ message = "Order with id " ++ orderId dto ++ " not found")
      \/ (resource = "Product" /\ id = productId dto
          /\ message = "No se encontró el precio para el producto "
                       ++ productId dto)
  | fail (AppError.InfraError message cause) =>
      cause <> None
      /\ In message
            ["Error al recuperar el pedido del repositorio";
             "Error al obtener el precio del producto";
             "Error al persistir los cambios del pedido"]
  | fail (AppError.ConflictError _ _) => False
  end.
Proof.
  unfold execute.
  destruct (OrderId.create (orderId dto)) as [id | e1] eqn:E1;
    [ | cbn [fst AppError.validationError]; auto].
  destruct (ProductId.create (productId dto)) as [p | e2] eqn:E2;
    [ | cbn [fst AppError.validationError]; auto].
  destruct (Quantity.create (quantity dto)) as [q | e3] eqn:E3;
    [ | cbn [fst AppError.validationError]; auto 6].
  destruct (findById orderRepository id _) as [[[order | ] | thrown] w1].
  - destruct (getPrice pricingService p _) as [[[price | ] | thrown] w2].
    + match goal with
      | |- context [addAndPersist _ _ _ _ _ _ _ _ ?w3] =>
          pose proof (addAndPersist_result now order p q price w3) as H
      end.
      destruct (fst (addAndPersist _ _ _ _ _ _ _ _ _)) as [order' | []];
        try contradiction.
      * split; [exact (proj1 H) | ]. exists p. split; [reflexivity | ].
        exact (proj1 (proj2 H)).
      * destruct H as [-> H]. right. right. right.
        split; [reflexivity | ]. now exists order, p, q, price.
      * destruct H as [H ->]. split; [exact H | ]. cbn. auto.
    + cbn [fst notFoundError]. right. auto.
    + cbn [fst AppError.infraError]. split; [discriminate | ]. cbn. auto.
  - cbn [fst notFoundError]. left. auto.
  - cbn [fst AppError.infraError]. split; [discriminate | ]. cbn. auto.
Qed.
(** X22. When the repository finds the order and saves, and the pricing
    service has a price for the product, [AddItemToOrderUseCase.execute]
    returns the order as [Order.addItem] left it, with its events drained,
    whatever the event bus answers; and when the order refuses the item the
    refusal comes back as a validation error without a field. *)
Theorem AddItem_succeeds_when_saved
        (now : Date) (dto : AddItemToOrderDTO) (w : World)
        (id : OrderId.t) (p : ProductId.t) (q : Quantity.t)
        (order : Order.t) (price : Money.t) :
  OrderId.create (orderId dto) = ok id ->
  ProductId.create (productId dto) = ok p ->
  Quantity.create (quantity dto) = ok q ->
  (forall w', fst (findById orderRepository id w') = Fulfilled (Some order)) ->
  (forall w', fst (getPrice pricingService p w') = Fulfilled (Some price)) ->
  (forall saved w', fst (save orderRepository saved w') = Fulfilled tt) ->
  fst (execute orderRepository pricingService eventBus logger now dto w)
  = match Order.addItem now order p q price with
    | (ok _, changed) => ok (snd (Order.pullDomainEvents changed))
    | (fail message, _) => fail (AppError.ValidationError message None)
    end.
Proof.
  intros Eid Ep Eq Hfind Hprice Hsave.
  unfold execute. rewrite Eid, Ep, Eq.
  match goal with
  | |- context [findById orderRepository id ?w1] =>
      pose proof (Hfind w1) as Hf;
        destruct (findById orderRepository id w1) as [found w2]
  end.
  cbn [fst] in Hf. subst found.
  match goal with
  | |- context [getPrice pricingService p ?w1] =>
      pose proof (Hprice w1) as Hp;
        destruct (getPrice pricingService p w1) as [priced w3]
  end.
  cbn [fst] in Hp. subst priced.
  unfold addAndPersist.
  destruct (Order.addItem now order p q price) as [[[] | message] changed];
    [ | reflexivity].
  match goal with
  | |- context [save orderRepository changed ?w1] =>
      pose proof (Hsave changed w1) as Hs;
        destruct (save orderRepository changed w1) as [saved w4]
  end.
  cbn [fst] in Hs. subst saved.
  cbn [Order.pullDomainEvents snd].
  now destruct (publishAll eventBus _ _) as [[[] | ] w5].
Qed.
End AddItemResults.


(** The laptop is added to the one order of the repository although the
    event bus is down. *)
Lemma AddItem_succeeds_witness :
  isOk (fst (AddItemToOrderUseCase.execute
               Sample2.oneOrderRepository Sample2.staticPricing
               Sample2.failingBus2 Sample2.silentLogger2 Sample.now
               {| AddItemToOrderUseCase.orderId := "ORD-1";
                  AddItemToOrderUseCase.productId := "LAPTOP-001";
                  AddItemToOrderUseCase.quantity := 2%float |} tt)) = true.
Proof.
  rewrite (AddItem_succeeds_when_saved
             Sample2.oneOrderRepository Sample2.staticPricing
             Sample2.failingBus2 Sample2.silentLogger2 Sample.now _ tt
             (OrderId.mk "ORD-1") (ProductId.mk "LAPTOP-001")
             (Quantity.mk 2%float) Sample.oneLine
             (Money.mk 1299.99%float (Currency.mk "USD"))).
  - reflexivity.
  - reflexivity.
  - reflexivity.
  - reflexivity.
  - reflexivity.
  - reflexivity.
  - reflexivity.
Defined.

(* ------------------------------------------------------------------ *)
(** ** The batches of the outbox dispatcher *)

Section OutboxBatchesFacts.
Import OutboxDispatcher OutboxBatches.

Lemma Permutation_filter {A : Type} (f : A -> bool) (l l' : list A) :
  Permutation l l' -> Permutation (List.filter f l) (List.filter f l').
Proof.
  induction 1 as [ | x l l' _ IH | x y l | l l' l'' _ IH1 _ IH2]; cbn [List.filter].
  - constructor.
  - destruct (f x); [now constructor | assumption].
  - destruct (f x), (f y); try apply Permutation_refl. apply perm_swap.
  - now transitivity (List.filter f l').
Qed.

Lemma StronglySorted_app {A : Type} (R : A -> A -> Prop) (l l' : list A) :
  StronglySorted R l -> StronglySorted R l' ->
  (forall a b, In a l -> In b l' -> R a b) ->
  StronglySorted R (l ++ l').
Proof.
  induction 1 as [ | a l Hl IH Ha]; intros Hl' Hcross; [assumption | ].
  cbn [app]. constructor.
  - apply IH; [assumption | ]. intros x y Hx Hy. apply Hcross;
      [now right | assumption].
  - apply Forall_app. split; [assumption | ].
    apply Forall_forall. intros y Hy. apply Hcross; [now left | assumption].
Qed.

Lemma StronglySorted_firstn {A : Type} (R : A -> A -> Prop) (n : nat)
      (l : list A) :
  StronglySorted R l -> StronglySorted R (firstn n l).
Proof.
  intros H. revert n.
  induction H as [ | a l Hl IH Ha]; intros [ | n]; cbn [firstn];
    try constructor.
  - apply IH.
  - apply Forall_forall. intros x Hx.
    apply (proj1 (Forall_forall _ _) Ha x).
    rewrite <- (firstn_skipn n l). apply in_or_app. now left.
Qed.

Lemma StronglySorted_split {A : Type} (R : A -> A -> Prop) (l l' : list A) :
  StronglySorted R (l ++ l') ->
  forall a b, In a l -> In b l' -> R a b.
Proof.
  induction l as [ | x l IH]; cbn [app]; intros H a b Ha Hb; [contradiction | ].
  apply StronglySorted_inv in H. destruct H as [Hs Hx].
  destruct Ha as [<- | Ha].
  - apply (proj1 (Forall_forall _ _) Hx). apply in_or_app. now right.
  - now apply IH.
Qed.

Lemma Forall2_compose {A : Type} (R Q T : A -> A -> Prop) (l1 l2 l3 : list A) :
  (forall a b c, R a b -> Q b c -> T a c) ->
  Forall2 R l1 l2 -> Forall2 Q l2 l3 -> Forall2 T l1 l3.
Proof.
  intros HT H. revert l3.
  induction H as [ | a b l1 l2 Hab _ IH]; intros l3 H3; inversion H3; subst;
    constructor; eauto.
Qed.

Lemma insert_by_created_at_perm (row : OutboxRow) (sorted : list OutboxRow) :
  Permutation (row :: sorted) (insert_by_created_at row sorted).
Proof.
  induction sorted as [ | first rest IH]; cbn [insert_by_created_at].
  - apply Permutation_refl.
  - destruct (created_at row <=? created_at first)%Z.
    + apply Permutation_refl.
    + transitivity (first :: row :: rest); [apply perm_swap | ].
      now constructor.
Qed.

Lemma order_by_created_at_perm (rows : list OutboxRow) :
  Permutation rows (order_by_created_at rows).
Proof.
  induction rows as [ | row rows IH]; [constructor | ].
  cbn [order_by_created_at fold_right].
  transitivity (row :: order_by_created_at rows);
    [now constructor | apply insert_by_created_at_perm].
Qed.

Lemma insert_by_created_at_sorted (row : OutboxRow)
      (sorted : list OutboxRow) :
  StronglySorted older sorted ->
  StronglySorted older (insert_by_created_at row sorted).
Proof.
  induction 1 as [ | first rest Hrest IH Hfirst]; cbn [insert_by_created_at].
  - repeat constructor.
  - destruct (Z.leb_spec (created_at row) (created_at first)) as [Hle | Hgt].
    + constructor; [now constructor | ].
      constructor; [assumption | ].
      apply Forall_forall. intros x Hx.
      pose proof (proj1 (Forall_forall _ _) Hfirst x Hx). cbn beta in *. lia.
    + constructor; [assumption | ].
      apply Forall_forall. intros x Hx.
      apply (Permutation_in _ (Permutation_sym
                                 (insert_by_created_at_perm row rest))) in Hx.
      destruct Hx as [<- | Hx]; [lia | ].
      exact (proj1 (Forall_forall _ _) Hfirst x Hx).
Qed.

Lemma order_by_created_at_sorted (rows : list OutboxRow) :
  StronglySorted older (order_by_created_at rows).
Proof.
  induction rows as [ | row rows IH]; [constructor | ].
  cbn [order_by_created_at fold_right]. now apply insert_by_created_at_sorted.
Qed.

Lemma NoDup_map_filter {A B : Type} (f : A -> B) (p : A -> bool)
      (l : list A) :
  NoDup (List.map f l) -> NoDup (List.map f (List.filter p l)).
Proof.
  induction l as [ | a l IH]; cbn [List.map List.filter]; intros H;
    [constructor | ].
  apply NoDup_cons_iff in H. destruct H as [Ha Hl].
  destruct (p a); cbn [List.map]; [ | now apply IH].
  constructor; [ | now apply IH].
  intros Hin. apply Ha. apply in_map_iff in Hin.
  destruct Hin as (x & Hx & Hin). apply filter_In in Hin.
  apply in_map_iff. exists x. tauto.
Qed.

Lemma NoDup_map_unique {A B : Type} (f : A -> B) (l : list A) (a b : A) :
  NoDup (List.map f l) -> In a l -> In b l -> f a = f b -> a = b.
Proof.
  induction l as [ | x l IH]; cbn [List.map]; intros H Ha Hb E;
    [contradiction | ].
  apply NoDup_cons_iff in H. destruct H as [Hx Hl].
  destruct Ha as [-> | Ha], Hb as [-> | Hb]; auto.
  - elim Hx. rewrite E. now apply in_map.
  - elim Hx. rewrite <- E. now apply in_map.
Qed.

Lemma NoDup_app_disjoint {A : Type} (l l' : list A) (a : A) :
  NoDup (l ++ l') -> In a l -> ~ In a l'.
Proof.
  induction l as [ | x l IH]; cbn [app]; intros H Ha; [contradiction | ].
  apply NoDup_cons_iff in H. destruct H as [Hx Hl].
  destruct Ha as [-> | Ha]; [ | now apply IH].
  intros Hin. apply Hx. apply in_or_app. now right.
Qed.

Lemma fold_publishEvent (events published : list OutboxRow) :
  fold_left (fun log event => publishEvent event log) events published
  = (published ++ events)%list.
Proof.
  revert published.
  induction events as [ | event events IH]; intros published;
    cbn [fold_left]; [now rewrite app_nil_r | ].
  rewrite IH. unfold publishEvent. now rewrite <- app_assoc.
Qed.

Lemma update_published_ids (at_ : Date) (eventIds : list string)
      (outbox : Table) :
  List.map id (update_published at_ eventIds outbox) = List.map id outbox.
Proof.
  unfold update_published. rewrite map_map. apply map_ext.
  intros row. now destruct (includes eventIds (id row)).
Qed.

Lemma update_published_pending (at_ : Date) (eventIds : list string)
      (outbox : Table) :
  List.filter isPending (update_published at_ eventIds outbox)
  = List.filter (fun row => negb (includes eventIds (id row)))
                (List.filter isPending outbox).
Proof.
  unfold update_published.
  induction outbox as [ | row outbox IH]; [reflexivity | ].
  cbn [List.map List.filter].
  destruct (includes eventIds (id row)) eqn:E.
  - cbn [isPending with_published_at published_at].
    destruct (isPending row); cbn [List.filter]; [rewrite E | ]; exact IH.
  - destruct (isPending row); cbn [List.filter]; [rewrite E | ];
      cbn [negb]; now rewrite IH.
Qed.

Lemma filter_none {A : Type} (f : A -> bool) (l : list A) :
  (forall a, In a l -> f a = false) -> List.filter f l = [].
Proof.
  induction l as [ | a l IH]; intros H; [reflexivity | ].
  cbn [List.filter]. rewrite (H a (or_introl eq_refl)).
  apply IH. intros x Hx. apply H. now right.
Qed.

Lemma filter_all {A : Type} (f : A -> bool) (l : list A) :
  (forall a, In a l -> f a = true) -> List.filter f l = l.
Proof.
  induction l as [ | a l IH]; intros H; [reflexivity | ].
  cbn [List.filter]. rewrite (H a (or_introl eq_refl)).
  f_equal. apply IH. intros x Hx. apply H. now right.
Qed.

(** What one batch does, for a table whose ids are all different. *)
Lemma processNextBatch_facts (batchSize : nat) (now : Date) (s : State) :
  NoDup (List.map id (outbox s)) ->
  exists batch,
    fst (processNextBatch batchSize now s) = List.length batch
    /\ List.length batch
       = Nat.min batchSize (List.length (List.filter isPending (outbox s)))
    /\ published (snd (processNextBatch batchSize now s))
       = (published s ++ batch)%list
    /\ StronglySorted older batch
    /\ Permutation
         (List.filter isPending (outbox s))
         (batch ++ List.filter isPending
                               (outbox (snd (processNextBatch batchSize now s))))%list
    /\ (forall b r,
           In b batch ->
           In r (List.filter isPending
                             (outbox (snd (processNextBatch batchSize now s)))) ->
           older b r)
    /\ List.map id (outbox (snd (processNextBatch batchSize now s)))
       = List.map id (outbox s)
    /\ Forall2 (fun old new =>
                  (In old batch /\ new = with_published_at now old)
                  \/ (~ In old batch /\ new = old))
               (outbox s) (outbox (snd (processNextBatch batchSize now s))).
Proof.
  intros Hids.
  set (pending := List.filter isPending (outbox s)).
  set (sorted := order_by_created_at pending).
  set (batch := firstn batchSize sorted).
  set (rest := skipn batchSize sorted).
  assert (Hsplit : sorted = (batch ++ rest)%list)
    by (symmetry; apply firstn_skipn).
  assert (Hperm : Permutation pending sorted)
    by apply order_by_created_at_perm.
  assert (Hsorted : StronglySorted older sorted)
    by apply order_by_created_at_sorted.
  assert (Hsids : NoDup (List.map id sorted)).
  { apply (Permutation_NoDup (Permutation_map id Hperm)).
    now apply NoDup_map_filter. }
  assert (Hin : forall row, In row sorted ->
                            In row (outbox s) /\ isPending row = true).
  { intros row Hrow.
    apply (Permutation_in _ (Permutation_sym Hperm)) in Hrow.
    now apply filter_In in Hrow. }
  assert (Hbatch_in : forall row, In row batch -> In row sorted)
    by (intros row Hrow; rewrite Hsplit; apply in_or_app; now left).
  assert (Hrest_in : forall row, In row rest -> In row sorted)
    by (intros row Hrow; rewrite Hsplit; apply in_or_app; now right).
  (* the rows whose id is in the batch are the rows of the batch *)
  assert (Hmark : forall row, In row (outbox s) ->
                              includes (List.map id batch) (id row) = true
                              <-> In row batch).
  { intros row Hrow. rewrite includes_In, in_map_iff. split.
    - intros (b & Hb & Hbin).
      destruct (Hin b (Hbatch_in b Hbin)) as [Hbo _].
      now rewrite <- (NoDup_map_unique id (outbox s) b row Hids Hbo Hrow Hb).
    - intros H. now exists row. }
  assert (Hleft : List.filter
                    (fun row => negb (includes (List.map id batch) (id row)))
                    sorted = rest).
  { rewrite Hsplit at 1. rewrite filter_app.
    rewrite (filter_none _ batch), (filter_all _ rest); [reflexivity | | ].
    - intros row Hrow. apply negb_true_iff.
      destruct (includes (List.map id batch) (id row)) eqn:E; [ | reflexivity].
      apply includes_In in E.
      rewrite Hsplit, map_app in Hsids.
      elim (NoDup_app_disjoint _ _ _ Hsids E). now apply in_map.
    - intros row Hrow. apply negb_false_iff, includes_In. now apply in_map. }
  assert (Hafter : Permutation
                     (List.filter isPending
                        (update_published now (List.map id batch) (outbox s)))
                     rest).
  { rewrite update_published_pending, <- Hleft.
    now apply Permutation_filter. }
  assert (Hupdate : Forall2
                      (fun old new =>
                         (In old batch /\ new = with_published_at now old)
                         \/ (~ In old batch /\ new = old))
                      (outbox s)
                      (update_published now (List.map id batch) (outbox s))).
  { unfold update_published.
    assert (Hall : forall row, In row (outbox s) -> In row (outbox s))
      by auto.
    revert Hall. generalize (outbox s) at 1 3 4 as table.
    induction table as [ | row table IH]; intros Hall; cbn [List.map];
      constructor.
    - pose proof (Hmark row (Hall row (or_introl eq_refl))) as Hrow.
      destruct (includes (List.map id batch) (id row)).
      + left. split; [now apply Hrow | reflexivity].
      + right. split; [ | reflexivity]. intros H. apply Hrow in H.
        discriminate.
    - apply IH. intros x Hx. apply Hall. now right. }
  exists batch.
  unfold processNextBatch. fold pending sorted.
  unfold select_pending. fold pending sorted batch.
  assert (Hlen : List.length batch
                 = Nat.min batchSize (List.length pending)).
  { unfold batch. rewrite length_firstn. f_equal.
    symmetry. now apply Permutation_length. }
  destruct (Nat.eqb_spec (List.length batch) 0) as [Hzero | Hsome].
  - apply length_zero_iff_nil in Hzero.
    assert (Hnone : update_published now (List.map id batch) (outbox s)
                    = outbox s).
    { rewrite Hzero. unfold update_published. cbn [List.map includes existsb].
      apply map_id. }
    rewrite Hnone in Hafter, Hupdate. cbn [fst snd].
    split; [now rewrite Hzero | ].
    split; [exact Hlen | ].
    split; [rewrite Hzero; symmetry; apply app_nil_r | ].
    split; [rewrite Hzero; constructor | ].
    split; [rewrite Hzero; apply Permutation_refl | ].
    split; [rewrite Hzero; intros b r [] | ].
    split; [reflexivity | exact Hupdate].
  - cbn [fst snd outbox published].
    split; [reflexivity | ]. split; [exact Hlen | ].
    split; [apply fold_publishEvent | ].
    split; [now apply StronglySorted_firstn | ].
    split.
    { transitivity sorted; [exact Hperm | ]. rewrite Hsplit.
      apply Permutation_app_head. now apply Permutation_sym. }
    split.
    { intros b r Hb Hr. apply (Permutation_in _ Hafter) in Hr.
      rewrite Hsplit in Hsorted.
      exact (StronglySorted_split _ _ _ Hsorted b r Hb Hr). }
    split; [apply update_published_ids | exact Hupdate].
Qed.

(** X23. One batch of the dispatcher, on a table whose ids are all
    different: it handles as many events as the batch size allows and there
    are pending, hands them to [publishEvent] oldest first, none of the
    events left pending is older than one it handled, and it stamps exactly
    the rows it handled, leaving every other row as it was. *)
Theorem processNextBatch_takes_oldest
        (batchSize : nat) (now : Date) (s : State) :
  NoDup (List.map id (outbox s)) ->
  let result := processNextBatch batchSize now s in
  fst result = Nat.min batchSize (pendingEvents (getStats (outbox s)))
  /\ pendingEvents (getStats (outbox (snd result)))
     = (pendingEvents (getStats (outbox s)) - fst result)%nat
  /\ exists batch,
      published (snd result) = (published s ++ batch)%list
      /\ List.length batch = fst result
      /\ StronglySorted older batch
      /\ (forall event, In event batch ->
                        In event (outbox s) /\ isPending event = true)
      /\ (forall event row,
             In event batch ->
             In row (outbox (snd result)) -> isPending row = true ->
             older event row)
      /\ Forall2 (fun old new =>
                    (In old batch /\ new = with_published_at now old)
                    \/ (~ In old batch /\ new = old))
                 (outbox s) (outbox (snd result)).
Proof.
  intros Hids result. subst result.
  destruct (processNextBatch_facts batchSize now s Hids)
    as (batch & Hcount & Hlen & Hpub & Hsorted & Hperm & Holder & _ & Hrows).
  cbn [getStats pendingEvents].
  pose proof (Permutation_length Hperm) as Hl. rewrite length_app in Hl.
  split; [now rewrite Hcount | ].
  split; [rewrite Hcount; lia | ].
  exists batch.
  split; [exact Hpub | ]. split; [now rewrite Hcount | ].
  split; [exact Hsorted | ]. split.
  - intros event He. apply filter_In.
    apply (Permutation_in _ (Permutation_sym Hperm)).
    apply in_or_app. now left.
  - split; [ | exact Hrows].
    intros event row He Hr Hp. apply Holder; [exact He | ].
    now apply filter_In.
Qed.

Lemma nothing_pending_unchanged (table : Table) :
  List.filter isPending table = [] ->
  Forall2 (fun old new =>
             if isPending old
             then exists at_, new = with_published_at at_ old
             else new = old) table table.
Proof.
  induction table as [ | row table IH]; cbn [List.filter]; [constructor | ].
  destruct (isPending row) eqn:E; [discriminate | ].
  intros H. constructor; [now rewrite E | now apply IH].
Qed.

Lemma Forall2_unchanged {A : Type} (l l' : list A) :
  Forall2 (fun old new => new = old) l l' -> l' = l.
Proof. induction 1; [reflexivity | now subst]. Qed.

Lemma processOnce_from_drains (fuel batchSize : nat) (clock : nat -> Date) :
  (1 <= batchSize)%nat ->
  forall (turn totalProcessed : nat) (s : State),
    NoDup (List.map id (outbox s)) ->
    (List.length (List.filter isPending (outbox s)) < fuel)%nat ->
    exists s' sequence,
      processOnce_from fuel batchSize clock turn totalProcessed s
      = Some ((totalProcessed
               + List.length (List.filter isPending (outbox s)))%nat, s')
      /\ published s' = (published s ++ sequence)%list
      /\ Permutation sequence (List.filter isPending (outbox s))
      /\ StronglySorted older sequence
      /\ List.filter isPending (outbox s') = []
      /\ Forall2 (fun old new =>
                    if isPending old
                    then exists at_, new = with_published_at at_ old
                    else new = old)
                 (outbox s) (outbox s').
Proof.
  intros Hsize.
  induction fuel as [ | fuel IH]; intros turn totalProcessed s Hids Hfuel;
    [lia | ].
  destruct (processNextBatch_facts batchSize (clock turn) s Hids)
    as (batch & Hcount & Hlen & Hpub & Hsorted & Hperm & Holder & Hsame
        & Hrows).
  assert (Hpending : forall event, In event batch -> isPending event = true).
  { intros event He.
    assert (H : In event (List.filter isPending (outbox s)))
      by (apply (Permutation_in _ (Permutation_sym Hperm));
          apply in_or_app; now left).
    now apply filter_In in H. }
  pose proof (Permutation_length Hperm) as Hl. rewrite length_app in Hl.
  cbn [processOnce_from].
  destruct (processNextBatch batchSize (clock turn) s) as [batchCount s1].
  cbn [fst snd] in *. subst batchCount.
  destruct (Nat.ltb_spec 0 (List.length batch)) as [Hsome | Hnone].
  - destruct (IH (S turn) (totalProcessed + List.length batch)%nat s1)
      as (s' & sequence & Hrun & Hpub' & Hperm' & Hsorted' & Hdone & Hrows');
      [now rewrite Hsame | lia | ].
    exists s', (batch ++ sequence)%list.
    split; [rewrite Hrun; do 2 f_equal; lia | ].
    split; [now rewrite Hpub', Hpub, app_assoc | ].
    split.
    { apply Permutation_sym.
      transitivity (batch ++ List.filter isPending (outbox s1))%list;
        [exact Hperm | ].
      apply Permutation_app_head. now apply Permutation_sym. }
    split.
    { apply StronglySorted_app; [assumption | assumption | ].
      intros a b Ha Hb. apply Holder; [exact Ha | ].
      exact (Permutation_in _ Hperm' Hb). }
    split; [exact Hdone | ].
    refine (Forall2_compose _ _ _ _ _ _ _ Hrows Hrows').
    intros old mid new [[Hold ->] | [Hold ->]] Hnew.
    + rewrite (Hpending old Hold). cbn [isPending with_published_at
                                        published_at] in Hnew.
      subst new. now exists (clock turn).
    + exact Hnew.
  - assert (Hempty : batch = []) by (apply length_zero_iff_nil; lia).
    assert (Hnone' : List.filter isPending (outbox s) = [])
      by (apply length_zero_iff_nil; rewrite Hempty in *;
          cbn [List.length] in *; lia).
    assert (Hsame' : outbox s1 = outbox s).
    { apply Forall2_unchanged. refine (Forall2_impl _ _ Hrows).
      intros old new [[Hin _] | [_ ->]]; [ | reflexivity].
      rewrite Hempty in Hin. destruct Hin. }
    exists s1, []. rewrite Hsame', Hnone'. cbn [List.length].
    split; [now rewrite Hempty | ].
    split; [now rewrite Hpub, Hempty | ].
    split; [constructor | ].
    split; [constructor | ].
    split; [reflexivity | now apply nothing_pending_unchanged].
Qed.

(** X24. [processOnce] on a table whose ids are all different, with a
    batch size of at least one: after at most one batch more than there are
    pending events it returns their number; it has handed every one of them
    to [publishEvent] once, the oldest first across all batches; no event
    is left pending; the rows that were pending differ from before in
    [published_at] only and the others are as they were. *)
Theorem processOnce_drains_outbox
        (fuel batchSize : nat) (clock : nat -> Date) (s : State) :
  NoDup (List.map id (outbox s)) ->
  (1 <= batchSize)%nat ->
  (pendingEvents (getStats (outbox s)) < fuel)%nat ->
  exists s' sequence,
    processOnce fuel batchSize clock s
    = Some (pendingEvents (getStats (outbox s)), s')
    /\ published s' = (published s ++ sequence)%list
    /\ Permutation sequence (List.filter isPending (outbox s))
    /\ StronglySorted older sequence
    /\ pendingEvents (getStats (outbox s')) = 0%nat
    /\ publishedEvents (getStats (outbox s')) = List.length (outbox s)
    /\ Forall2 (fun old new =>
                  if isPending old
                  then exists at_, new = with_published_at at_ old
                  else new = old)
               (outbox s) (outbox s').
Proof.
  intros Hids Hsize Hfuel. cbn [getStats pendingEvents publishedEvents] in *.
  destruct (processOnce_from_drains fuel batchSize clock Hsize 0 0 s Hids
                                    Hfuel)
    as (s' & sequence & Hrun & Hpub & Hperm & Hsorted & Hdone & Hrows).
  exists s', sequence. unfold processOnce.
  split; [exact Hrun | ]. split; [exact Hpub | ]. split; [exact Hperm | ].
  split; [exact Hsorted | ]. split; [now rewrite Hdone | ].
  split; [ | exact Hrows].
  rewrite (Forall2_length Hrows). generalize (outbox s') Hdone.
  intros table. induction table as [ | row table IH]; cbn [List.filter]; [reflexivity | ].
  destruct (isPending row); [discriminate | ]. intros H.
  cbn [negb List.length]. now rewrite IH.
Qed.

(** X25. [getStats] counts every row once, as pending or as published;
    it reports no oldest pending event exactly when nothing is pending, and
    otherwise the creation time of a pending row than which no pending row
    is older. *)
Theorem getStats_counts_and_oldest (table : Table) :
  (pendingEvents (getStats table) + publishedEvents (getStats table))%nat
  = List.length table
  /\ (oldestPendingEvent (getStats table) = None
      <-> pendingEvents (getStats table) = 0%nat)
  /\ forall at_,
      oldestPendingEvent (getStats table) = Some at_ ->
      (exists row, In row table /\ isPending row = true
                   /\ created_at row = at_)
      /\ forall row, In row table -> isPending row = true ->
                     (at_ <= created_at row)%Z.
Proof.
  cbn [getStats pendingEvents publishedEvents oldestPendingEvent].
  split; [ | split].
  - induction table as [ | row table IH]; cbn [List.filter]; [reflexivity | ].
    destruct (isPending row); cbn [negb List.length]; lia.
  - unfold min_created_at.
    destruct (List.filter isPending table) as [ | row rows];
      [now split | ].
    cbn [fold_left List.length]. split; [ | discriminate].
    intros H. exfalso. revert H. generalize (created_at row).
    induction rows as [ | next rows IH]; intros at_; cbn [fold_left];
      [discriminate | apply IH].
  - intros at_ H.
    assert (Hmin : forall rows start,
               exists oldest,
                 fold_left (fun oldest row =>
                              match oldest with
                              | None => Some (created_at row)
                              | Some at_ => Some (Z.min at_ (created_at row))
                              end) rows (Some start) = Some oldest
                 /\ (oldest = start
                     \/ exists row, In row rows /\ created_at row = oldest)
                 /\ (oldest <= start)%Z
                 /\ forall row, In row rows -> (oldest <= created_at row)%Z).
    { induction rows as [ | next rows IH]; intros start; cbn [fold_left].
      - exists start. repeat split; auto; [lia | intros row []].
      - destruct (IH (Z.min start (created_at next)))
          as (oldest & -> & Hwhere & Hle & Hall).
        exists oldest. split; [reflexivity | ]. split; [ | split].
        + destruct Hwhere as [-> | (row & Hrow & <-)].
          * destruct (Z.min_spec start (created_at next)) as [[_ ->] | [_ ->]];
              [now left | right; exists next; split; [now left | reflexivity]].
          * right. exists row. split; [now right | reflexivity].
        + lia.
        + intros row [<- | Hrow]; [lia | now apply Hall]. }
    unfold min_created_at in H.
    assert (Hin : forall row, In row (List.filter isPending table)
                              <-> In row table /\ isPending row = true)
      by (intros row; apply filter_In).
    destruct (List.filter isPending table) as [ | first rows];
      [discriminate | ].
    cbn [fold_left] in H.
    destruct (Hmin rows (created_at first)) as (oldest & E & Hwhere & Hle & Hall).
    pose proof (eq_trans (eq_sym E) H) as Heq. injection Heq as ->. split.
    + destruct Hwhere as [-> | (row & Hrow & <-)].
      * exists first. destruct (proj1 (Hin first) (or_introl eq_refl)).
        auto.
      * exists row. destruct (proj1 (Hin row) (or_intror Hrow)). auto.
    + intros row Hrow Hp.
      destruct (proj2 (Hin row) (conj Hrow Hp)) as [<- | Hr];
        [exact Hle | now apply Hall].
Qed.

End OutboxBatchesFacts.

Lemma processNextBatch_takes_oldest_witness :
  fst (OutboxBatches.processNextBatch 2 1699000010000%Z Sample3.backlog)
  = 2%nat.
Proof.
  apply (processNextBatch_takes_oldest 2 1699000010000%Z Sample3.backlog).
  repeat constructor; cbn; intuition discriminate.
Defined.

Lemma processOnce_drains_witness :
  exists s' sequence,
    OutboxBatches.processOnce 4 2 Sample3.clock Sample3.backlog
    = Some (3%nat, s')
    /\ OutboxBatches.published s' = sequence
    /\ List.map OutboxDispatcher.id sequence = ["e4"; "e1"; "e3"].
Proof.
  destruct (processOnce_drains_outbox 4 2 Sample3.clock Sample3.backlog)
    as (s' & sequence & Hrun & Hpub & _).
  - repeat constructor; cbn; intuition discriminate.
  - cbn. lia.
  - cbn. lia.
  - exists s', sequence. split; [exact Hrun | ]. split; [exact Hpub | ].
    vm_compute in Hrun. injection Hrun as <-. cbn in Hpub. now subst.
Defined.

(* ------------------------------------------------------------------ *)
(** ** The replies of the controller *)

Lemma handleError_reply (error : AppError.t) :
  exists response,
    OrdersController.sent (OrdersController.handleError error)
    = OrdersController.ErrorPayload response
    /\ match error with
       | AppError.ValidationError message field =>
           OrdersController.status (OrdersController.handleError error) = 400
           /\ OrdersController.error response = "Validation Error"
           /\ OrdersController.message response = message
           /\ OrdersController.field response = field
       | AppError.NotFoundError message resource id =>
           OrdersController.status (OrdersController.handleError error) = 404
           /\ OrdersController.error response = "Not Found"
           /\ OrdersController.message response = message
           /\ OrdersController.resource response = Some resource
           /\ OrdersController.id response = Some id
       | AppError.ConflictError message reason =>
           OrdersController.status (OrdersController.handleError error) = 409
           /\ OrdersController.error response = "Conflict"
           /\ OrdersController.message response = message
           /\ OrdersController.reason response = Some reason
       | AppError.InfraError message _ =>
           OrdersController.status (OrdersController.handleError error) = 500
           /\ OrdersController.error response = "Internal Server Error"
           /\ OrdersController.message response = message
       end.
Proof. destruct error; eexists; split; try reflexivity; repeat split. Qed.

(** The response for an order: it is there unless the order has lines none
    of which has a subtotal; each line shows the product of price and
    quantity, or zero when that is no amount; the total is the fallback of
    zero USD or an amount in the currency of one of the lines. *)
Lemma orderResponse_facts (order : Order.t) :
  match OrdersController.orderResponse order with
  | Fulfilled response =>
      OrdersController.orderId response = OrderId.value (Order.id order)
      /\ OrdersController.createdAt response = Order.createdAt order
      /\ List.length (OrdersController.items response)
         = Order.itemCount order
      /\ Forall
           (fun line =>
              OrdersController.subtotal line
              = {| OrdersController.amount :=
                     if validAmount (OrdersController.quantity line)
                        && validAmount
                             (OrdersController.amount
                                (OrdersController.unitPrice line)
                              * OrdersController.quantity line)%float
                     then (OrdersController.amount
                             (OrdersController.unitPrice line)
                           * OrdersController.quantity line)%float
                     else 0%float;
                   OrdersController.currency :=
                     OrdersController.currency
                       (OrdersController.unitPrice line) |})
           (OrdersController.items response)
      /\ (OrdersController.total response
          = {| OrdersController.amount := 0%float;
               OrdersController.currency := "USD" |}
          \/ (validAmount (OrdersController.amount
                             (OrdersController.total response)) = true
              /\ exists line,
                  In line (OrdersController.items response)
                  /\ OrdersController.currency
                       (OrdersController.total response)
                     = OrdersController.currency
                         (OrdersController.unitPrice line)))
      /\ (Order.itemCount order = 0 ->
          OrdersController.total response
          = {| OrdersController.amount := 0%float;
               OrdersController.currency := "USD" |})
  | Rejected reason =>
      reason = "TypeError"
      /\ Order.itemCount order <> 0
      /\ Forall (fun item => computable item = false) (Order.items order)
  end.
Proof.
  unfold OrdersController.orderResponse, Order.calculateTotal,
    Order.itemCount.
  assert (Hlines : Forall
           (fun line =>
              OrdersController.subtotal line
              = {| OrdersController.amount :=
                     if validAmount (OrdersController.quantity line)
                        && validAmount
                             (OrdersController.amount
                                (OrdersController.unitPrice line)
                              * OrdersController.quantity line)%float
                     then (OrdersController.amount
                             (OrdersController.unitPrice line)
                           * OrdersController.quantity line)%float
                     else 0%float;
                   OrdersController.currency :=
                     OrdersController.currency
                       (OrdersController.unitPrice line) |})
           (List.map OrdersController.itemResponse (Order.items order))).
  { apply Forall_forall. intros line Hline. apply in_map_iff in Hline.
    destruct Hline as (item & <- & _).
    unfold OrdersController.itemResponse.
    cbn [OrdersController.subtotal OrdersController.quantity
         OrdersController.unitPrice OrdersController.amount
         OrdersController.currency].
    change (validAmount (Quantity.value (OrderItem.quantity item))
            && validAmount
                 (Money.amount (OrderItem.unitPrice item)
                  * Quantity.value (OrderItem.quantity item))%float)
      with (computable item).
    destruct (computable item) eqn:Ec.
    - now rewrite (subtotal_computable _ Ec).
    - destruct (subtotal_not_computable _ Ec) as [error ->]. reflexivity. }
  assert (Hlen : List.length
                   (List.map OrdersController.itemResponse (Order.items order))
                 = Map_size (Order._items order)).
  { rewrite length_map. unfold Order.items, Map_values, Map_size.
    apply length_map. }
  destruct (Nat.eqb_spec (Map_size (Order._items order)) 0) as [Hzero | Hsome].
  - cbn [OrdersController.orderId OrdersController.createdAt
         OrdersController.items OrdersController.total].
    repeat split; auto.
  - pose proof (totals_keys (Map_values (Order._items order)) Map_new
                            eq_refl) as [_ Hkeys].
    pose proof (totals_entries (Map_values (Order._items order)) Map_new
                               (Forall_nil _)) as Hentries.
    set (totals := Order.calculateTotalsByCurrency order).
    change (fold_left totalsStep (Map_values (Order._items order)) Map_new)
      with totals in Hkeys, Hentries.
    clearbody totals.
    destruct (1 <? Map_size totals)%nat.
    + cbn [OrdersController.orderId OrdersController.createdAt
           OrdersController.items OrdersController.total].
      repeat split; auto.
    + destruct totals as [ | [code value] totals];
        cbn [Map_first Map_values List.map hd_error].
      * split; [reflexivity | ]. split; [exact Hsome | ].
        apply Forall_forall. intros item Hitem.
        destruct (computable item) eqn:Ec; [ | reflexivity].
        exfalso. apply (proj2 (Hkeys (codeOf item))).
        right. exists item. auto.
      * cbn [OrdersController.orderId OrdersController.createdAt
             OrdersController.items OrdersController.total].
        split; [reflexivity | ]. split; [reflexivity | ].
        split; [exact Hlen | ]. split; [exact Hlines | ].
        split; [ | intros H; contradiction].
        right. apply Forall_inv in Hentries. cbn [fst snd] in Hentries.
        destruct Hentries as [Hcode Hvalid].
        cbn [OrdersController.amount OrdersController.currency].
        split; [exact Hvalid | ].
        destruct (proj1 (Hkeys code) (or_introl eq_refl))
          as [[] | (item & Hitem & _ & Hc)].
        exists (OrdersController.itemResponse item).
        split; [now apply in_map | ].
        cbn [snd]. rewrite Hcode. symmetry. exact Hc.
Qed.

Section ControllerReplies.
Context {World : Type}.
Variable logger : CreateOrderUseCase.Logger World.

Section CreateOrderReplies.
Variable orderRepository : CreateOrderUseCase.OrderRepository World.
Variable eventBus : CreateOrderUseCase.EventBus World.
Variable useCaseLogger : CreateOrderUseCase.Logger World.

(** What [CreateOrderUseCase.execute] hands to the controller. *)
Lemma CreateOrder_execute_order
      (now : Date) (random : number)
      (dto : CreateOrderUseCase.CreateOrderDTO) (w : World) :
  match fst (CreateOrderUseCase.execute orderRepository eventBus useCaseLogger
                                        now random dto w) with
  | ok order =>
      exists id,
        order = snd (Order.pullDomainEvents
                       (Order.create now random (Some id)))
        /\ match truthy (CreateOrderUseCase.orderId dto) with
           | Some given => OrderId.value id = trim given
           | None => id = OrderId.generate now random
           end
  | fail (AppError.ValidationError _ field) => field = Some "orderId"
  | fail (AppError.ConflictError _ reason) => reason = "duplicate_order_id"
  | fail (AppError.NotFoundError _ _ _) => False
  | fail (AppError.InfraError _ _) => True
  end.
Proof.
  assert (Hp : forall id w1,
             match fst (CreateOrderUseCase.persistAndPublish
                          orderRepository eventBus useCaseLogger now random
                          id w1) with
             | ok order =>
                 order = snd (Order.pullDomainEvents
                                (Order.create now random (Some id)))
             | fail (AppError.InfraError _ _) => True
             | fail _ => False
             end).
  { intros id w1. unfold CreateOrderUseCase.persistAndPublish.
    destruct (CreateOrderUseCase.save orderRepository _ _)
      as [[[] | thrown] w2]; [ | exact I].
    cbn [Order.pullDomainEvents snd].
    now destruct (CreateOrderUseCase.publishAll eventBus _ _)
      as [[[] | ] w3]. }
  unfold CreateOrderUseCase.execute.
  destruct (truthy (CreateOrderUseCase.orderId dto)) as [given | ].
  - destruct (OrderId.create given) as [id | message] eqn:Eid;
      [ | reflexivity].
    assert (Hvalue : OrderId.value id = trim given).
    { unfold OrderId.create in Eid.
      destruct (String_falsy given || _); [discriminate | ].
      now injection Eid as <-. }
    destruct (CreateOrderUseCase.exists_ orderRepository id _)
      as [[[ | ] | thrown] w1]; [reflexivity | | exact I].
    pose proof (Hp id w1) as H.
    destruct (fst (CreateOrderUseCase.persistAndPublish _ _ _ _ _ _ _))
      as [order | []]; try contradiction; [ | exact I].
    now exists id.
  - match goal with
    | |- context [CreateOrderUseCase.persistAndPublish _ _ _ _ _ ?id ?w1] =>
        pose proof (Hp id w1) as H
    end.
    destruct (fst (CreateOrderUseCase.persistAndPublish _ _ _ _ _ _ _))
      as [order | []]; try contradiction; [ | exact I].
    now exists (OrderId.generate now random).
Qed.

(** X26. POST /orders, whatever the ports do, never throws. It answers
    201 with the id (the given one trimmed, or a generated one), no items,
    the creation time and a total of zero USD, since the total of an order
    without lines cannot be computed; or 400 on the field orderId; or 409
    with the reason duplicate_order_id; or 500. It never answers 404. *)
Theorem POST_orders_replies
        (now : Date) (random : number)
        (request : OrdersController.CreateOrderRequest) (w : World) :
  match fst (OrdersController.createOrder
               (OrdersController.createOrderUseCase
                  orderRepository eventBus useCaseLogger now random)
               logger request w) with
  | Fulfilled reply =>
      match OrdersController.sent reply with
      | OrdersController.OrderPayload response =>
          OrdersController.status reply = 201
          /\ OrdersController.items response = []
          /\ OrdersController.total response
             = {| OrdersController.amount := 0%float;
                  OrdersController.currency := "USD" |}
          /\ OrdersController.createdAt response = now
          /\ OrdersController.orderId response
             = match truthy (OrdersController.body_orderId request) with
               | Some given => trim given
               | None => OrderId.value (OrderId.generate now random)
               end
      | OrdersController.ErrorPayload response =>
          (OrdersController.status reply = 400
           /\ OrdersController.error response = "Validation Error"
           /\ OrdersController.field response = Some "orderId")
          \/ (OrdersController.status reply = 409
              /\ OrdersController.error response = "Conflict"
              /\ OrdersController.reason response
                 = Some "duplicate_order_id")
          \/ (OrdersController.status reply = 500
              /\ OrdersController.error response = "Internal Server Error")
      end
  | Rejected _ => False
  end.
Proof.
  unfold OrdersController.createOrder, OrdersController.createOrderUseCase.
  cbn [OrdersController.createOrder_execute].
  match goal with
  | |- context [CreateOrderUseCase.execute _ _ _ _ _ ?dto ?w1] =>
      pose proof (CreateOrder_execute_order now random dto w1) as H;
        destruct (CreateOrderUseCase.execute orderRepository eventBus
                    useCaseLogger now random dto w1) as [[order | error] w2]
  end; cbn [fst CreateOrderUseCase.orderId] in H.
  - destruct H as (id & -> & Hid).
    cbn. repeat split; auto.
    destruct (truthy (OrdersController.body_orderId request));
      [exact Hid | now rewrite Hid].
  - cbn [fst]. destruct error; try contradiction; subst; cbn; auto.
Qed.
End CreateOrderReplies.

Section AddItemReplies.
Variable orderRepository : AddItemToOrderUseCase.OrderRepository World.
Variable pricingService : AddItemToOrderUseCase.PricingService World.
Variable eventBus : AddItemToOrderUseCase.EventBus World.
Variable useCaseLogger : AddItemToOrderUseCase.Logger World.

(** What [AddItemToOrderUseCase.execute] hands to the controller. *)
Lemma AddItem_execute_order
      (now : Date) (dto : AddItemToOrderUseCase.AddItemToOrderDTO)
      (w : World) :
  match fst (AddItemToOrderUseCase.execute
               orderRepository pricingService eventBus useCaseLogger now
               dto w) with
  | ok order => Order.itemCount order <> 0
  | fail (AppError.ValidationError _ field) =>
      In field [Some "orderId"; Some "productId"; Some "quantity"; None]
  | fail (AppError.NotFoundError _ resource id) =>
      (resource = "Order" /\ id = AddItemToOrderUseCase.orderId dto)
      \/ (resource = "Product" /\ id = AddItemToOrderUseCase.productId dto)
  | fail (AppError.ConflictError _ _) => False
  | fail (AppError.InfraError _ _) => True
  end.
Proof.
  unfold AddItemToOrderUseCase.execute.
  destruct (OrderId.create _) as [id | e1]; [ | cbn; auto].
  destruct (ProductId.create _) as [p | e2]; [ | cbn; auto].
  destruct (Quantity.create _) as [q | e3]; [ | cbn; auto].
  destruct (AddItemToOrderUseCase.findById orderRepository id _)
    as [[[order | ] | thrown] w1]; [ | cbn; auto | exact I].
  destruct (AddItemToOrderUseCase.getPrice pricingService p _)
    as [[[price | ] | thrown] w2]; [ | cbn; auto | exact I].
  match goal with
  | |- context [AddItemToOrderUseCase.addAndPersist _ _ _ _ _ _ _ _ ?w3] =>
      pose proof (addAndPersist_result orderRepository eventBus useCaseLogger
                                       now order p q price w3) as H
  end.
  destruct (fst (AddItemToOrderUseCase.addAndPersist _ _ _ _ _ _ _ _ _))
    as [order' | []]; try contradiction; [ | | exact I].
  - destruct H as (_ & Hhas & _). unfold Order.hasProduct, Map_has in Hhas.
    unfold Order.itemCount, Map_size.
    destruct (Order._items order'); [discriminate | discriminate].
  - destruct H as [-> _]. cbn. auto.
Qed.

(** X27. POST /orders/:id/items, whatever the ports do, answers 200 with
    the order, which has at least one line, each line with the product of
    price and quantity as subtotal, or zero when that is no amount, and
    with a total that is zero USD or a valid amount in the currency of one
    of the lines; or 400, 404 naming the order or the product as the
    request gave them, or 500; never 409. The handler throws, without a
    reply, when the use case returned an order none of whose lines has a
    subtotal. *)
Theorem POST_order_items_replies
        (now : Date) (request : OrdersController.AddItemToOrderRequest)
        (w : World) :
  match fst (OrdersController.addItemToOrder
               (OrdersController.addItemToOrderUseCase
                  orderRepository pricingService eventBus useCaseLogger now)
               logger request w) with
  | Fulfilled reply =>
      match OrdersController.sent reply with
      | OrdersController.OrderPayload response =>
          OrdersController.status reply = 200
          /\ OrdersController.items response <> []
          /\ Forall
               (fun line =>
                  OrdersController.subtotal line
                  = {| OrdersController.amount :=
                         if validAmount (OrdersController.quantity line)
                            && validAmount
                                 (OrdersController.amount
                                    (OrdersController.unitPrice line)
                                  * OrdersController.quantity line)%float
                         then (OrdersController.amount
                                 (OrdersController.unitPrice line)
                               * OrdersController.quantity line)%float
                         else 0%float;
                       OrdersController.currency :=
                         OrdersController.currency
                           (OrdersController.unitPrice line) |})
               (OrdersController.items response)
          /\ (OrdersController.total response
              = {| OrdersController.amount := 0%float;
                   OrdersController.currency := "USD" |}
              \/ (validAmount (OrdersController.amount
                                 (OrdersController.total response)) = true
                  /\ exists line,
                      In line (OrdersController.items response)
                      /\ OrdersController.currency
                           (OrdersController.total response)
                         = OrdersController.currency
                             (OrdersController.unitPrice line)))
      | OrdersController.ErrorPayload response =>
          (OrdersController.status reply = 400
           /\ OrdersController.error response = "Validation Error"
           /\ In (OrdersController.field response)
                 [Some "orderId"; Some "productId"; Some "quantity"; None])
          \/ (OrdersController.status reply = 404
              /\ OrdersController.error response = "Not Found"
              /\ ((OrdersController.resource response = Some "Order"
                   /\ OrdersController.id response
                      = Some (OrdersController.params_id request))
                  \/ (OrdersController.resource response = Some "Product"
                      /\ OrdersController.id response
                         = Some (OrdersController.body_productId request))))
          \/ (OrdersController.status reply = 500
              /\ OrdersController.error response = "Internal Server Error")
      end
  | Rejected _ =>
      exists order dto w',
        fst (AddItemToOrderUseCase.execute
               orderRepository pricingService eventBus useCaseLogger now
               dto w') = ok order
        /\ Order.items order <> []
        /\ Forall (fun item => computable item = false) (Order.items order)
  end.
Proof.
  unfold OrdersController.addItemToOrder,
    OrdersController.addItemToOrderUseCase.
  cbn [OrdersController.addItemToOrder_execute].
  match goal with
  | |- context [AddItemToOrderUseCase.execute _ _ _ _ _ ?dto ?w1] =>
      pose proof (AddItem_execute_order now dto w1) as H;
        destruct (AddItemToOrderUseCase.execute
                    orderRepository pricingService eventBus useCaseLogger
                    now dto w1) as [[order | error] w2] eqn:E
  end; cbn [fst] in H.
  - pose proof (orderResponse_facts order) as Hr.
    assert (Hlines : Order.itemCount order = List.length (Order.items order)).
    { unfold Order.itemCount, Order.items, Map_size, Map_values.
      now rewrite length_map. }
    destruct (OrdersController.orderResponse order) as [response | thrown];
      cbn [fst OrdersController.sent OrdersController.status].
    + destruct Hr as (_ & _ & Hlen & Hsub & Htotal & _).
      split; [reflexivity | ]. split; [ | split; assumption].
      intros Hnil. rewrite Hnil in Hlen. cbn in Hlen. congruence.
    + destruct Hr as (_ & Hsome & Hnone).
      eexists order, _, _. split; [now rewrite E | ].
      split; [ | exact Hnone].
      intros Hnil. rewrite Hnil in Hlines. contradiction.
  - cbn [fst AddItemToOrderUseCase.orderId AddItemToOrderUseCase.productId]
      in *.
    destruct error; try contradiction; cbn.
    + left. auto.
    + right. left. split; [reflexivity | ]. split; [reflexivity | ].
      destruct H as [[-> ->] | [-> ->]]; auto.
    + right. right. auto.
Qed.
End AddItemReplies.
End ControllerReplies.

(** Ten units of a product that costs 1e308 USD: the use case adds the
    line, its subtotal overflows, the order has no total and the handler
    throws instead of replying. *)
Example POST_order_items_throws_on_overflow :
  fst (OrdersController.addItemToOrder
         (OrdersController.addItemToOrderUseCase
            Sample4.emptyOrderRepository Sample4.steepPricing
            Sample4.workingBus Sample4.silentLogger Sample.now)
         Sample4.controllerLogger
         {| OrdersController.params_id := "ORD-1";
            OrdersController.body_productId := "LAPTOP-001";
            OrdersController.body_quantity := 10%float |} tt)
  = Rejected "TypeError".
Proof. vm_compute. reflexivity. Qed.
